(** * ChronoLure: the campaign soft-delete lifecycle and the trash retention job

    A shallow embedding of [models] (soft delete, restore, purge, candidate
    listing) and of [worker.TrashTTLJob], with the storage handle, the clock
    and the logger as explicit state.  Every function below follows its Go
    counterpart statement by statement; theorems come after the definitions. *)

From Stdlib Require Import ZArith List String Ascii Bool Lia Sorted Permutation DecimalString.
Import ListNotations.
Local Open Scope Z_scope.

(** ** Values *)

(** An instant ([time.Time]), in nanoseconds on the time line. [UTC()] changes
    the location an instant is printed in, not the instant. *)
Definition Time : Type := Z.

Definition UTC (t : Time) : Time := t.

(** Go [error] values.  The package-level sentinels of [models], the ORM's
    record-not-found sentinel, the two [context] errors, values built at a call
    site by [errors.New] and [fmt.Errorf], and whatever the storage driver
    reports. *)
Inductive error : Type :=
| ErrAlreadyDeleted
| ErrNotDeleted
| ErrCampaignNotFound
| ErrPermissionDenied
| ErrNameConflict
| gorm_ErrRecordNotFound
| context_Canceled
| context_DeadlineExceeded
| errors_New (msg : string)
| fmt_Errorf_w (format : string) (cause : error)
| fmt_Errorf_d (format : string) (n : Z)
| driver_error (msg : string).

Definition error_eq_dec (a b : error) : {a = b} + {a <> b}.
Proof.
  decide equality; try apply string_dec; apply Z.eq_dec.
Defined.

Definition error_eqb (a b : error) : bool :=
  if error_eq_dec a b then true else false.

(** [errors.Is]: the error itself or anything it wraps with [%w]. *)
Fixpoint errors_Is (err target : error) : bool :=
  error_eqb err target ||
  match err with
  | fmt_Errorf_w _ cause => errors_Is cause target
  | _ => false
  end.

(** ** Rows *)

(** Modelled from the spec: the [Campaign] struct, whose declaration is in a
    file of [models] other than the ones embedded here.  The fields are those of
    the spec's data model that the lifecycle reads or writes, under the names
    the code uses for them; [nil] pointers are [None].  [Version] is the integer
    column [version]; [Status] and [StatusBeforeDelete] hold status strings. *)
Record Campaign : Type := mkCampaign {
  Id : Z;
  UserId : Z;
  Name : string;
  Status : string;
  CampaignType : string;
  DeletedAt : option Time;
  DeletedBy : option Z;
  RestoredAt : option Time;
  RestoredBy : option Z;
  StatusBeforeDelete : string;
  DeleteReason : string;
  Version : Z
}.

(** Modelled from the spec: the child entities of a campaign that are declared
    with it, each with its key, the campaign it belongs to, and a payload:
    tracking events, delivery results, and the association with a target
    group. *)
Record Event : Type := mkEvent {
  EventId : Z;
  EventCampaignId : Z;
  EventMessage : string
}.

Record Result : Type := mkResult {
  ResultId : Z;
  ResultCampaignId : Z;
  RId : string
}.

(** [CalendarEvent], a row of [calendar_events]. *)
Record CalendarEvent : Type := mkCalendarEvent {
  CalendarEventId : Z;
  CalendarResultId : Z;
  EventType : string;
  CalendarTimestamp : Time;
  CalendarIP : string;
  CalendarUserAgent : string;
  CalendarDetails : string
}.

Record CampaignGroup : Type := mkCampaignGroup {
  GroupCampaignId : Z;
  GroupId : Z
}.

Definition AuditCampaignSoftDeleted : string := "CAMPAIGN_SOFT_DELETED".
Definition AuditCampaignRestored : string := "CAMPAIGN_RESTORED".
Definition AuditCampaignPurged : string := "CAMPAIGN_PURGED".

(** [AuditLog], a row of [audit_log].  A [Timestamp] that is [None] is the zero
    time, which the column's default replaces. *)
Record AuditLog : Type := mkAuditLog {
  ID : Z;
  Timestamp : option Time;
  ActorID : option Z;
  ActorName : string;
  Action : string;
  EntityType : string;
  EntityID : Z;
  Metadata : string;
  IPAddress : string;
  UserAgent : string
}.

(** A value of the [map[string]interface{}] handed to [SetMetadata]. *)
Inductive MetaValue : Type :=
| MString (s : string)
| MBool (b : bool)
| MInt (z : Z)
| MTime (t : option Time)
| MStrings (l : list string).

(** [IsDeleted]: the campaign is in the trash. *)
Definition IsDeleted (c : Campaign) : bool :=
  match DeletedAt c with
  | Some _ => true
  | None => false
  end.

(** ** The store *)

Record Store : Type := mkStore {
  campaigns : list Campaign;
  events : list Event;
  results : list Result;
  calendar_events : list CalendarEvent;
  campaign_groups : list CampaignGroup;
  audit_log : list AuditLog
}.

(** The settings a [*gorm.DB] handle carries into a statement. *)
Record Handle : Type := mkHandle {
  query_option : option string;
  unscoped : bool
}.

(** The default scope of the ORM on a model with a [DeletedAt] field, which
    [Campaign] has: a handle that is not [Unscoped()] adds [deleted_at IS
    NULL] to the WHERE of what it sends, so it reaches the rows that are not
    in the trash and no other ([RestoreCampaign] and the trash listings say so
    where they call [Unscoped()]). *)
Definition in_scope (h : Handle) (r : Campaign) : bool :=
  unscoped h || negb (IsDeleted r).

(** The statements the package sends to the storage. *)
Inductive Stmt : Type :=
| SqlBegin
| SqlCommit
| SqlRollback
| SqlFirstCampaign (h : Handle) (id : Z)
| SqlSaveCampaign (h : Handle) (c : Campaign)
| SqlCreateAudit (a : AuditLog)
| SqlDeleteCalendarEvents (campaign_id : Z)
| SqlDeleteEvents (campaign_id : Z)
| SqlDeleteResults (campaign_id : Z)
| SqlDeleteCampaignGroups (campaign_id : Z)
| SqlDeleteCampaign (c : Campaign)
| SqlCountNameConflicts (user_id : Z) (name : string) (exclude_id : Z)
| SqlPluckPurgeCandidates (cutoff : Time) (limit : Z).

(** ** The logger *)

Inductive Level : Type := Debug | Info | Warn | Error.

Inductive Arg : Type :=
| AInt (z : Z)
| AStr (s : string)
| AErr (e : error)
| ADuration (d : Z).

(** One call of the logger: level, format string and arguments as passed. *)
Record LogLine : Type := mkLogLine {
  level : Level;
  format : string;
  args : list Arg
}.

(** ** The environment and the world *)

(** What the program does not decide: which statement the storage fails (by
    the number of statements sent before it and by its text), what the clock
    reads at each reading, the SQL dialect, and whether the package-level
    handle is set. *)
Record Env : Type := mkEnv {
  fault : nat -> Stmt -> option error;
  clock : nat -> Time;
  dialect : string;
  db_is_nil : bool
}.

(** The committed store, the working copy of the open transaction (if one is
    open), the statements sent so far, the log, and the number of clock
    readings taken. *)
Record World : Type := mkWorld {
  db : Store;
  tx : option Store;
  issued : list Stmt;
  logged : list LogLine;
  ticks : nat
}.

(** A procedure body: it either returns from the enclosing function with an
    [R] (a Go [return] in the middle of the body) or goes on with an [A]. *)
Definition Proc (R A : Type) : Type := World -> (R + A) * World.

Definition ret {R A : Type} (a : A) : Proc R A := fun w => (inr a, w).

Definition Return {R A : Type} (r : R) : Proc R A := fun w => (inl r, w).

Definition bind {R A B : Type} (m : Proc R A) (k : A -> Proc R B) : Proc R B :=
  fun w =>
    match m w with
    | (inl r, w') => (inl r, w')
    | (inr a, w') => k a w'
    end.

Definition exec {R : Type} (m : Proc R R) (w : World) : R * World :=
  match m w with
  | (inl r, w') => (r, w')
  | (inr r, w') => (r, w')
  end.

Declare Scope proc_scope.
Delimit Scope proc_scope with proc.
Notation "x <- m ;; k" := (bind m (fun x => k))
  (at level 61, m at next level, right associativity) : proc_scope.
Notation "m ;; k" := (bind m (fun _ => k))
  (at level 61, right associativity) : proc_scope.

Local Open Scope proc_scope.

(** ** Changing the world *)

Definition set_db (s : Store) (w : World) : World :=
  mkWorld s (tx w) (issued w) (logged w) (ticks w).

Definition set_tx (t : option Store) (w : World) : World :=
  mkWorld (db w) t (issued w) (logged w) (ticks w).

Definition sent (s : Stmt) (w : World) : World :=
  mkWorld (db w) (tx w) (issued w ++ [s]) (logged w) (ticks w).

Definition wrote (l : LogLine) (w : World) : World :=
  mkWorld (db w) (tx w) (issued w) (logged w ++ [l]) (ticks w).

Definition ticked (w : World) : World :=
  mkWorld (db w) (tx w) (issued w) (logged w) (S (ticks w)).

(** The store a statement sees: the working copy of the open transaction, or
    the committed store when none is open. *)
Definition cur (w : World) : Store :=
  match tx w with
  | Some s => s
  | None => db w
  end.

Definition put_cur (s : Store) (w : World) : World :=
  match tx w with
  | Some _ => set_tx (Some s) w
  | None => set_db s w
  end.

(** ** Tables *)

Definition set_campaigns (l : list Campaign) (s : Store) : Store :=
  mkStore l (events s) (results s) (calendar_events s) (campaign_groups s) (audit_log s).

Definition set_events (l : list Event) (s : Store) : Store :=
  mkStore (campaigns s) l (results s) (calendar_events s) (campaign_groups s) (audit_log s).

Definition set_results (l : list Result) (s : Store) : Store :=
  mkStore (campaigns s) (events s) l (calendar_events s) (campaign_groups s) (audit_log s).

Definition set_calendar_events (l : list CalendarEvent) (s : Store) : Store :=
  mkStore (campaigns s) (events s) (results s) l (campaign_groups s) (audit_log s).

Definition set_campaign_groups (l : list CampaignGroup) (s : Store) : Store :=
  mkStore (campaigns s) (events s) (results s) (calendar_events s) l (audit_log s).

Definition set_audit_log (l : list AuditLog) (s : Store) : Store :=
  mkStore (campaigns s) (events s) (results s) (calendar_events s) (campaign_groups s) l.

(** The row with a primary key; the table has one row for a key. *)
Definition campaign_by_id (id : Z) (rows : list Campaign) : option Campaign :=
  find (fun r => Id r =? id) rows.

(** [Save]: every column of the row with the record's primary key is updated;
    a record that updates no row is inserted.  The package saves a record it
    has just looked up through the same scope in the same transaction, so the
    row is one the UPDATE of the handle reaches. *)
Definition save_campaign (c : Campaign) (rows : list Campaign) : list Campaign :=
  if existsb (fun r => Id r =? Id c) rows
  then map (fun r => if Id r =? Id c then c else r) rows
  else rows ++ [c].

(** The next primary key of the table. *)
Definition next_audit_id (rows : list AuditLog) : Z :=
  1 + fold_right (fun r m => Z.max (ID r) m) 0 rows.

Definition with_ID (a : AuditLog) (id : Z) : AuditLog :=
  mkAuditLog id (Timestamp a) (ActorID a) (ActorName a) (Action a)
             (EntityType a) (EntityID a) (Metadata a) (IPAddress a) (UserAgent a).

(** [Create]: a record whose primary key is zero gets the next key of the
    table; a key that is set goes into the INSERT as it is. *)
Definition keyed (a : AuditLog) (rows : list AuditLog) : AuditLog :=
  if ID a =? 0 then with_ID a (next_audit_id rows) else a.

Definition create_audit (a : AuditLog) (rows : list AuditLog) : list AuditLog :=
  rows ++ [keyed a rows].

(** [SELECT id FROM results WHERE campaign_id = ?] *)
Definition result_ids_of (campaign_id : Z) (rows : list Result) : list Z :=
  map ResultId (filter (fun r => ResultCampaignId r =? campaign_id) rows).

Definition mem_Z (z : Z) (l : list Z) : bool := existsb (Z.eqb z) l.

(** [DELETE FROM calendar_events WHERE result_id IN (SELECT id FROM results
    WHERE campaign_id = ?)] *)
Definition delete_calendar_events (campaign_id : Z) (s : Store) : Store :=
  set_calendar_events
    (filter (fun e => negb (mem_Z (CalendarResultId e) (result_ids_of campaign_id (results s))))
            (calendar_events s)) s.

Definition delete_events (campaign_id : Z) (s : Store) : Store :=
  set_events (filter (fun e => negb (EventCampaignId e =? campaign_id)) (events s)) s.

(** [DELETE FROM results WHERE campaign_id = ?].  The MySQL migration
    declares [calendar_events] with [FOREIGN KEY(result_id) REFERENCES
    results(id) ON DELETE CASCADE], so on MySQL the calendar events of the
    deleted results go with them; no migration at hand declares the table for
    another dialect, where the statement is taken to reach [results] only. *)
Definition delete_results (dialect : string) (campaign_id : Z) (s : Store) : Store :=
  let gone := result_ids_of campaign_id (results s) in
  let s' := set_results
              (filter (fun r => negb (ResultCampaignId r =? campaign_id)) (results s)) s in
  if String.eqb dialect "mysql"
  then set_calendar_events
         (filter (fun e => negb (mem_Z (CalendarResultId e) gone)) (calendar_events s')) s'
  else s'.

Definition delete_campaign_groups (campaign_id : Z) (s : Store) : Store :=
  set_campaign_groups
    (filter (fun g => negb (GroupCampaignId g =? campaign_id)) (campaign_groups s)) s.

(** SQL [LOWER] on the letters A to Z. *)
Definition lower_ascii (a : ascii) : ascii :=
  let n := nat_of_ascii a in
  if (Nat.leb 65 n && Nat.leb n 90)%bool then ascii_of_nat (n + 32) else a.

Fixpoint LOWER (s : string) : string :=
  match s with
  | EmptyString => EmptyString
  | String a s' => String (lower_ascii a) (LOWER s')
  end.

(** The rows counted by [checkNameConflict]: [user_id = ? AND LOWER(name) =
    LOWER(?) AND deleted_at IS NULL AND id != ?]. *)
Definition name_conflict_row (user_id : Z) (name : string) (exclude_id : Z)
           (r : Campaign) : bool :=
  (UserId r =? user_id) && String.eqb (LOWER (Name r)) (LOWER name)
  && negb (IsDeleted r) && negb (Id r =? exclude_id).

Definition count_name_conflicts (user_id : Z) (name : string) (exclude_id : Z)
           (rows : list Campaign) : Z :=
  Z.of_nat (List.length (filter (name_conflict_row user_id name exclude_id) rows)).

(** [deleted_at IS NOT NULL AND deleted_at < ?] *)
Definition purge_candidate (cutoff : Time) (r : Campaign) : bool :=
  match DeletedAt r with
  | Some t => t <? cutoff
  | None => false
  end.

(** The sort key of [ORDER BY deleted_at ASC]; NULL sorts first. *)
Definition deleted_at_leb (a b : Campaign) : bool :=
  match DeletedAt a, DeletedAt b with
  | None, _ => true
  | Some _, None => false
  | Some x, Some y => x <=? y
  end.

Fixpoint insert_by_deleted_at (r : Campaign) (l : list Campaign) : list Campaign :=
  match l with
  | [] => [r]
  | x :: l' => if deleted_at_leb r x then r :: l else x :: insert_by_deleted_at r l'
  end.

Definition order_by_deleted_at (l : list Campaign) : list Campaign :=
  fold_right insert_by_deleted_at [] l.

(** [Limit(n)]: a negative limit lifts the limit. *)
Definition Limit {A : Type} (n : Z) (l : list A) : list A :=
  if 0 <=? n then firstn (Z.to_nat n) l else l.

Definition purge_candidate_rows (cutoff : Time) (limit : Z) (rows : list Campaign)
  : list Campaign :=
  Limit limit (order_by_deleted_at (filter (purge_candidate cutoff) rows)).

(** ** 64-bit arithmetic *)

Definition wrap64 (z : Z) : Z := (z + 2 ^ 63) mod 2 ^ 64 - 2 ^ 63.

(** [time.Hour], a [time.Duration] in nanoseconds. *)
Definition time_Hour : Z := 3600000000000.

(** [a * b] and [- a] on [int64]. *)
Definition mul64 (a b : Z) : Z := wrap64 (a * b).
Definition neg64 (a : Z) : Z := wrap64 (- a).

(** ** Field assignments on a campaign *)

Definition set_Name (v : string) (c : Campaign) : Campaign :=
  mkCampaign (Id c) (UserId c) v (Status c) (CampaignType c) (DeletedAt c) (DeletedBy c)
             (RestoredAt c) (RestoredBy c) (StatusBeforeDelete c) (DeleteReason c) (Version c).

Definition set_Status (v : string) (c : Campaign) : Campaign :=
  mkCampaign (Id c) (UserId c) (Name c) v (CampaignType c) (DeletedAt c) (DeletedBy c)
             (RestoredAt c) (RestoredBy c) (StatusBeforeDelete c) (DeleteReason c) (Version c).

Definition set_DeletedAt (v : option Time) (c : Campaign) : Campaign :=
  mkCampaign (Id c) (UserId c) (Name c) (Status c) (CampaignType c) v (DeletedBy c)
             (RestoredAt c) (RestoredBy c) (StatusBeforeDelete c) (DeleteReason c) (Version c).

Definition set_DeletedBy (v : option Z) (c : Campaign) : Campaign :=
  mkCampaign (Id c) (UserId c) (Name c) (Status c) (CampaignType c) (DeletedAt c) v
             (RestoredAt c) (RestoredBy c) (StatusBeforeDelete c) (DeleteReason c) (Version c).

Definition set_RestoredAt (v : option Time) (c : Campaign) : Campaign :=
  mkCampaign (Id c) (UserId c) (Name c) (Status c) (CampaignType c) (DeletedAt c) (DeletedBy c)
             v (RestoredBy c) (StatusBeforeDelete c) (DeleteReason c) (Version c).

Definition set_RestoredBy (v : option Z) (c : Campaign) : Campaign :=
  mkCampaign (Id c) (UserId c) (Name c) (Status c) (CampaignType c) (DeletedAt c) (DeletedBy c)
             (RestoredAt c) v (StatusBeforeDelete c) (DeleteReason c) (Version c).

Definition set_StatusBeforeDelete (v : string) (c : Campaign) : Campaign :=
  mkCampaign (Id c) (UserId c) (Name c) (Status c) (CampaignType c) (DeletedAt c) (DeletedBy c)
             (RestoredAt c) (RestoredBy c) v (DeleteReason c) (Version c).

Definition set_DeleteReason (v : string) (c : Campaign) : Campaign :=
  mkCampaign (Id c) (UserId c) (Name c) (Status c) (CampaignType c) (DeletedAt c) (DeletedBy c)
             (RestoredAt c) (RestoredBy c) (StatusBeforeDelete c) v (Version c).

Definition set_Version (v : Z) (c : Campaign) : Campaign :=
  mkCampaign (Id c) (UserId c) (Name c) (Status c) (CampaignType c) (DeletedAt c) (DeletedBy c)
             (RestoredAt c) (RestoredBy c) (StatusBeforeDelete c) (DeleteReason c) v.

(** [tx.Delete(c)] on a handle that is not [Unscoped()]: for a model with a
    [DeletedAt] field the ORM sends no DELETE but [UPDATE campaigns SET
    deleted_at = ? WHERE deleted_at IS NULL AND id = ?], with its own reading
    of the clock.  No row leaves the table, and a row that is in the trash
    already stays as it is. *)
Definition delete_campaign (now : Time) (c : Campaign) (s : Store) : Store :=
  set_campaigns
    (map (fun r => if (Id r =? Id c) && negb (IsDeleted r)
                   then set_DeletedAt (Some now) r
                   else r)
         (campaigns s)) s.

(** [RestoreResult] *)
Record RestoreResult : Type := mkRestoreResult {
  Success : bool;
  RestoredCampaign : option Campaign;
  NameChanged : bool;
  OldName : string;
  NewName : string;
  Warnings : list string
}.

(** [%d] of [fmt]. *)
Definition itoa (z : Z) : string := NilZero.string_of_int (Z.to_int z).

(** ** The worker's data *)

(** [TrashTTLConfig] *)
Record TrashTTLConfig : Type := mkTrashTTLConfig {
  RetentionDays : Z;
  Interval : Z;
  BatchSize : Z;
  Enabled : bool
}.

(** A [chan struct{}] nobody sends on: all that happens to it is [close]. *)
Inductive Chan : Type := ChanOpen | ChanClosed.

(** [close(ch)]; [None] is the run-time panic on a closed channel. *)
Definition close_chan (ch : Chan) : option Chan :=
  match ch with
  | ChanOpen => Some ChanClosed
  | ChanClosed => None
  end.

(** [TrashTTLJob]; [interval] is a [time.Duration]. *)
Record TrashTTLJob : Type := mkTrashTTLJob {
  retentionDays : Z;
  interval : Z;
  batchSize : Z;
  enabled : bool;
  stopChan : Chan
}.

(** [NewTrashTTLJob] creates a job, with the defaults for what is not set. *)
Definition NewTrashTTLJob (config : TrashTTLConfig) : TrashTTLJob :=
  let retention := if RetentionDays config <=? 0 then 90 else RetentionDays config in
  let every := if Interval config <=? 0 then 1 * time_Hour else Interval config in
  let batch := if BatchSize config <=? 0 then 100 else BatchSize config in
  mkTrashTTLJob retention every batch (Enabled config) ChanOpen.

(** A [context.Context] as the cycle sees it: whether [Done()] is ready at
    the check before the candidate at an index, and what [Err()] then is. *)
Record Context : Type := mkContext {
  Done : nat -> bool;
  Err : error
}.

(** [time.RFC3339] *)
Definition time_RFC3339 : string := "2006-01-02T15:04:05Z07:00".

(** ** Storage behaviours *)

(** The kinds of statement, to say which of them a storage accepts. *)
Inductive Kind : Type :=
| KBegin | KCommit | KRollback | KFirst | KSave | KCreate
| KDeleteCalendarEvents | KDeleteEvents | KDeleteResults | KDeleteCampaignGroups
| KDeleteCampaign | KCount | KPluck.

Definition kind_of (s : Stmt) : Kind :=
  match s with
  | SqlBegin => KBegin
  | SqlCommit => KCommit
  | SqlRollback => KRollback
  | SqlFirstCampaign _ _ => KFirst
  | SqlSaveCampaign _ _ => KSave
  | SqlCreateAudit _ => KCreate
  | SqlDeleteCalendarEvents _ => KDeleteCalendarEvents
  | SqlDeleteEvents _ => KDeleteEvents
  | SqlDeleteResults _ => KDeleteResults
  | SqlDeleteCampaignGroups _ => KDeleteCampaignGroups
  | SqlDeleteCampaign _ => KDeleteCampaign
  | SqlCountNameConflicts _ _ _ => KCount
  | SqlPluckPurgeCandidates _ _ => KPluck
  end.

Definition Kind_eq_dec (a b : Kind) : {a = b} + {a <> b}.
Proof.
  decide equality.
Defined.

(** The storage accepts every statement of a kind. *)
Definition succeeds (env : Env) (k : Kind) : Prop :=
  forall n s, kind_of s = k -> fault env n s = None.

(** The storage fails every statement of a kind with one error. *)
Definition fails_with (env : Env) (k : Kind) (e : error) : Prop :=
  forall n s, kind_of s = k -> fault env n s = Some e.

(** The statements of a trace that delete rows, those that create an audit
    entry, and those that count names. *)
Definition is_deletion (s : Stmt) : bool :=
  match kind_of s with
  | KDeleteCalendarEvents | KDeleteEvents | KDeleteResults
  | KDeleteCampaignGroups | KDeleteCampaign => true
  | _ => false
  end.

Definition is_create (s : Stmt) : bool :=
  match kind_of s with
  | KCreate => true
  | _ => false
  end.

Definition is_count (s : Stmt) : bool :=
  match kind_of s with
  | KCount => true
  | _ => false
  end.

(** ** The calendar invitation *)

(** Package [ics]: the text of an .ICS invitation.  A Go string is its bytes,
    and so is a [string] here. *)
Module ics.

Local Open Scope string_scope.

(** The bytes Go writes ["\n"] and ["\r"], and the line end ["\r\n"]. *)
Definition LF : ascii := "010"%char.
Definition CR : ascii := "013"%char.
Definition CRLF : string := String CR (String LF EmptyString).

(** [strings.ReplaceAll(s, old, new)] for a pattern [old] of one byte, the
    only kind [escapeICSText] searches for. *)
Fixpoint strings_ReplaceAll (s : string) (old : ascii) (new : string) : string :=
  match s with
  | EmptyString => EmptyString
  | String c s' =>
      if Ascii.eqb c old
      then new ++ strings_ReplaceAll s' old new
      else String c (strings_ReplaceAll s' old new)
  end.

(** [escapeICSText] escapes special characters for the .ICS format.  The Go
    literals ["\\"], ["\\\\"], ["\\n"], ["\\,"] and ["\;"] are one backslash,
    two backslashes, and a backslash before [n], a comma and a semicolon. *)
Definition escapeICSText (text : string) : string :=
  (* First escape backslashes, then replace newlines *)
  let text := strings_ReplaceAll text "\"%char "\\" in
  let text := strings_ReplaceAll text LF "\n" in
  let text := strings_ReplaceAll text CR EmptyString in
  (* Escape commas and semicolons *)
  let text := strings_ReplaceAll text ","%char "\," in
  let text := strings_ReplaceAll text ";"%char "\;" in
  text.

Definition maxLineLength : nat := 75.

(** [s[from:]] *)
Definition slice_from (from : nat) (s : string) : string :=
  substring from (String.length s - from) s.

(** The loop of [foldLine] over what remains after the first line; [fuel]
    bounds the number of turns. *)
Fixpoint fold_continuation (fuel : nat) (remaining : string) : string :=
  match fuel with
  | O => EmptyString
  | S fuel' =>
      if Nat.ltb 0 (String.length remaining) then
        if Nat.leb (String.length remaining) (maxLineLength - 1)
        then " " ++ remaining ++ CRLF
        else " " ++ substring 0 (maxLineLength - 1) remaining ++ CRLF
                 ++ fold_continuation fuel' (slice_from (maxLineLength - 1) remaining)
      else EmptyString
  end.

(** [foldLine] implements RFC 5545 line folding (max 75 bytes per line).  The
    loop runs at most once for each byte that remains. *)
Definition foldLine (line : string) : string :=
  if Nat.leb (String.length line) maxLineLength then line ++ CRLF
  else
    (* First line *)
    substring 0 maxLineLength line ++ CRLF
    (* Continuation lines (start with space) *)
    ++ fold_continuation (String.length (slice_from maxLineLength line))
                         (slice_from maxLineLength line).

(** [CalendarEvent]: the data needed to generate an .ICS file. *)
Record CalendarEvent : Type := mkCalendarEvent {
  UID : string;
  Title : string;
  Description : string;
  Location : string;
  StartTime : Time;
  EndTime : Time;
  OrganizerName : string;
  OrganizerEmail : string;
  AttendeeName : string;
  AttendeeEmail : string;
  ReminderMinutes : Z;
  MeetingURL : string
}.

Definition nonempty (s : string) : bool := negb (String.eqb s EmptyString).

Section Generate.

(** [t.Format(layout)] of the standard library. *)
Variable time_Format : Time -> string -> string.

(** [Generate] creates the content of an .ICS file from the event; [now] is
    what [time.Now()] reads. *)
Definition Generate (now : Time) (e : CalendarEvent) : string :=
  (* Format times in UTC for .ICS (YYYYMMDDTHHmmssZ) *)
  let startTime := time_Format (UTC (StartTime e)) "20060102T150405Z" in
  let endTime := time_Format (UTC (EndTime e)) "20060102T150405Z" in
  let timestamp := time_Format (UTC now) "20060102T150405Z" in
  (* Build description with meeting URL *)
  let description :=
    if nonempty (MeetingURL e)
    then Description e ++ String LF (String LF "Únete a la reunión:") ++ String LF (MeetingURL e)
    else Description e in
  (* Escape special characters for .ICS format *)
  let description := escapeICSText description in
  let title := escapeICSText (Title e) in
  let location := escapeICSText (Location e) in
  (* VCALENDAR header *)
  "BEGIN:VCALENDAR" ++ CRLF
  ++ "VERSION:2.0" ++ CRLF
  ++ "PRODID:-//Gophish//Calendar Phishing//EN" ++ CRLF
  ++ "METHOD:REQUEST" ++ CRLF
  ++ "CALSCALE:GREGORIAN" ++ CRLF
  (* VEVENT *)
  ++ "BEGIN:VEVENT" ++ CRLF
  ++ foldLine ("UID:" ++ UID e)
  ++ ("DTSTAMP:" ++ timestamp ++ CRLF)
  ++ ("DTSTART:" ++ startTime ++ CRLF)
  ++ ("DTEND:" ++ endTime ++ CRLF)
  ++ foldLine ("SUMMARY:" ++ title)
  ++ (if nonempty description then foldLine ("DESCRIPTION:" ++ description) else EmptyString)
  ++ (if nonempty location then foldLine ("LOCATION:" ++ location) else EmptyString)
  (* Organizer *)
  ++ (if nonempty (OrganizerEmail e)
      then foldLine ("ORGANIZER;CN=" ++ escapeICSText (OrganizerName e)
                       ++ ":mailto:" ++ OrganizerEmail e)
      else EmptyString)
  (* Attendee *)
  ++ (if nonempty (AttendeeEmail e)
      then foldLine ("ATTENDEE;CN=" ++ escapeICSText (AttendeeName e)
                       ++ ";RSVP=TRUE:mailto:" ++ AttendeeEmail e)
      else EmptyString)
  ++ "STATUS:CONFIRMED" ++ CRLF
  ++ "SEQUENCE:0" ++ CRLF
  (* Reminder (VALARM) *)
  ++ (if Z.ltb 0 (ReminderMinutes e)
      then "BEGIN:VALARM" ++ CRLF
           ++ ("TRIGGER:-PT" ++ itoa (ReminderMinutes e) ++ "M" ++ CRLF)
           ++ "ACTION:DISPLAY" ++ CRLF
           ++ ("DESCRIPTION:Recordatorio: Reunión en " ++ itoa (ReminderMinutes e)
                 ++ " minutos" ++ CRLF)
           ++ "END:VALARM" ++ CRLF
      else EmptyString)
  ++ "END:VEVENT" ++ CRLF
  ++ "END:VCALENDAR" ++ CRLF.

End Generate.

(** *** What the text is expected to be *)

(** What [escapeICSText] makes of one byte. *)
Definition escape_byte (c : ascii) : string :=
  if Ascii.eqb c "\"%char then "\\"
  else if Ascii.eqb c LF then "\n"
  else if Ascii.eqb c CR then EmptyString
  else if Ascii.eqb c ","%char then "\,"
  else if Ascii.eqb c ";"%char then "\;"
  else String c EmptyString.

(** A text with each byte replaced by a text of its own. *)
Fixpoint each_byte (f : ascii -> string) (s : string) : string :=
  match s with
  | EmptyString => EmptyString
  | String c s' => f c ++ each_byte f s'
  end.

(** The physical lines of a folded line: the first chunk as it is, every
    further chunk after a space, each closed by the line end. *)
Definition continuation (r : string) : string := " " ++ r ++ CRLF.

Definition folded (first : string) (rest : list string) : string :=
  first ++ CRLF ++ String.concat EmptyString (map continuation rest).

(** No byte of the text is a carriage return or a line feed. *)
Fixpoint one_line (s : string) : bool :=
  match s with
  | EmptyString => true
  | String c s' => negb (Ascii.eqb c CR) && negb (Ascii.eqb c LF) && one_line s'
  end.

(** Every line feed of the text stands right after a carriage return, and
    every carriage return right before a line feed. *)
Fixpoint crlf_only (s : string) : bool :=
  match s with
  | EmptyString => true
  | String c s' =>
      if Ascii.eqb c CR then
        match s' with
        | String d s'' => Ascii.eqb d LF && crlf_only s''
        | EmptyString => false
        end
      else negb (Ascii.eqb c LF) && crlf_only s'
  end.

(** An invitation whose title and description have commas, semicolons, a
    backslash and line ends in them. *)
Definition example_invitation : CalendarEvent :=
  mkCalendarEvent "gophish-a1b2c3@gophish.local"
                  "Budget review; Q4, final"
                  ("Agenda:" ++ String CR (String LF "1. Numbers\2. Plans, next steps"))
                  "https://phish.example/calendar?rid=a1b2c3"
                  0%Z 3600000000000%Z "Finance, Team" "finance@example.com"
                  "Ana Torres" "ana@example.com" 15%Z
                  "https://phish.example/calendar?rid=a1b2c3".

(** ** Reading back *)

(** Reading an escaped text back: a backslash and the byte after it stand
    for that byte, or for a line feed when the byte is [n]. *)
Fixpoint unescape (s : string) : string :=
  match s with
  | EmptyString => EmptyString
  | String c s' =>
      if Ascii.eqb c "\"%char then
        match s' with
        | String d s'' => String (if Ascii.eqb d "n"%char then LF else d) (unescape s'')
        | EmptyString => String c EmptyString
        end
      else String c (unescape s')
  end.

End ics.

(** ** The trash page *)

(** The script of the trash page, as far as it builds HTML from campaign
    data. *)
Module trash_js.

(** A JavaScript string is the sequence of its UTF-16 code units. *)
Definition js_string : Type := list N.

(** The code units of a text of ASCII characters. *)
Definition code_units (s : string) : js_string :=
  map N_of_ascii (list_ascii_of_string s).

(** The values [escapeHtml] is called with: [null], [undefined], a string. *)
Inductive js_value : Type :=
| js_null
| js_undefined
| js_str (s : js_string).

(** The code units of [&], [<], [>], the double quote and the single quote. *)
Definition char_amp : N := 38.
Definition char_lt : N := 60.
Definition char_gt : N := 62.
Definition char_quot : N := 34.
Definition char_apos : N := 39.

(** The object literal of [escapeHtml], read at a matched character. *)
Definition entity (u : N) : js_string :=
  if N.eqb u char_amp then code_units "&amp;"
  else if N.eqb u char_lt then code_units "&lt;"
  else if N.eqb u char_gt then code_units "&gt;"
  else if N.eqb u char_quot then code_units "&quot;"
  else code_units "&#039;".

(** The character class of the regular expression. *)
Definition special (u : N) : bool :=
  N.eqb u char_amp || N.eqb u char_lt || N.eqb u char_gt || N.eqb u char_quot
  || N.eqb u char_apos.

(** [String(text).replace(re, f)] with the global flag: every code unit
    of the class is replaced by what [f] returns for it. *)
Definition replace_class (f : N -> js_string) (s : js_string) : js_string :=
  flat_map (fun u => if special u then f u else [u]) s.

(** [escapeHtml] escapes HTML to prevent XSS. *)
Definition escapeHtml (text : js_value) : js_string :=
  match text with
  | js_null | js_undefined => []
  | js_str s => replace_class entity s
  end.

(** The five entities. *)
Definition entities : list js_string :=
  map code_units ["&amp;"; "&lt;"; "&gt;"; "&quot;"; "&#039;"]%string.

End trash_js.

Section Program.

(** The environment the package runs in. *)
Variable env : Env.

(** The campaign status constants; their declarations are in the part of
    [models] that defines [Campaign]. *)
Variables CampaignCreated CampaignQueued CampaignInProgress CampaignComplete : string.

(** [t.Format(layout)] of the standard library, in the local time zone. *)
Variable time_Format : Time -> string -> string.

(** [json.Marshal] of the standard library on a metadata map. *)
Variable json_Marshal : list (string * MetaValue) -> error + string.

(** *** The storage handle *)

Section Primitives.

Context {R : Type}.

(** The statement goes out; the storage answers with an error or none. *)
Definition send (s : Stmt) : Proc R (option error) :=
  fun w => (inr (fault env (List.length (issued w)) s), sent s w).

(** [db.Begin()]; the answer is the [Error] field of the new handle. *)
Definition Begin : Proc R (option error) :=
  err <- send SqlBegin ;;
  match err with
  | Some e => ret (Some e)
  | None => fun w => (inr None, set_tx (Some (db w)) w)
  end.

(** [tx.Rollback()]: the working copy is dropped. *)
Definition Rollback : Proc R unit :=
  _ <- send SqlRollback ;;
  fun w => (inr tt, set_tx None w).

(** [tx.Commit().Error]: the working copy becomes the committed store,
    unless the storage fails the commit. *)
Definition Commit : Proc R (option error) :=
  err <- send SqlCommit ;;
  match err with
  | Some e => fun w => (inr (Some e), set_tx None w)
  | None => fun w => (inr None, set_tx None (set_db (cur w) w))
  end.

(** A statement that changes the store when the storage accepts it. *)
Definition exec_stmt (s : Stmt) (f : Store -> Store) : Proc R (option error) :=
  err <- send s ;;
  match err with
  | Some e => ret (Some e)
  | None => fun w => (inr None, put_cur (f (cur w)) w)
  end.

(** [h.First(c, id).Error] and the record it fills: the row with the key,
    if the scope of the handle reaches it, and [gorm.ErrRecordNotFound]
    otherwise.  A lookup that is not [Unscoped()] does not find a campaign
    that is in the trash. *)
Definition First (h : Handle) (id : Z) : Proc R (error + Campaign) :=
  err <- send (SqlFirstCampaign h id) ;;
  match err with
  | Some e => ret (inl e)
  | None =>
      fun w =>
        match campaign_by_id id (campaigns (cur w)) with
        | Some c =>
            if in_scope h c
            then (inr (inr c), w)
            else (inr (inl gorm_ErrRecordNotFound), w)
        | None => (inr (inl gorm_ErrRecordNotFound), w)
        end
  end.

(** [h.Save(c).Error] *)
Definition Save (h : Handle) (c : Campaign) : Proc R (option error) :=
  exec_stmt (SqlSaveCampaign h c)
            (fun s => set_campaigns (save_campaign c (campaigns s)) s).

(** [tx.Create(audit).Error] *)
Definition Create (a : AuditLog) : Proc R (option error) :=
  exec_stmt (SqlCreateAudit a)
            (fun s => set_audit_log (create_audit a (audit_log s)) s).

(** [time.Now()] *)
Definition time_Now : Proc R Time :=
  fun w => (inr (clock env (ticks w)), ticked w).

(** [tx.Delete(c).Error]; the ORM reads the clock for the [deleted_at] it
    writes. *)
Definition Delete (c : Campaign) : Proc R (option error) :=
  now <- time_Now ;;
  exec_stmt (SqlDeleteCampaign c) (delete_campaign now c).

(** [Count(&count).Error] of the name-conflict query, and the count. *)
Definition CountNameConflicts (user_id : Z) (name : string) (exclude_id : Z)
  : Proc R (Z * option error) :=
  err <- send (SqlCountNameConflicts user_id name exclude_id) ;;
  match err with
  | Some e => ret (0, Some e)
  | None =>
      fun w => (inr (count_name_conflicts user_id name exclude_id (campaigns (cur w)), None), w)
  end.

(** [Pluck("id", &ids).Error] of the candidate query, and the ids. *)
Definition PluckPurgeCandidates (cutoff : Time) (limit : Z)
  : Proc R (list Z * option error) :=
  err <- send (SqlPluckPurgeCandidates cutoff limit) ;;
  match err with
  | Some e => ret ([], Some e)
  | None =>
      fun w => (inr (map Id (purge_candidate_rows cutoff limit (campaigns (cur w))), None), w)
  end.

(** The logger. *)
Definition log_at (l : Level) (fmt : string) (a : list Arg) : Proc R unit :=
  fun w => (inr tt, wrote (mkLogLine l fmt a) w).

Definition log_Debugf := log_at Debug.
Definition log_Infof := log_at Info.
Definition log_Warnf := log_at Warn.
Definition log_Errorf := log_at Error.

(** A call of a function of the package from a procedure body. *)
Definition call {A : Type} (f : World -> A * World) : Proc R A :=
  fun w => let (a, w') := f w in (inr a, w').

End Primitives.

(** The handle [db.Begin()] returns, before any setting. *)
Definition new_handle : Handle := mkHandle None false.

(** [lockForUpdate]: FOR UPDATE on every dialect but sqlite3. *)
Definition lockForUpdate (h : Handle) : Handle :=
  if String.eqb (dialect env) "sqlite3"
  then h
  else mkHandle (Some "FOR UPDATE"%string) (unscoped h).

Definition Unscoped (h : Handle) : Handle := mkHandle (query_option h) true.

(** [SetMetadata]: the audit entry with its metadata set, and the error. *)
Definition SetMetadata (a : AuditLog) (data : option (list (string * MetaValue)))
  : AuditLog * option error :=
  let put m := mkAuditLog (ID a) (Timestamp a) (ActorID a) (ActorName a) (Action a)
                          (EntityType a) (EntityID a) m (IPAddress a) (UserAgent a) in
  match data with
  | None => (put EmptyString, None)
  | Some d =>
      match json_Marshal d with
      | inl err => (a, Some err)
      | inr jsonData => (put jsonData, None)
      end
  end.

(** An [&AuditLog{...}] literal with the fields the callers set. *)
Definition new_audit (actor : option Z) (actor_name action : string) (entity_id : Z)
  : AuditLog :=
  mkAuditLog 0 None actor actor_name action "campaign" entity_id EmptyString
             EmptyString EmptyString.

Local Open Scope string_scope.

(** *** Soft delete *)

(** [SoftDeleteCampaign] moves a campaign to the trash. *)
Definition SoftDeleteCampaign (campaignID userID : Z) (reason : string)
  : World -> option error * World :=
  exec (
    txError <- Begin ;;
    match txError with
    | Some e => Return (Some e)
    | None =>
    (* Lock row for update *)
    found <- First (lockForUpdate new_handle) campaignID ;;
    match found with
    | inl err =>
        Rollback ;;
        if errors_Is err gorm_ErrRecordNotFound
        then Return (Some ErrCampaignNotFound)
        else Return (Some err)
    | inr c =>
    (* Validate ownership *)
    if negb (Z.eqb (UserId c) userID) then
      Rollback ;;
      log_Warnf "User %d attempted to delete campaign %d owned by %d"
                [AInt userID; AInt campaignID; AInt (UserId c)] ;;
      Return (Some ErrPermissionDenied)
    else
    (* Idempotency: already deleted *)
    if IsDeleted c then
      Rollback ;;
      log_Warnf "Campaign %d already deleted, idempotent response" [AInt campaignID] ;;
      Return None
    else
    (* Stop scheduler if running/queued *)
    c <- (if String.eqb (Status c) CampaignInProgress || String.eqb (Status c) CampaignQueued
          then
            log_Infof "Stopping campaign %d (status: %s) before soft delete"
                      [AInt campaignID; AStr (Status c)] ;;
            ret (set_Status CampaignComplete (set_StatusBeforeDelete (Status c) c))
          else
            ret (set_StatusBeforeDelete (Status c) c)) ;;
    (* Set soft delete fields *)
    now <- time_Now ;;
    let c := set_Version (Version c + 1)
               (set_DeleteReason reason
                  (set_DeletedBy (Some userID)
                     (set_DeletedAt (Some (UTC now)) c))) in
    (* Save *)
    saveErr <- Save new_handle c ;;
    match saveErr with
    | Some err =>
        Rollback ;;
        log_Errorf "Failed to soft delete campaign %d: %v" [AInt campaignID; AErr err] ;;
        Return (Some err)
    | None =>
    (* Audit log *)
    let audit :=
      fst (SetMetadata
             (new_audit (Some userID) EmptyString AuditCampaignSoftDeleted campaignID)
             (Some [("name", MString (Name c));
                    ("status_before", MString (StatusBeforeDelete c));
                    ("reason", MString reason);
                    ("campaign_type", MString (CampaignType c))])) in
    auditErr <- Create audit ;;
    match auditErr with
    | Some err => log_Errorf "Failed to create audit log (non-blocking): %v" [AErr err]
    | None => ret tt
    end ;;
    log_Infof "Campaign %d (%s) soft deleted by user %d"
              [AInt campaignID; AStr (Name c); AInt userID] ;;
    Commit
    end
    end
    end).

(** *** Restore *)

(** [checkNameConflict]: does an active campaign of the user, other than the
    excluded one, carry the name (letter case apart)? *)
Definition checkNameConflict {R : Type} (name : string) (userID excludeID : Z)
  : Proc R (bool * option error) :=
  r <- CountNameConflicts userID name excludeID ;;
  match snd r with
  | Some err =>
      log_Errorf "Error checking name conflict: %v" [AErr err] ;;
      ret (false, Some err)
  | None => ret (Z.ltb 0 (fst r), None)
  end.

(** The loop [for i := 1; i < 10; i++] of [RestoreCampaign], entered with
    [i] and the name to check; it leaves with the name the campaign gets. *)
Fixpoint rename_retries (fuel : nat) (i campaignID userID : Z)
         (originalName name : string)
  : Proc (option RestoreResult * option error) string :=
  match fuel with
  | O => ret name
  | S fuel' =>
      if Z.ltb i 10 then
        chk <- checkNameConflict name userID campaignID ;;
        match snd chk with
        | Some err => Rollback ;; Return (None, Some err)
        | None =>
            if negb (fst chk) then ret name
            else
              now <- time_Now ;;
              rename_retries fuel' (i + 1) campaignID userID originalName
                (originalName ++ " (Restored " ++ time_Format now "2006-01-02"
                              ++ "-" ++ itoa i ++ ")")
        end
      else ret name
  end.

(** [RestoreCampaign] takes a campaign back out of the trash. *)
Definition RestoreCampaign (campaignID userID : Z)
  : World -> (option RestoreResult * option error) * World :=
  exec (
    let result := mkRestoreResult false None false EmptyString EmptyString [] in
    txError <- Begin ;;
    match txError with
    | Some e => Return (None, Some e)
    | None =>
    (* Lock campaign, trashed rows included *)
    found <- First (Unscoped (lockForUpdate new_handle)) campaignID ;;
    match found with
    | inl err =>
        Rollback ;;
        if errors_Is err gorm_ErrRecordNotFound
        then Return (None, Some ErrCampaignNotFound)
        else Return (None, Some err)
    | inr c =>
    (* Validate ownership *)
    if negb (Z.eqb (UserId c) userID) then
      Rollback ;;
      log_Warnf "User %d attempted to restore campaign %d owned by %d"
                [AInt userID; AInt campaignID; AInt (UserId c)] ;;
      Return (None, Some ErrPermissionDenied)
    else
    (* Must be deleted *)
    if negb (IsDeleted c) then
      Rollback ;;
      Return (None, Some ErrNotDeleted)
    else
    (* Check name conflicts with active campaigns *)
    chk <- checkNameConflict (Name c) userID campaignID ;;
    match snd chk with
    | Some err => Rollback ;; Return (None, Some err)
    | None =>
    let originalName := Name c in
    renamed <-
      (if fst chk then
         now <- time_Now ;;
         name <- rename_retries 9 1 campaignID userID originalName
                   (Name c ++ " (Restored " ++ time_Format now "2006-01-02 15:04" ++ ")") ;;
         log_Infof "Campaign %d renamed during restore: %s -> %s"
                   [AInt campaignID; AStr originalName; AStr name] ;;
         ret (set_Name name c,
              mkRestoreResult false None true originalName name
                (List.app (Warnings result)
                   ["Campaign renamed from '" ++ originalName ++ "' to '" ++ name
                      ++ "' due to name conflict"]))
       else ret (c, result)) ;;
    let c := fst renamed in
    let result := snd renamed in
    (* Clear soft delete fields, set safe status *)
    now <- time_Now ;;
    let c := set_Version (Version c + 1)
               (set_Status CampaignCreated
                  (set_RestoredBy (Some userID)
                     (set_RestoredAt (Some (UTC now))
                        (set_DeletedBy None
                           (set_DeletedAt None c))))) in
    saveErr <- Save (Unscoped new_handle) c ;;
    match saveErr with
    | Some err =>
        Rollback ;;
        log_Errorf "Failed to restore campaign %d: %v" [AInt campaignID; AErr err] ;;
        Return (None, Some err)
    | None =>
    (* Audit *)
    let audit :=
      fst (SetMetadata
             (new_audit (Some userID) EmptyString AuditCampaignRestored campaignID)
             (Some [("name", MString (Name c));
                    ("original_name", MString originalName);
                    ("name_changed", MBool (NameChanged result));
                    ("warnings", MStrings (Warnings result))])) in
    auditErr <- Create audit ;;
    match auditErr with
    | Some err => log_Errorf "Failed to create audit log (non-blocking): %v" [AErr err]
    | None => ret tt
    end ;;
    let result := mkRestoreResult true (Some c) (NameChanged result) (OldName result)
                                  (NewName result) (Warnings result) in
    commitErr <- Commit ;;
    match commitErr with
    | Some err => Return (None, Some err)
    | None =>
    log_Infof "Campaign %d restored by user %d (warnings: %d)"
              [AInt campaignID; AInt userID; AInt (Z.of_nat (List.length (Warnings result)))] ;;
    ret (Some result, None)
    end
    end
    end
    end
    end).

(** *** Purge *)

(** [PurgeCampaign]: the hard delete an administrator asks for. *)
Definition PurgeCampaign (campaignID userID : Z) (isAdmin : bool)
  : World -> option error * World :=
  exec (
    if negb isAdmin then Return (Some (errors_New "purge requires admin privileges")) else
    txError <- Begin ;;
    match txError with
    | Some e => Return (Some e)
    | None =>
    (* Lock campaign *)
    found <- First (lockForUpdate new_handle) campaignID ;;
    match found with
    | inl err =>
        Rollback ;;
        if errors_Is err gorm_ErrRecordNotFound
        then Return (Some ErrCampaignNotFound)
        else Return (Some err)
    | inr c =>
    (* Must be in trash *)
    if negb (IsDeleted c) then
      Rollback ;;
      Return (Some (errors_New "can only purge campaigns in trash"))
    else
    (* Audit BEFORE delete *)
    let audit :=
      fst (SetMetadata
             (new_audit (Some userID) EmptyString AuditCampaignPurged campaignID)
             (Some [("name", MString (Name c));
                    ("deleted_at", MTime (DeletedAt c));
                    ("user_id", MInt (UserId c))])) in
    auditErr <- Create audit ;;
    match auditErr with
    | Some err =>
        Rollback ;;
        log_Errorf "CRITICAL: Failed to create audit log for purge: %v" [AErr err] ;;
        Return (Some (fmt_Errorf_w "failed to create audit log: %w" err))
    | None =>
    (* 1. Calendar events (if they exist) *)
    calErr <- exec_stmt (SqlDeleteCalendarEvents campaignID)
                        (delete_calendar_events campaignID) ;;
    match calErr with
    | Some err =>
        log_Errorf "Failed to delete calendar events for campaign %d: %v"
                   [AInt campaignID; AErr err]
    | None => ret tt
    end ;;
    (* 2. Events *)
    evErr <- exec_stmt (SqlDeleteEvents campaignID) (delete_events campaignID) ;;
    match evErr with
    | Some err =>
        Rollback ;;
        log_Errorf "Failed to delete events for campaign %d: %v" [AInt campaignID; AErr err] ;;
        Return (Some err)
    | None =>
    (* 3. Results *)
    resErr <- exec_stmt (SqlDeleteResults campaignID)
                        (delete_results (dialect env) campaignID) ;;
    match resErr with
    | Some err =>
        Rollback ;;
        log_Errorf "Failed to delete results for campaign %d: %v" [AInt campaignID; AErr err] ;;
        Return (Some err)
    | None =>
    (* 4. Campaign-Group associations *)
    grpErr <- exec_stmt (SqlDeleteCampaignGroups campaignID)
                        (delete_campaign_groups campaignID) ;;
    match grpErr with
    | Some err =>
        Rollback ;;
        log_Errorf "Failed to delete campaign_groups for campaign %d: %v"
                   [AInt campaignID; AErr err] ;;
        Return (Some err)
    | None =>
    (* 5. Campaign itself *)
    delErr <- Delete c ;;
    match delErr with
    | Some err =>
        Rollback ;;
        log_Errorf "Failed to delete campaign %d: %v" [AInt campaignID; AErr err] ;;
        Return (Some err)
    | None =>
    log_Infof "Campaign %d (%s) PURGED by user %d"
              [AInt campaignID; AStr (Name c); AInt userID] ;;
    Commit
    end
    end
    end
    end
    end
    end
    end).

(** [ListPurgeCandidates]: the ids of the trashed campaigns deleted before
    the cutoff, oldest first, at most [limit] of them. *)
Definition ListPurgeCandidates (cutoff : Time) (limit : Z)
  : World -> (list Z * option error) * World :=
  exec (
    if db_is_nil env then Return ([], Some (errors_New "database not initialized")) else
    r <- PluckPurgeCandidates cutoff limit ;;
    match snd r with
    | Some err =>
        log_Errorf "Error listing purge candidates: %v" [AErr err] ;;
        Return ([], Some err)
    | None => ret (fst r, None)
    end).

(** [PurgeSystemCampaign]: the purge of the retention job; no user, no
    permission check, the campaign still has to be in the trash. *)
Definition PurgeSystemCampaign (campaignID : Z) : World -> option error * World :=
  exec (
    txError <- Begin ;;
    match txError with
    | Some e => Return (Some e)
    | None =>
    (* Lock campaign *)
    found <- First (lockForUpdate new_handle) campaignID ;;
    match found with
    | inl err =>
        Rollback ;;
        if errors_Is err gorm_ErrRecordNotFound
        then
          log_Warnf "Campaign %d not found during system purge (already purged?)"
                    [AInt campaignID] ;;
          Return None
        else Return (Some err)
    | inr c =>
    (* Must be in trash (race condition check) *)
    if negb (IsDeleted c) then
      Rollback ;;
      log_Warnf "Campaign %d was restored before system purge, skipping" [AInt campaignID] ;;
      Return None
    else
    (* Audit BEFORE delete *)
    let audit :=
      fst (SetMetadata
             (new_audit None "system:trash-ttl" AuditCampaignPurged campaignID)
             (Some [("name", MString (Name c));
                    ("deleted_at", MTime (DeletedAt c));
                    ("user_id", MInt (UserId c));
                    ("purge_type", MString "ttl_job")])) in
    auditErr <- Create audit ;;
    match auditErr with
    | Some err =>
        Rollback ;;
        log_Errorf "CRITICAL: Failed to create audit log for system purge: %v" [AErr err] ;;
        Return (Some (fmt_Errorf_w "failed to create audit log: %w" err))
    | None =>
    (* 1. Calendar events (if they exist) *)
    calErr <- exec_stmt (SqlDeleteCalendarEvents campaignID)
                        (delete_calendar_events campaignID) ;;
    match calErr with
    | Some err =>
        log_Warnf "Failed to delete calendar events for campaign %d: %v"
                  [AInt campaignID; AErr err]
    | None => ret tt
    end ;;
    (* 2. Events *)
    evErr <- exec_stmt (SqlDeleteEvents campaignID) (delete_events campaignID) ;;
    match evErr with
    | Some err =>
        Rollback ;;
        log_Errorf "Failed to delete events for campaign %d: %v" [AInt campaignID; AErr err] ;;
        Return (Some err)
    | None =>
    (* 3. Results *)
    resErr <- exec_stmt (SqlDeleteResults campaignID)
                        (delete_results (dialect env) campaignID) ;;
    match resErr with
    | Some err =>
        Rollback ;;
        log_Errorf "Failed to delete results for campaign %d: %v" [AInt campaignID; AErr err] ;;
        Return (Some err)
    | None =>
    (* 4. Campaign-Group associations *)
    grpErr <- exec_stmt (SqlDeleteCampaignGroups campaignID)
                        (delete_campaign_groups campaignID) ;;
    match grpErr with
    | Some err =>
        Rollback ;;
        log_Errorf "Failed to delete campaign_groups for campaign %d: %v"
                   [AInt campaignID; AErr err] ;;
        Return (Some err)
    | None =>
    (* 5. Campaign itself *)
    delErr <- Delete c ;;
    match delErr with
    | Some err =>
        Rollback ;;
        log_Errorf "Failed to delete campaign %d: %v" [AInt campaignID; AErr err] ;;
        Return (Some err)
    | None =>
    log_Infof "Campaign %d (%s) PURGED by system TTL job" [AInt campaignID; AStr (Name c)] ;;
    Commit
    end
    end
    end
    end
    end
    end
    end).

(** *** The retention job *)

(** [RunOnce]: the loop over the candidates.  [i] is the index of the next
    candidate and [total] the length of the whole batch. *)
Fixpoint purge_each (ctx : Context) (total : Z) (i : nat) (ids : list Z)
         (successCount errorCount : Z)
  : Proc (option error) (Z * Z) :=
  match ids with
  | [] => ret (successCount, errorCount)
  | campaignID :: rest =>
      (* Check for cancellation *)
      if Done ctx i then
        log_Warnf "Trash TTL: Context canceled after %d/%d campaigns"
                  [AInt (Z.of_nat i); AInt total] ;;
        Return (Some (Err ctx))
      else
        log_Debugf "Trash TTL: Purging campaign %d (%d/%d)"
                   [AInt campaignID; AInt (Z.of_nat i + 1); AInt total] ;;
        err <- call (PurgeSystemCampaign campaignID) ;;
        match err with
        | Some e =>
            log_Errorf "Trash TTL: Failed to purge campaign %d: %v"
                       [AInt campaignID; AErr e] ;;
            purge_each ctx total (S i) rest successCount (errorCount + 1)
        | None =>
            purge_each ctx total (S i) rest (successCount + 1) errorCount
        end
  end.

(** The cutoff of a cycle that reads [now] on the clock:
    [now.Add(-time.Duration(j.retentionDays) * 24 * time.Hour)]. *)
Definition cutoff_of (j : TrashTTLJob) (now : Time) : Time :=
  now + mul64 (mul64 (neg64 (retentionDays j)) 24) time_Hour.

(** [RunOnce] executes a single purge cycle. *)
Definition RunOnce (j : TrashTTLJob) (ctx : Context) : World -> option error * World :=
  exec (
    startTime <- time_Now ;;
    (* Calculate cutoff time *)
    now <- time_Now ;;
    let cutoff := cutoff_of j now in
    log_Debugf "Trash TTL: Looking for campaigns deleted before %s"
               [AStr (time_Format cutoff time_RFC3339)] ;;
    (* Get candidates for purge *)
    listed <- call (ListPurgeCandidates cutoff (batchSize j)) ;;
    match snd listed with
    | Some err => Return (Some (fmt_Errorf_w "failed to list purge candidates: %w" err))
    | None =>
    let candidateIDs := fst listed in
    let total := Z.of_nat (List.length candidateIDs) in
    if Z.eqb total 0 then
      log_Debugf "Trash TTL: No campaigns to purge" [] ;;
      Return None
    else
    log_Infof "Trash TTL: Found %d campaign(s) to purge" [AInt total] ;;
    (* Process each campaign *)
    counts <- purge_each ctx total 0 candidateIDs 0 0 ;;
    let successCount := fst counts in
    let errorCount := snd counts in
    let skippedCount := 0 in
    (* Log summary *)
    finished <- time_Now ;;
    log_Infof "Trash TTL: Batch complete - %d succeeded, %d errors, %d skipped in %v"
              [AInt successCount; AInt errorCount; AInt skippedCount;
               ADuration (finished - startTime)] ;;
    (* Return error if entire batch failed *)
    if Z.ltb 0 errorCount && Z.eqb successCount 0
    then ret (Some (fmt_Errorf_d "all %d purge operations failed" errorCount))
    else ret None
    end).

(** *** Starting and stopping the job *)

(** What one party does next: the caller of [Start] and [Stop], the owner of
    the start context, or the goroutine [Start] launches. *)
Inductive Move : Type :=
| CallStart
| CallStop
| CancelContext
| InitialRun (runCtx : Context)
| TickerFires (runCtx : Context)
| ContextDoneSeen
| StopSignalSeen.

(** Where the goroutine of [Start] is. *)
Inductive Goroutine : Type := NotLaunched | Launched | InLoop | Exited.

Record Scheduler : Type := mkScheduler {
  job : TrashTTLJob;
  goroutine : Goroutine;
  ctx_cancelled : bool;
  world : World
}.

Inductive Outcome : Type :=
| Goes (s : Scheduler)
| Panics (msg : string)
| NotEnabled.

Definition with_world (s : Scheduler) (w : World) : Scheduler :=
  mkScheduler (job s) (goroutine s) (ctx_cancelled s) w.

Definition with_goroutine (s : Scheduler) (g : Goroutine) : Scheduler :=
  mkScheduler (job s) g (ctx_cancelled s) (world s).

(** [close(j.stopChan)] *)
Definition close_stopChan (s : Scheduler) : Outcome :=
  match close_chan (stopChan (job s)) with
  | None => Panics "close of closed channel"
  | Some ch =>
      Goes (mkScheduler
              (mkTrashTTLJob (retentionDays (job s)) (interval (job s)) (batchSize (job s))
                             (enabled (job s)) ch)
              (goroutine s) (ctx_cancelled s) (world s))
  end.

(** One run of the cycle inside the goroutine, with its error logged. *)
Definition run_logged (failed : string) (runCtx : Context) (s : Scheduler) : Scheduler :=
  let (err, w) := RunOnce (job s) runCtx (world s) in
  match err with
  | Some e => with_world s (wrote (mkLogLine Error failed [AErr e]) w)
  | None => with_world s w
  end.

(** [Start], [Stop], and the branches of the goroutine's [select].  A job is
    followed through one call of [Start]. *)
Definition move (m : Move) (s : Scheduler) : Outcome :=
  match m with
  | CallStart =>
      match goroutine s with
      | NotLaunched =>
      if negb (enabled (job s)) then
        Goes (with_world s
                (wrote (mkLogLine Info "Trash TTL job is disabled, not starting" [])
                       (world s)))
      else
        Goes (with_goroutine
                (with_world s
                   (wrote (mkLogLine Info
                             "Starting Trash TTL job (retention=%d days, interval=%v, batch=%d)"
                             [AInt (retentionDays (job s)); ADuration (interval (job s));
                              AInt (batchSize (job s))])
                          (world s)))
                Launched)
      | _ => NotEnabled
      end
  | CallStop =>
      close_stopChan
        (with_world s (wrote (mkLogLine Info "Stopping Trash TTL job..." []) (world s)))
  | CancelContext =>
      Goes (mkScheduler (job s) (goroutine s) true (world s))
  | InitialRun runCtx =>
      match goroutine s with
      | Launched =>
          Goes (with_goroutine (run_logged "Initial trash TTL run failed: %v" runCtx s) InLoop)
      | _ => NotEnabled
      end
  | TickerFires runCtx =>
      match goroutine s with
      | InLoop => Goes (run_logged "Trash TTL run failed: %v" runCtx s)
      | _ => NotEnabled
      end
  | ContextDoneSeen =>
      match goroutine s with
      | InLoop =>
          if ctx_cancelled s then
            close_stopChan
              (with_goroutine
                 (with_world s
                    (wrote (mkLogLine Info "Trash TTL job stopped (context canceled)" [])
                           (world s)))
                 Exited)
          else NotEnabled
      | _ => NotEnabled
      end
  | StopSignalSeen =>
      match goroutine s with
      | InLoop =>
          match stopChan (job s) with
          | ChanClosed =>
              Goes (with_goroutine
                      (with_world s
                         (wrote (mkLogLine Info "Trash TTL job stopped (stop signal)" [])
                                (world s)))
                      Exited)
          | ChanOpen => NotEnabled
          end
      | _ => NotEnabled
      end
  end.

(** A schedule: the moves in the order they happen. *)
Fixpoint play (ms : list Move) (s : Scheduler) : Outcome :=
  match ms with
  | [] => Goes s
  | m :: ms' =>
      match move m s with
      | Goes s' => play ms' s'
      | other => other
      end
  end.

(** ** What the operations are expected to leave *)

(** The row a soft delete at [now] by [userID] writes for campaign [c];
    [stopping] says whether the campaign was queued or in progress. *)
Definition soft_deleted (stopping : bool) (now : Time) (userID : Z) (reason : string)
           (c : Campaign) : Campaign :=
  mkCampaign (Id c) (UserId c) (Name c)
             (if stopping then CampaignComplete else Status c)
             (CampaignType c) (Some now) (Some userID) (RestoredAt c) (RestoredBy c)
             (Status c) reason (Version c + 1).

(** Was the campaign queued or in progress? *)
Definition stopping (c : Campaign) : bool :=
  String.eqb (Status c) CampaignInProgress || String.eqb (Status c) CampaignQueued.

(** The row a restore at [now] by [userID] writes for campaign [c] under the
    name [name]. *)
Definition restored (name : string) (now : Time) (userID : Z) (c : Campaign) : Campaign :=
  mkCampaign (Id c) (UserId c) name CampaignCreated (CampaignType c) None None
             (Some now) (Some userID) (StatusBeforeDelete c) (DeleteReason c)
             (Version c + 1).

(** The audit entry of a soft delete, as handed to [Create]. *)
Definition soft_delete_audit (campaignID userID : Z) (reason : string) (c : Campaign)
  : AuditLog :=
  fst (SetMetadata
         (new_audit (Some userID) EmptyString AuditCampaignSoftDeleted campaignID)
         (Some [("name", MString (Name c));
                ("status_before", MString (StatusBeforeDelete c));
                ("reason", MString reason);
                ("campaign_type", MString (CampaignType c))])).

(** The names a restore tries, in order, when the first clock reading of the
    renaming is the one numbered [t0]: the name with the restoration time
    stamp, then the names with the day and the numbers 1 to 9. *)
Definition candidate_name (original : string) (t0 : nat) (j : nat) : string :=
  match j with
  | O => original ++ " (Restored " ++ time_Format (clock env t0) "2006-01-02 15:04" ++ ")"
  | S _ => original ++ " (Restored " ++ time_Format (clock env (t0 + j)) "2006-01-02"
                    ++ "-" ++ itoa (Z.of_nat j) ++ ")"
  end.

(** Does an active campaign of the user, other than the excluded one, carry
    the name? *)
Definition conflicts (user_id exclude_id : Z) (rows : list Campaign) (name : string) : bool :=
  Z.ltb 0 (count_name_conflicts user_id name exclude_id rows).

(** The warning a rename leaves in the outcome. *)
Definition rename_warning (old new : string) : string :=
  "Campaign renamed from '" ++ old ++ "' to '" ++ new ++ "' due to name conflict".


(** System purge on each id of a batch in order, each call in the world the
    one before it left, with the lines the loop of [RunOnce] logs around
    it: the id and the outcome of every call, and the world at the end. *)
Fixpoint system_purge_each (total : Z) (i : nat) (ids : list Z) (w : World)
  : list (Z * option error) * World :=
  match ids with
  | [] => ([], w)
  | campaignID :: rest =>
      let w1 := wrote (mkLogLine Debug "Trash TTL: Purging campaign %d (%d/%d)"
                                 [AInt campaignID; AInt (Z.of_nat i + 1); AInt total]) w in
      let (err, w2) := PurgeSystemCampaign campaignID w1 in
      let w3 := match err with
                | Some e =>
                    wrote (mkLogLine Error "Trash TTL: Failed to purge campaign %d: %v"
                                     [AInt campaignID; AErr e]) w2
                | None => w2
                end in
      let (outcomes, w4) := system_purge_each total (S i) rest w3 in
      ((campaignID, err) :: outcomes, w4)
  end.

(** How many calls of a batch failed, and how many did not. *)
Definition failed (o : Z * option error) : bool :=
  match snd o with
  | Some _ => true
  | None => false
  end.

Definition failures (outcomes : list (Z * option error)) : Z :=
  Z.of_nat (List.length (filter failed outcomes)).

Definition successes (outcomes : list (Z * option error)) : Z :=
  Z.of_nat (List.length (filter (fun o => negb (failed o)) outcomes)).

(** The longest retention, in days, whose length in nanoseconds is an
    [int64]. *)
Definition max_retention_days : Z := 106751.

(** The world of a cycle once the candidates are listed. *)
Definition listed (cutoff : Time) (limit : Z) (w : World) : World :=
  sent (SqlPluckPurgeCandidates cutoff limit)
       (wrote (mkLogLine Debug "Trash TTL: Looking for campaigns deleted before %s"
                         [AStr (time_Format cutoff time_RFC3339)])
              (ticked (ticked w))).

(** ** A small installation, for the examples *)

(** A storage that accepts every statement, and one that fails the statements
    of one kind. *)
Definition quiet_storage : nat -> Stmt -> option error := fun _ _ => None.

Definition failing (k : Kind) (e : error) : nat -> Stmt -> option error :=
  fun _ s => if Kind_eq_dec (kind_of s) k then Some e else None.

(** One day, in nanoseconds. *)
Definition day : Z := 24 * time_Hour.

(** A clock that is at day 200 and moves a nanosecond at each reading. *)
Definition example_clock (n : nat) : Time := 200 * day + Z.of_nat n.

Definition env_quiet : Env := mkEnv quiet_storage example_clock "mysql" false.

Definition env_failing (k : Kind) (e : error) : Env :=
  mkEnv (failing k e) example_clock "mysql" false.

Definition example_Format (t : Time) (layout : string) : string := itoa t.

Definition example_Marshal (d : list (string * MetaValue)) : error + string := inr "{}".

(** An active campaign of user 7; a trashed one of user 7 with the same name
    in lower case, deleted 10 days ago; two trashed ones of user 8, deleted 91
    and 100 days ago. *)
Definition campaign_1 : Campaign :=
  mkCampaign 1 7 "Q4 Drive" "In progress" "email" None None None None
             EmptyString EmptyString 3.

Definition campaign_2 : Campaign :=
  mkCampaign 2 7 "q4 drive" "Created" "calendar" (Some (190 * day)) (Some 7) None None
             "Created" "duplicate" 1.

Definition campaign_3 : Campaign :=
  mkCampaign 3 8 "Old" "Completed" "email" (Some (109 * day)) (Some 8) None None
             "Completed" "done" 1.

Definition campaign_4 : Campaign :=
  mkCampaign 4 8 "Older" "Completed" "email" (Some (100 * day)) (Some 8) None None
             "In progress" "done" 5.

Definition calendar_event (id result_id : Z) (event_type : string) : CalendarEvent :=
  mkCalendarEvent id result_id event_type (150 * day) "203.0.113.9" "Outlook" EmptyString.

Definition example_store : Store :=
  mkStore [campaign_1; campaign_2; campaign_3; campaign_4]
          [mkEvent 1 1 "Email Sent"; mkEvent 2 3 "Email Sent"; mkEvent 3 2 "Clicked Link"]
          [mkResult 10 1 "a1"; mkResult 11 3 "b2"; mkResult 12 2 "c3"]
          [calendar_event 1 10 "ics_sent"; calendar_event 2 11 "ics_sent";
           calendar_event 3 12 "link_opened"]
          [mkCampaignGroup 1 5; mkCampaignGroup 3 5; mkCampaignGroup 2 6]
          [].

Definition example_world : World := mkWorld example_store None [] [] 0.

(** A context that is never done, and one that is done from the second check
    on. *)
Definition ctx_live : Context := mkContext (fun _ => false) context_Canceled.


(** ** The stop channel *)

(** The moves that close the stop channel: [Stop], and the loop's branch for
    a cancelled context. *)
Definition closes (m : Move) : bool :=
  match m with
  | CallStop | ContextDoneSeen => true
  | _ => false
  end.

Definition closings (ms : list Move) : nat := List.length (filter closes ms).

(** A job as [NewTrashTTLJob] returns it, before [Start]. *)
Definition fresh_scheduler (cfg : TrashTTLConfig) (w : World) : Scheduler :=
  mkScheduler (NewTrashTTLJob cfg) NotLaunched false w.

(** ** The read side *)

(** The queries [models] sends on the package-level handle, outside a
    transaction. *)
Inductive Query : Type :=
| SqlFindTrashedCampaigns (user_id : Z)
| SqlCountTrashedCampaigns (user_id : Z)
| SqlFindTrashedCampaignsPage (user_id : Z) (offset limit : Z)
| SqlFindAuditLogs (entity_type : string) (entity_id : Z)
| SqlFindAuditLogsByActor (actor_id : Z) (limit : option Z)
| SqlFindCalendarEventsByResult (result_id : Z)
| SqlFindCalendarEventsByCampaign (campaign_id : Z).

(** Which query the storage fails, by the number of statements sent before it
    and by its text. *)
Variable query_fault : nat -> Query -> option error.

(** The storage answers every query. *)
Definition answers : Prop := forall n q, query_fault n q = None.

(** A query goes out; the storage answers with an error or none.  A query
    changes nothing. *)
Definition ask {R : Type} (q : Query) : Proc R (option error) :=
  fun w => (inr (query_fault (List.length (issued w)) q), w).

(** [ORDER BY]: rows inserted one by one by the order [leb]. *)
Fixpoint insert_by {A : Type} (leb : A -> A -> bool) (r : A) (l : list A) : list A :=
  match l with
  | [] => [r]
  | x :: l' => if leb r x then r :: l else x :: insert_by leb r l'
  end.

Definition order_by {A : Type} (leb : A -> A -> bool) (l : list A) : list A :=
  fold_right (insert_by leb) [] l.

(** The sort key of [ORDER BY deleted_at DESC]. *)
Definition deleted_at_geb (a b : Campaign) : bool := deleted_at_leb b a.

(** The sort key of [ORDER BY timestamp DESC], on the timestamps the rows
    hold; the zero time is before every other. *)
Definition timestamp_geb (a b : option Time) : bool :=
  match a, b with
  | _, None => true
  | None, Some _ => false
  | Some x, Some y => Z.leb y x
  end.

(** [Offset(n)]: a negative offset lifts the offset. *)
Definition Offset {A : Type} (n : Z) (l : list A) : list A :=
  if Z.leb 0 n then skipn (Z.to_nat n) l else l.

(** [Unscoped().Scopes(ScopeCampaignsTrashed).Where("user_id = ?", userID)] *)
Definition trashed_row (user_id : Z) (r : Campaign) : bool :=
  IsDeleted r && Z.eqb (UserId r) user_id.

(** [GetTrashedCampaigns] retrieves the deleted campaigns of a user. *)
Definition GetTrashedCampaigns (userID : Z) : World -> (list Campaign * option error) * World :=
  exec (
    err <- ask (SqlFindTrashedCampaigns userID) ;;
    match err with
    | Some e =>
        log_Errorf "Error retrieving trashed campaigns: %v" [AErr e] ;;
        Return ([], Some e)
    | None =>
        fun w =>
          (inr (order_by deleted_at_geb (filter (trashed_row userID) (campaigns (db w))),
                None), w)
    end).

(** [GetTrashedCampaignsPaginated] retrieves the deleted campaigns of a user
    with pagination: the rows of the page, the total, and the error. *)
Definition GetTrashedCampaignsPaginated (userID offset limit : Z)
  : World -> (list Campaign * Z * option error) * World :=
  exec (
    (* Count total *)
    err <- ask (SqlCountTrashedCampaigns userID) ;;
    match err with
    | Some e =>
        log_Errorf "Error counting trashed campaigns: %v" [AErr e] ;;
        Return ([], 0, Some e)
    | None =>
    total <- (fun w =>
                (inr (Z.of_nat (List.length (filter (trashed_row userID) (campaigns (db w))))),
                 w)) ;;
    (* Get paginated results *)
    err <- ask (SqlFindTrashedCampaignsPage userID offset limit) ;;
    match err with
    | Some e =>
        log_Errorf "Error retrieving trashed campaigns: %v" [AErr e] ;;
        Return ([], 0, Some e)
    | None =>
        fun w =>
          (inr (Limit limit
                  (Offset offset
                     (order_by deleted_at_geb
                        (filter (trashed_row userID) (campaigns (db w))))),
                total, None), w)
    end
    end).

(** [a.Timestamp = v] *)
Definition set_Timestamp (v : option Time) (a : AuditLog) : AuditLog :=
  mkAuditLog (ID a) v (ActorID a) (ActorName a) (Action a) (EntityType a) (EntityID a)
             (Metadata a) (IPAddress a) (UserAgent a).

(** [db.Create(entry).Error] on the package-level handle: the row goes
    into the committed table, and an entry that had no primary key gets the
    one the table gave it. *)
Definition db_Create {R : Type} (entry : AuditLog) : Proc R (AuditLog * option error) :=
  err <- send (SqlCreateAudit entry) ;;
  match err with
  | Some e => ret (entry, Some e)
  | None =>
      fun w =>
        (inr (keyed entry (audit_log (db w)), None),
         set_db (set_audit_log (create_audit entry (audit_log (db w))) (db w)) w)
  end.

(** [SaveAuditLog] persists an audit entry; the entry comes back as the call
    leaves it. *)
Definition SaveAuditLog (entry : AuditLog) : World -> (AuditLog * option error) * World :=
  exec (
    entry <- (match Timestamp entry with
              | None => now <- time_Now ;; ret (set_Timestamp (Some (UTC now)) entry)
              | Some _ => ret entry
              end) ;;
    created <- db_Create entry ;;
    match snd created with
    | Some e => log_Errorf "Failed to save audit log: %v" [AErr e]
    | None => ret tt
    end ;;
    ret created).

(** [entity_type = ? AND entity_id = ?] *)
Definition audit_of_entity (entityType : string) (entityID : Z) (a : AuditLog) : bool :=
  String.eqb (EntityType a) entityType && Z.eqb (EntityID a) entityID.

(** [actor_id = ?]; a NULL actor equals no id. *)
Definition audit_of_actor (actorID : Z) (a : AuditLog) : bool :=
  match ActorID a with
  | Some id => Z.eqb id actorID
  | None => false
  end.

Definition newest_first (a b : AuditLog) : bool := timestamp_geb (Timestamp a) (Timestamp b).

(** [GetAuditLogs] retrieves the audit history of an entity.  [log.Error]
    takes the error and no format. *)
Definition GetAuditLogs (entityType : string) (entityID : Z)
  : World -> (list AuditLog * option error) * World :=
  exec (
    err <- ask (SqlFindAuditLogs entityType entityID) ;;
    match err with
    | Some e =>
        log_at Error EmptyString [AErr e] ;;
        ret ([], Some e)
    | None =>
        fun w =>
          (inr (order_by newest_first
                  (filter (audit_of_entity entityType entityID) (audit_log (db w))),
                None), w)
    end).

(** [GetAuditLogsByActor] retrieves the audit entries of an actor, all of them
    when [limit] is not positive. *)
Definition GetAuditLogsByActor (actorID : Z) (limit : Z)
  : World -> (list AuditLog * option error) * World :=
  exec (
    let limited := if Z.ltb 0 limit then Some limit else None in
    err <- ask (SqlFindAuditLogsByActor actorID limited) ;;
    match err with
    | Some e =>
        log_at Error EmptyString [AErr e] ;;
        ret ([], Some e)
    | None =>
        fun w =>
          let rows := order_by newest_first
                        (filter (audit_of_actor actorID) (audit_log (db w))) in
          (inr (match limited with
                | Some n => Limit n rows
                | None => rows
                end, None), w)
    end).

(** [GetCalendarEventsByResult] returns all calendar events of a result. *)
Definition GetCalendarEventsByResult (resultId : Z)
  : World -> (list CalendarEvent * option error) * World :=
  exec (
    err <- ask (SqlFindCalendarEventsByResult resultId) ;;
    match err with
    | Some e =>
        log_at Error EmptyString [AErr e] ;;
        ret ([], Some e)
    | None =>
        fun w =>
          (inr (order_by (fun a b => Z.leb (CalendarTimestamp b) (CalendarTimestamp a))
                  (filter (fun e => Z.eqb (CalendarResultId e) resultId) (calendar_events (db w))),
                None), w)
    end).

(** [JOIN results ON calendar_events.result_id = results.id WHERE
    results.campaign_id = ?]: an event once for each result row it joins. *)
Definition calendar_events_of_campaign (campaignId : Z) (s : Store) : list CalendarEvent :=
  flat_map (fun e =>
              map (fun _ => e)
                  (filter (fun r => Z.eqb (ResultId r) (CalendarResultId e)
                                    && Z.eqb (ResultCampaignId r) campaignId)
                          (results s)))
           (calendar_events s).

(** [GetCalendarEventsByCampaign] returns all calendar events of a campaign. *)
Definition GetCalendarEventsByCampaign (campaignId : Z)
  : World -> (list CalendarEvent * option error) * World :=
  exec (
    err <- ask (SqlFindCalendarEventsByCampaign campaignId) ;;
    match err with
    | Some e =>
        log_at Error EmptyString [AErr e] ;;
        ret ([], Some e)
    | None =>
        fun w =>
          (inr (order_by (fun a b => Z.leb (CalendarTimestamp b) (CalendarTimestamp a))
                  (calendar_events_of_campaign campaignId (db w)),
                None), w)
    end).

(** ** More of the small installation *)

(** A storage that answers every query, and one that fails them all. *)
Definition quiet_queries : nat -> Query -> option error := fun _ _ => None.

Definition failing_queries (e : error) : nat -> Query -> option error := fun _ _ => Some e.

(** A context that is done from the start. *)
Definition ctx_done : Context := mkContext (fun _ => true) context_Canceled.

(** A job that is not enabled, and one that keeps campaigns for 150 days. *)
Definition config_disabled : TrashTTLConfig := mkTrashTTLConfig 30 0 0 false.

Definition config_150_days : TrashTTLConfig := mkTrashTTLConfig 150 0 0 true.

(** An audit entry with no timestamp and no key yet. *)
Definition example_entry : AuditLog :=
  mkAuditLog 0 None (Some 7) "ana" "CAMPAIGN_EXPORTED" "campaign" 1 "{}" "203.0.113.9" "curl".

(** ** The HTTP handlers *)

(** The status codes of [net/http] the handlers use. *)
Definition http_StatusOK : Z := 200.
Definition http_StatusBadRequest : Z := 400.
Definition http_StatusForbidden : Z := 403.
Definition http_StatusNotFound : Z := 404.
Definition http_StatusMethodNotAllowed : Z := 405.
Definition http_StatusInternalServerError : Z := 500.

(** The [Message] of a response: a text of the handler, or [err.Error()]. *)
Inductive Msg : Type :=
| Text (s : string)
| ErrorText (e : error).

(** [models.Response{Success: ..., Message: ...}] as the handlers build it. *)
Record Response : Type := mkResponse {
  ResponseSuccess : bool;
  ResponseMessage : Msg
}.

(** What a handler hands to [JSONResponse]: a [models.Response], a campaign,
    the map of the trash page, or the map of a restore. *)
Inductive Body : Type :=
| BResponse (r : Response)
| BCampaign (c : Campaign)
| BTrash (trashed : list Campaign) (total page per_page : Z)
| BRestored (campaign : option Campaign) (warnings : list string) (name_changed : bool).

(** What a handler does with its request: the one call of [JSONResponse] it
    makes, with body and status; no call at all; or the run-time panic of
    reading a field through a [nil] pointer. *)
Inductive Served : Type :=
| JSONResponse (body : Body) (status : Z)
| NoResponse
| NilDereference.

(** [user.Role.Slug], as far as [CampaignPurge] reads a user. *)
Record Role : Type := mkRole { Slug : string }.
Record User : Type := mkUser { UserRole : Role }.

(** [models.GetCampaign] and [models.GetUser]; both are in files of [models]
    other than the ones embedded here. *)
Variable GetCampaign : Z -> Z -> World -> (error + Campaign) * World.
Variable GetUser : Z -> World -> (error + User) * World.

(** [Campaign] of the API server, for the methods GET and DELETE; [reason]
    is the [Reason] decoded from the body (empty when there is none). *)
Definition Server_Campaign (method : string) (id userID : Z) (reason : string)
  : World -> Served * World :=
  exec (
    found <- call (GetCampaign id userID) ;;
    match found with
    | inl err =>
        log_at Error EmptyString [AErr err] ;;
        Return (JSONResponse (BResponse (mkResponse false (Text "Campaign not found")))
                             http_StatusNotFound)
    | inr c =>
    if String.eqb method "GET" then
      Return (JSONResponse (BCampaign c) http_StatusOK)
    else if String.eqb method "DELETE" then
      (* Soft delete - move to trash *)
      err <- call (SoftDeleteCampaign id userID reason) ;;
      match err with
      | Some err =>
          if error_eqb err ErrCampaignNotFound then
            Return (JSONResponse (BResponse (mkResponse false (Text "Campaign not found")))
                                 http_StatusNotFound)
          else if error_eqb err ErrPermissionDenied then
            Return (JSONResponse (BResponse (mkResponse false (Text "Permission denied")))
                                 http_StatusForbidden)
          else
            log_Errorf "Error soft deleting campaign %d: %v" [AInt id; AErr err] ;;
            Return (JSONResponse
                      (BResponse (mkResponse false (Text "Error moving campaign to trash")))
                      http_StatusInternalServerError)
      | None =>
          Return (JSONResponse (BResponse (mkResponse true (Text "Campaign moved to trash")))
                               http_StatusOK)
      end
    else Return NoResponse
    end).

(** [CampaignsTrash] returns the campaigns in the trash; [page] and [perPage]
    are what [strconv.Atoi] made of the two query parameters. *)
Definition CampaignsTrash (method : string) (userID page perPage : Z)
  : World -> Served * World :=
  exec (
    if negb (String.eqb method "GET") then
      Return (JSONResponse (BResponse (mkResponse false (Text "Method not allowed")))
                           http_StatusMethodNotAllowed)
    else
    (* Parse pagination params *)
    let page := if Z.ltb page 1 then 1 else page in
    let perPage := if Z.ltb perPage 1 || Z.ltb 100 perPage then 50 else perPage in
    let offset := mul64 (wrap64 (page - 1)) perPage in
    r <- call (GetTrashedCampaignsPaginated userID offset perPage) ;;
    match snd r with
    | Some err =>
        log_Errorf "Error retrieving trashed campaigns: %v" [AErr err] ;;
        Return (JSONResponse (BResponse (mkResponse false (Text "Error retrieving trash")))
                             http_StatusInternalServerError)
    | None =>
        Return (JSONResponse (BTrash (fst (fst r)) (snd (fst r)) page perPage) http_StatusOK)
    end).

(** [CampaignRestore] restores a campaign from the trash. *)
Definition CampaignRestore (method : string) (id userID : Z) : World -> Served * World :=
  exec (
    if negb (String.eqb method "POST") then
      Return (JSONResponse (BResponse (mkResponse false (Text "Method not allowed")))
                           http_StatusMethodNotAllowed)
    else
    r <- call (RestoreCampaign id userID) ;;
    match snd r with
    | Some err =>
        if error_eqb err ErrCampaignNotFound then
          Return (JSONResponse (BResponse (mkResponse false (Text "Campaign not found")))
                               http_StatusNotFound)
        else if error_eqb err ErrNotDeleted then
          Return (JSONResponse (BResponse (mkResponse false (Text "Campaign is not in trash")))
                               http_StatusBadRequest)
        else if error_eqb err ErrPermissionDenied then
          Return (JSONResponse (BResponse (mkResponse false (Text "Permission denied")))
                               http_StatusForbidden)
        else
          log_Errorf "Error restoring campaign %d: %v" [AInt id; AErr err] ;;
          Return (JSONResponse (BResponse (mkResponse false (Text "Error restoring campaign")))
                               http_StatusInternalServerError)
    | None =>
        match fst r with
        | None => Return NilDereference
        | Some result =>
            Return (JSONResponse (BRestored (RestoredCampaign result) (Warnings result)
                                            (NameChanged result))
                                 http_StatusOK)
        end
    end).

(** [CampaignPurge] permanently deletes a campaign; [decoded] is what the
    JSON decoder made of the body: an error, or the [Confirmation] (empty
    when the body has no such field). *)
Definition CampaignPurge (method : string) (id userID : Z) (decoded : error + string)
  : World -> Served * World :=
  exec (
    if negb (String.eqb method "DELETE") then
      Return (JSONResponse (BResponse (mkResponse false (Text "Method not allowed")))
                           http_StatusMethodNotAllowed)
    else
    (* Check if user is admin *)
    user <- call (GetUser userID) ;;
    match user with
    | inl err =>
        log_Errorf "Error getting user %d: %v" [AInt userID; AErr err] ;;
        Return (JSONResponse (BResponse (mkResponse false (Text "Error verifying permissions")))
                             http_StatusInternalServerError)
    | inr user =>
    let isAdmin := String.eqb (Slug (UserRole user)) "admin" in
    if negb isAdmin then
      Return (JSONResponse (BResponse (mkResponse false (Text "Admin privileges required")))
                           http_StatusForbidden)
    else
    (* Read confirmation from body *)
    match decoded with
    | inl _ =>
        Return (JSONResponse (BResponse (mkResponse false (Text "Invalid request body")))
                             http_StatusBadRequest)
    | inr Confirmation =>
    (* Get campaign to validate confirmation *)
    found <- call (GetCampaign id userID) ;;
    match found with
    | inl _ =>
        Return (JSONResponse (BResponse (mkResponse false (Text "Campaign not found")))
                             http_StatusNotFound)
    | inr c =>
    (* Validate confirmation (must match campaign name or "DELETE") *)
    if negb (String.eqb Confirmation (Name c)) && negb (String.eqb Confirmation "DELETE") then
      Return (JSONResponse (BResponse (mkResponse false (Text "Confirmation does not match")))
                           http_StatusBadRequest)
    else
    (* Purge *)
    err <- call (PurgeCampaign id userID true) ;;
    match err with
    | Some err =>
        log_Errorf "Error purging campaign %d: %v" [AInt id; AErr err] ;;
        Return (JSONResponse (BResponse (mkResponse false (ErrorText err)))
                             http_StatusInternalServerError)
    | None =>
        Return (JSONResponse (BResponse (mkResponse true (Text "Campaign permanently deleted")))
                             http_StatusOK)
    end
    end
    end
    end).

(** A lookup of the campaigns that are not in the trash by key and owner, and
    users of whom user 7 is the administrator. *)
Definition example_GetCampaign (id userID : Z) (w : World) : (error + Campaign) * World :=
  match find (fun c => Z.eqb (Id c) id && Z.eqb (UserId c) userID && negb (IsDeleted c))
             (campaigns (db w)) with
  | Some c => (inr c, w)
  | None => (inl gorm_ErrRecordNotFound, w)
  end.

Definition example_GetUser (userID : Z) (w : World) : (error + User) * World :=
  (inr (mkUser (mkRole (if Z.eqb userID 7 then "admin" else "user"))), w).

(** What a save of the row of campaign [campaignID] leaves of a store, the
    audit log apart: the child tables, the number of campaign rows and every
    other campaign. *)
Definition only_the_row_changed (campaignID : Z) (s s' : Store) : Prop :=
  events s' = events s /\ results s' = results s /\
  calendar_events s' = calendar_events s /\ campaign_groups s' = campaign_groups s /\
  List.length (campaigns s') = List.length (campaigns s) /\
  (forall id, id <> campaignID ->
              campaign_by_id id (campaigns s') = campaign_by_id id (campaigns s)).

(** ** What the statements below speak of *)

(** How often the stop channel has been closed. *)
Definition closed_before (s : Scheduler) : nat :=
  match stopChan (job s) with
  | ChanOpen => 0
  | ChanClosed => 1
  end.

(** The entry as [SaveAuditLog] hands it to the storage. *)
Definition stamped (entry : AuditLog) (w : World) : AuditLog :=
  set_Timestamp (Some (match Timestamp entry with
                       | Some t => t
                       | None => clock env (ticks w)
                       end)) entry.

(** What [RestoreCampaign] returns: a result and no error, or an error and
    no result. *)
Definition result_or_error (r : option RestoreResult * option error) : Prop :=
  match r with
  | (Some _, None) | (None, Some _) => True
  | _ => False
  end.

(** What a part of a cycle leaves of the world [w] it starts in: the store,
    no deletion and no audit entry sent, and what was sent before. *)
Definition leaves_the_store (w w' : World) : Prop :=
  db w' = db w /\
  filter is_deletion (issued w') = filter is_deletion (issued w) /\
  filter is_create (issued w') = filter is_create (issued w) /\
  exists sent_here : list Stmt, issued w' = List.app (issued w) sent_here.

(** * Verification *)

Local Open Scope list_scope.
Local Open Scope Z_scope.

(** ** Running a body by hand *)

Ltac unfold_body :=
  unfold Begin, First, Save, Create, Commit, Rollback, CountNameConflicts,
    PluckPurgeCandidates, time_Now, log_Warnf, log_Infof, log_Errorf, log_Debugf;
  unfold exec_stmt, log_at, call;
  unfold send, exec, bind, ret, Return.

Ltac reduce_world :=
  cbn [fst snd db tx issued logged ticks cur put_cur set_tx set_db sent wrote ticked
       negb andb orb].

(** Answer the storage's questions from the hypotheses at hand. *)
Ltac answer_faults :=
  repeat match goal with
         | H : succeeds env ?k |- context [fault env ?n ?s] =>
             rewrite (H n s eq_refl)
         | H : fails_with env ?k ?e |- context [fault env ?n ?s] =>
             rewrite (H n s eq_refl)
         end.

Ltac run := unfold_body; repeat (progress (reduce_world; answer_faults)).

(** Put the worlds of an equation in the same shape. *)
Ltac same_world :=
  reduce_world;
  unfold wrote, sent, set_tx, set_db, ticked, put_cur;
  cbn [fst snd db tx issued logged ticks cur];
  rewrite <- ?app_assoc; cbn [app].

(** ** Rows by primary key *)

Lemma campaign_by_id_Id (id : Z) (rows : list Campaign) (c : Campaign) :
  campaign_by_id id rows = Some c -> Id c = id.
Proof.
  unfold campaign_by_id. intros H.
  apply find_some in H. destruct H as [_ H].
  now apply Z.eqb_eq.
Qed.

Lemma campaign_by_id_In (id : Z) (rows : list Campaign) (c : Campaign) :
  campaign_by_id id rows = Some c -> In c rows.
Proof.
  unfold campaign_by_id. intros H.
  now apply find_some in H.
Qed.

(** ** The scope of a lookup *)

(** FOR UPDATE leaves the scope of a handle as it is. *)
Lemma unscoped_lockForUpdate (h : Handle) : unscoped (lockForUpdate h) = unscoped h.
Proof.
  unfold lockForUpdate. destruct (String.eqb (dialect env) "sqlite3"); reflexivity.
Qed.

(** The locked lookup of soft delete and of the two purges reaches the
    campaigns that are not in the trash. *)
Lemma in_scope_locked (c : Campaign) :
  in_scope (lockForUpdate new_handle) c = negb (IsDeleted c).
Proof.
  unfold in_scope. rewrite unscoped_lockForUpdate. reflexivity.
Qed.

(** The lookup of restore reaches every campaign. *)
Lemma in_scope_Unscoped (h : Handle) (c : Campaign) : in_scope (Unscoped h) c = true.
Proof.
  reflexivity.
Qed.

(** The row the lookup has found, or none. *)
Ltac look_up Hrow :=
  rewrite Hrow; rewrite ?in_scope_locked, ?in_scope_Unscoped.

(** The same, for a row whose trash state [Hdel] tells. *)
Ltac look_up_in Hrow Hdel :=
  look_up Hrow; rewrite ?Hdel; run; rewrite ?Hdel; run.

(** Split on what the storage answers to the statement at the head. *)
Ltac split_on_fault :=
  match goal with
  | |- context [fault env ?n ?s] => destruct (fault env n s) eqn:?
  end.

(** ** A campaign in the trash *)

(** Soft delete of a campaign that is in the trash, whoever asks: the lookup
    does not find it. *)
Lemma SoftDeleteCampaign_trashed (w : World) (campaignID userID : Z)
      (reason : string) (c : Campaign) :
  succeeds env KBegin ->
  succeeds env KFirst ->
  campaign_by_id campaignID (campaigns (db w)) = Some c ->
  IsDeleted c = true ->
  SoftDeleteCampaign campaignID userID reason w =
  (Some ErrCampaignNotFound,
   mkWorld (db w) None
           (issued w ++ [SqlBegin; SqlFirstCampaign (lockForUpdate new_handle) campaignID;
                         SqlRollback])
           (logged w) (ticks w)).
Proof.
  intros Hb Hf Hrow Hdel.
  unfold SoftDeleteCampaign. run.
  look_up_in Hrow Hdel.
  same_world. reflexivity.
Qed.

(** The interactive purge of a campaign that is in the trash: the lookup does
    not find it. *)
Lemma PurgeCampaign_trashed (w : World) (campaignID userID : Z) (c : Campaign) :
  succeeds env KBegin ->
  succeeds env KFirst ->
  campaign_by_id campaignID (campaigns (db w)) = Some c ->
  IsDeleted c = true ->
  PurgeCampaign campaignID userID true w =
  (Some ErrCampaignNotFound,
   mkWorld (db w) None
           (issued w ++ [SqlBegin; SqlFirstCampaign (lockForUpdate new_handle) campaignID;
                         SqlRollback])
           (logged w) (ticks w)).
Proof.
  intros Hb Hf Hrow Hdel.
  unfold PurgeCampaign. run.
  look_up_in Hrow Hdel.
  same_world. reflexivity.
Qed.

(** The interactive purge of a campaign that is not in the trash. *)
Lemma PurgeCampaign_active (w : World) (campaignID userID : Z) (c : Campaign) :
  succeeds env KBegin ->
  succeeds env KFirst ->
  campaign_by_id campaignID (campaigns (db w)) = Some c ->
  IsDeleted c = false ->
  PurgeCampaign campaignID userID true w =
  (Some (errors_New "can only purge campaigns in trash"),
   mkWorld (db w) None
           (issued w ++ [SqlBegin; SqlFirstCampaign (lockForUpdate new_handle) campaignID;
                         SqlRollback])
           (logged w) (ticks w)).
Proof.
  intros Hb Hf Hrow Hdel.
  unfold PurgeCampaign. run.
  look_up_in Hrow Hdel.
  same_world. reflexivity.
Qed.

(** The system purge of a campaign the lookup does not find: one that is not
    there, or one that is in the trash. *)
Lemma PurgeSystemCampaign_not_found (w : World) (campaignID : Z) :
  succeeds env KBegin ->
  succeeds env KFirst ->
  (campaign_by_id campaignID (campaigns (db w)) = None \/
   exists c, campaign_by_id campaignID (campaigns (db w)) = Some c /\ IsDeleted c = true) ->
  PurgeSystemCampaign campaignID w =
  (None,
   mkWorld (db w) None
           (issued w ++ [SqlBegin; SqlFirstCampaign (lockForUpdate new_handle) campaignID;
                         SqlRollback])
           (logged w ++ [mkLogLine Warn
                                   "Campaign %d not found during system purge (already purged?)"
                                   [AInt campaignID]])
           (ticks w)).
Proof.
  intros Hb Hf Hrow.
  unfold PurgeSystemCampaign. run.
  destruct Hrow as [Hrow | (c & Hrow & Hdel)]; [look_up Hrow | look_up_in Hrow Hdel]; run.
  all: same_world; reflexivity.
Qed.

(** System purge of a campaign that is active again. *)
Lemma PurgeSystemCampaign_restored (w : World) (campaignID : Z) (c : Campaign) :
  succeeds env KBegin ->
  succeeds env KFirst ->
  campaign_by_id campaignID (campaigns (db w)) = Some c ->
  IsDeleted c = false ->
  PurgeSystemCampaign campaignID w =
  (None,
   mkWorld (db w) None
           (issued w ++ [SqlBegin; SqlFirstCampaign (lockForUpdate new_handle) campaignID;
                         SqlRollback])
           (logged w ++ [mkLogLine Warn
                                   "Campaign %d was restored before system purge, skipping"
                                   [AInt campaignID]])
           (ticks w)).
Proof.
  intros Hb Hf Hrow Hact.
  unfold PurgeSystemCampaign. run.
  look_up_in Hrow Hact.
  same_world. reflexivity.
Qed.

(** ** Ownership *)

(** What a caller who is not the owner gets from the soft delete of a campaign
    that is not in the trash, with the world it leaves. *)
Lemma SoftDeleteCampaign_not_owner (w : World) (campaignID userID : Z) (reason : string)
      (c : Campaign) :
  succeeds env KBegin ->
  succeeds env KFirst ->
  campaign_by_id campaignID (campaigns (db w)) = Some c ->
  IsDeleted c = false ->
  UserId c <> userID ->
  SoftDeleteCampaign campaignID userID reason w =
  (Some ErrPermissionDenied,
   mkWorld (db w) None
           (issued w ++ [SqlBegin; SqlFirstCampaign (lockForUpdate new_handle) campaignID;
                         SqlRollback])
           (logged w ++ [mkLogLine Warn "User %d attempted to delete campaign %d owned by %d"
                                   [AInt userID; AInt campaignID; AInt (UserId c)]])
           (ticks w)).
Proof.
  intros Hb Hf Hrow Hact Hown.
  unfold SoftDeleteCampaign. run.
  look_up_in Hrow Hact.
  destruct (Z.eqb_spec (UserId c) userID) as [Heq | _]; [contradiction |].
  same_world. reflexivity.
Qed.

(** What a caller who is not the owner gets from restore. *)
Lemma RestoreCampaign_not_owner (w : World) (campaignID userID : Z) (c : Campaign) :
  succeeds env KBegin ->
  succeeds env KFirst ->
  campaign_by_id campaignID (campaigns (db w)) = Some c ->
  UserId c <> userID ->
  RestoreCampaign campaignID userID w =
  ((None, Some ErrPermissionDenied),
   mkWorld (db w) None
           (issued w ++ [SqlBegin;
                         SqlFirstCampaign (Unscoped (lockForUpdate new_handle)) campaignID;
                         SqlRollback])
           (logged w ++ [mkLogLine Warn "User %d attempted to restore campaign %d owned by %d"
                                   [AInt userID; AInt campaignID; AInt (UserId c)]])
           (ticks w)).
Proof.
  intros Hb Hf Hrow Hown.
  unfold RestoreCampaign. run.
  look_up Hrow. run.
  destruct (Z.eqb_spec (UserId c) userID) as [Heq | _]; [contradiction |].
  same_world. reflexivity.
Qed.

(** C10 fails on the code for soft delete.  The lookup of [SoftDeleteCampaign]
    is sent without [Unscoped()], so it does not find a campaign that is in the
    trash: someone who is not the owner gets ErrCampaignNotFound from it, not
    ErrPermissionDenied, and the ownership check is reached for the campaigns
    that are not in the trash only.  In [RestoreCampaign], whose lookup is
    [Unscoped()], the ownership check does come before the check of the trash
    state: someone who is not the owner gets ErrPermissionDenied, never
    ErrNotDeleted, whatever the state of the campaign. *)
Theorem trashed_campaign_is_not_found_before_ownership
        (w : World) (campaignID userID : Z) (reason : string) (c : Campaign) :
  succeeds env KBegin ->
  succeeds env KFirst ->
  campaign_by_id campaignID (campaigns (db w)) = Some c ->
  UserId c <> userID ->
  (IsDeleted c = true ->
   let r := SoftDeleteCampaign campaignID userID reason w in
   fst r = Some ErrCampaignNotFound /\ fst r <> Some ErrPermissionDenied /\
   db (snd r) = db w /\
   issued (snd r) =
   issued w ++ [SqlBegin; SqlFirstCampaign (lockForUpdate new_handle) campaignID; SqlRollback])
  /\
  (IsDeleted c = false ->
   fst (SoftDeleteCampaign campaignID userID reason w) = Some ErrPermissionDenied)
  /\
  (let r := RestoreCampaign campaignID userID w in
   fst r = (None, Some ErrPermissionDenied) /\ snd (fst r) <> Some ErrNotDeleted /\
   issued (snd r) =
   issued w ++ [SqlBegin; SqlFirstCampaign (Unscoped (lockForUpdate new_handle)) campaignID;
                SqlRollback]).
Proof.
  intros Hb Hf Hrow Hown. split; [| split].
  - intros Hdel r. subst r.
    rewrite (SoftDeleteCampaign_trashed w campaignID userID reason c Hb Hf Hrow Hdel).
    cbn [fst snd issued db]. repeat split; congruence.
  - intros Hact.
    now rewrite (SoftDeleteCampaign_not_owner w campaignID userID reason c Hb Hf Hrow Hact Hown).
  - intros r. subst r.
    rewrite (RestoreCampaign_not_owner w campaignID userID c Hb Hf Hrow Hown).
    cbn [fst snd issued]. repeat split; congruence.
Qed.

(** C3, as the code has it: for an existing campaign and an actor who is not
    its owner, restore fails with ErrPermissionDenied and leaves the store as
    it was (no field changed, no audit entry, no child row deleted), and so
    does soft delete of a campaign that is not in the trash.  The interactive
    purge compares no owner and never answers ErrPermissionDenied: what it
    refuses is a caller without the admin flag, before it touches the
    storage. *)
Theorem non_owner_is_denied
        (w : World) (campaignID userID : Z) (reason : string) (c : Campaign) :
  succeeds env KBegin ->
  succeeds env KFirst ->
  campaign_by_id campaignID (campaigns (db w)) = Some c ->
  UserId c <> userID ->
  (fst (RestoreCampaign campaignID userID w) = (None, Some ErrPermissionDenied) /\
   db (snd (RestoreCampaign campaignID userID w)) = db w) /\
  (IsDeleted c = false ->
   fst (SoftDeleteCampaign campaignID userID reason w) = Some ErrPermissionDenied /\
   db (snd (SoftDeleteCampaign campaignID userID reason w)) = db w) /\
  PurgeCampaign campaignID userID false w =
  (Some (errors_New "purge requires admin privileges"), w) /\
  (forall isAdmin : bool,
      fst (PurgeCampaign campaignID userID isAdmin w) <> Some ErrPermissionDenied).
Proof.
  intros Hb Hf Hrow Hown.
  rewrite (RestoreCampaign_not_owner w campaignID userID c Hb Hf Hrow Hown).
  cbn [fst snd db]. split; [split; reflexivity |]. split; [| split; [reflexivity |]].
  - intros Hact.
    rewrite (SoftDeleteCampaign_not_owner w campaignID userID reason c Hb Hf Hrow Hact Hown).
    split; reflexivity.
  - intros [|]; [| discriminate].
    destruct (IsDeleted c) eqn:Hdel.
    + rewrite (PurgeCampaign_trashed w campaignID userID c Hb Hf Hrow Hdel). discriminate.
    + rewrite (PurgeCampaign_active w campaignID userID c Hb Hf Hrow Hdel). discriminate.
Qed.

(** ** Saving a row *)

Lemma campaign_by_id_save (id : Z) (rows : list Campaign) (c' : Campaign) :
  Id c' = id ->
  campaign_by_id id (save_campaign c' rows) = Some c'.
Proof.
  intros Hid. unfold save_campaign, campaign_by_id. rewrite Hid.
  destruct (existsb (fun r => Id r =? id) rows) eqn:Hex.
  - induction rows as [| r rows IH]; [discriminate |].
    cbn [map find existsb] in *.
    destruct (Id r =? id) eqn:Hr.
    + now rewrite Hid, Z.eqb_refl.
    + rewrite Hr. apply IH. now rewrite orb_false_l in Hex.
  - induction rows as [| r rows IH].
    + cbn. now rewrite Hid, Z.eqb_refl.
    + cbn [existsb app find] in *. apply orb_false_iff in Hex as [Hr Hex].
      rewrite Hr. now apply IH.
Qed.

(** The metadata of an audit entry is all [SetMetadata] changes. *)
Lemma SetMetadata_fields (a : AuditLog) (d : option (list (string * MetaValue))) :
  let a' := fst (SetMetadata a d) in
  ID a' = ID a /\
  ActorID a' = ActorID a /\ ActorName a' = ActorName a /\ Action a' = Action a /\
  EntityType a' = EntityType a /\ EntityID a' = EntityID a.
Proof.
  unfold SetMetadata. destruct d as [d |]; [destruct (json_Marshal d) |]; cbn; auto 6.
Qed.

(** The entries the lifecycle creates have no key yet, and get the next one. *)
Lemma create_audit_new (actor : option Z) (actor_name action : string) (entity_id : Z)
      (d : option (list (string * MetaValue))) (rows : list AuditLog) :
  let a := fst (SetMetadata (new_audit actor actor_name action entity_id) d) in
  create_audit a rows = rows ++ [with_ID a (next_audit_id rows)].
Proof.
  intros a. unfold create_audit, keyed.
  destruct (SetMetadata_fields (new_audit actor actor_name action entity_id) d) as [Hid _].
  fold a in Hid. rewrite Hid. reflexivity.
Qed.

(** ** Soft delete *)

(** Soft delete of an active campaign by its owner: the result and the store,
    whatever becomes of the audit entry. *)
Lemma SoftDeleteCampaign_active (w : World) (campaignID userID : Z)
      (reason : string) (c : Campaign) :
  succeeds env KBegin ->
  succeeds env KFirst ->
  succeeds env KSave ->
  succeeds env KCommit ->
  campaign_by_id campaignID (campaigns (db w)) = Some c ->
  UserId c = userID ->
  IsDeleted c = false ->
  let c' := soft_deleted (stopping c) (clock env (ticks w)) userID reason c in
  let r := SoftDeleteCampaign campaignID userID reason w in
  fst r = None /\
  tx (snd r) = None /\
  ticks (snd r) = S (ticks w) /\
  exists audited : bool,
    db (snd r) =
    set_audit_log
      (if audited
       then create_audit (soft_delete_audit campaignID userID reason c') (audit_log (db w))
       else audit_log (db w))
      (set_campaigns (save_campaign c' (campaigns (db w))) (db w)) /\
    (succeeds env KCreate -> audited = true) /\
    (forall e, fails_with env KCreate e -> audited = false).
Proof.
  intros Hb Hf Hs Hc Hrow Hown Hdel c' r. subst r.
  unfold SoftDeleteCampaign. run.
  look_up_in Hrow Hdel.
  rewrite Hown, Z.eqb_refl. run. rewrite ?Hdel. run.
  fold (stopping c). subst c'.
  destruct (stopping c) eqn:Hstop; run.
  all: match goal with
       | |- context [fault env ?n (SqlCreateAudit ?a)] =>
           destruct (fault env n (SqlCreateAudit a)) as [e |] eqn:Haudit
       end; run; same_world.
  all: repeat split.
  1, 3: exists false. 3, 4: exists true.
  all: repeat split; try reflexivity; intros; exfalso.
  all: match goal with
       | H : succeeds env KCreate, Ha : fault env ?n ?s = Some _ |- _ =>
           rewrite (H n s eq_refl) in Ha; discriminate
       | H : fails_with env KCreate _, Ha : fault env ?n ?s = None |- _ =>
           rewrite (H n s eq_refl) in Ha; discriminate
       end.
Qed.

(** ** Purge *)

(** The end of a path of the system purge that leaves after the lookup. *)
Ltac system_left :=
  same_world;
  split; [reflexivity |];
  split; [rewrite ?filter_app; cbn [filter is_deletion kind_of]; now rewrite ?app_nil_r |];
  split; [rewrite ?filter_app; cbn [filter is_create kind_of]; now rewrite ?app_nil_r |];
  split; [reflexivity | eexists; reflexivity].

(** No path of the system purge leads past its lookup: what the lookup finds
    is not in the trash, and what is not in the trash is not purged.
    Whatever the storage answers, the system purge leaves the store as it was,
    sends no deletion, creates no audit entry and does not read the clock. *)
Lemma PurgeSystemCampaign_changes_nothing (w : World) (campaignID : Z) :
  let r := PurgeSystemCampaign campaignID w in
  db (snd r) = db w /\
  filter is_deletion (issued (snd r)) = filter is_deletion (issued w) /\
  filter is_create (issued (snd r)) = filter is_create (issued w) /\
  ticks (snd r) = ticks w /\
  exists sent_here : list Stmt, issued (snd r) = issued w ++ sent_here.
Proof.
  cbn zeta. unfold PurgeSystemCampaign.
  run. split_on_fault; run; [system_left |].
  split_on_fault; run.
  - destruct (errors_Is _ _); run; system_left.
  - destruct (campaign_by_id campaignID (campaigns (db w))) as [c |] eqn:Hrow.
    + rewrite in_scope_locked.
      destruct (IsDeleted c) eqn:Hdel; run; rewrite ?Hdel; run;
        try change (errors_Is gorm_ErrRecordNotFound gorm_ErrRecordNotFound) with true;
        run; system_left.
    + run. change (errors_Is gorm_ErrRecordNotFound gorm_ErrRecordNotFound) with true.
      run. system_left.
Qed.

(** C1 fails on the code: neither purge reaches its cascade.  The lookup of a
    purge is sent without [Unscoped()], so it does not find a campaign that is
    in the trash, the only kind a purge is meant for.  The interactive purge
    returns ErrCampaignNotFound; the system purge logs that the campaign is not
    found and returns no error; both leave with a rollback right after the
    lookup, and the campaign is in the trash as before, with every child
    row. *)
Theorem purge_of_a_trashed_campaign_deletes_nothing
        (w : World) (campaignID userID : Z) (c : Campaign) :
  succeeds env KBegin ->
  succeeds env KFirst ->
  campaign_by_id campaignID (campaigns (db w)) = Some c ->
  IsDeleted c = true ->
  (let r := PurgeCampaign campaignID userID true w in
   fst r = Some ErrCampaignNotFound /\
   db (snd r) = db w /\
   campaign_by_id campaignID (campaigns (db (snd r))) = Some c /\
   issued (snd r) =
   issued w ++ [SqlBegin; SqlFirstCampaign (lockForUpdate new_handle) campaignID; SqlRollback])
  /\
  (let r := PurgeSystemCampaign campaignID w in
   fst r = None /\
   db (snd r) = db w /\
   campaign_by_id campaignID (campaigns (db (snd r))) = Some c /\
   issued (snd r) =
   issued w ++ [SqlBegin; SqlFirstCampaign (lockForUpdate new_handle) campaignID; SqlRollback]
   /\
   logged (snd r) =
   logged w ++ [mkLogLine Warn "Campaign %d not found during system purge (already purged?)"
                          [AInt campaignID]]).
Proof.
  intros Hb Hf Hrow Hdel. split; intros r; subst r.
  - rewrite (PurgeCampaign_trashed w campaignID userID c Hb Hf Hrow Hdel).
    cbn [fst snd db issued]. split; [reflexivity |]. split; [reflexivity |].
    split; [exact Hrow | reflexivity].
  - rewrite (PurgeSystemCampaign_not_found w campaignID Hb Hf).
    + cbn [fst snd db issued logged]. split; [reflexivity |]. split; [reflexivity |].
      split; [exact Hrow |]. split; reflexivity.
    + right. exists c. split; assumption.
Qed.

(** ** The audit entry *)

(** C2 fails on the code for the purges: they never get to their audit
    entry.  With a storage that refuses every audit entry, the interactive
    purge of a campaign in the trash returns ErrCampaignNotFound, not the
    wrapped refusal, and the system purge returns no error at all; neither has
    sent an audit entry.  The soft delete does what the claim says: it
    commits, returns no error, the campaign's row is the soft-deleted one, and
    only the audit entry is missing. *)
Theorem purge_does_not_reach_its_audit_entry
        (w : World) (campaignID userID : Z) (reason : string) (c : Campaign) (e : error) :
  succeeds env KBegin ->
  succeeds env KFirst ->
  fails_with env KCreate e ->
  campaign_by_id campaignID (campaigns (db w)) = Some c ->
  (IsDeleted c = true ->
   (let r := PurgeCampaign campaignID userID true w in
    fst r = Some ErrCampaignNotFound /\
    fst r <> Some (fmt_Errorf_w "failed to create audit log: %w" e) /\
    db (snd r) = db w /\
    filter is_create (issued (snd r)) = filter is_create (issued w)) /\
   (let r := PurgeSystemCampaign campaignID w in
    fst r = None /\
    db (snd r) = db w /\
    filter is_create (issued (snd r)) = filter is_create (issued w)))
  /\
  (IsDeleted c = false ->
   UserId c = userID ->
   succeeds env KSave ->
   succeeds env KCommit ->
   let r := SoftDeleteCampaign campaignID userID reason w in
   let c' := soft_deleted (stopping c) (clock env (ticks w)) userID reason c in
   fst r = None /\
   db (snd r) = set_campaigns (save_campaign c' (campaigns (db w))) (db w) /\
   campaign_by_id campaignID (campaigns (db (snd r))) = Some c' /\
   IsDeleted c' = true /\
   audit_log (db (snd r)) = audit_log (db w)).
Proof.
  intros Hb Hf Hcr Hrow. split.
  - intros Hdel. split; intros r; subst r.
    + rewrite (PurgeCampaign_trashed w campaignID userID c Hb Hf Hrow Hdel).
      cbn [fst snd db issued]. rewrite filter_app. cbn. rewrite app_nil_r.
      split; [reflexivity |]. split; [discriminate |]. split; reflexivity.
    + rewrite (PurgeSystemCampaign_not_found w campaignID Hb Hf);
        [| right; exists c; split; assumption].
      cbn [fst snd db issued]. rewrite filter_app. cbn. rewrite app_nil_r.
      split; [reflexivity |]. split; reflexivity.
  - intros Hact Hown Hs Hc r c'.
    destruct (SoftDeleteCampaign_active w campaignID userID reason c
                                        Hb Hf Hs Hc Hrow Hown Hact)
      as (Hr & _ & _ & audited & Hdb & _ & Hno).
    fold r c' in Hr, Hdb.
    rewrite (Hno e Hcr) in Hdb.
    assert (Hdb' : db (snd r) = set_campaigns (save_campaign c' (campaigns (db w))) (db w))
      by (rewrite Hdb; destruct (db w); reflexivity).
    repeat split; auto.
    + rewrite Hdb'. cbn [campaigns set_campaigns].
      apply campaign_by_id_save. subst c'. cbn [Id soft_deleted].
      eapply campaign_by_id_Id; eauto.
    + rewrite Hdb'. reflexivity.
Qed.

(** ** The fields a soft delete sets *)

(** C6: a soft delete that succeeds on an active campaign stores a row whose
    status_before_delete is the prior status; whose status is Complete when the
    prior status was Queued or InProgress and the prior status otherwise; with
    deleted_at the reading of the clock, deleted_by the acting user, the reason
    as given, version one more than before, and every other field as it was. *)
Theorem soft_delete_sets_the_lifecycle_fields
        (w : World) (campaignID userID : Z) (reason : string) (c : Campaign) :
  succeeds env KBegin ->
  succeeds env KFirst ->
  succeeds env KSave ->
  succeeds env KCommit ->
  campaign_by_id campaignID (campaigns (db w)) = Some c ->
  UserId c = userID ->
  IsDeleted c = false ->
  let r := SoftDeleteCampaign campaignID userID reason w in
  fst r = None /\
  exists c' : Campaign,
    campaign_by_id campaignID (campaigns (db (snd r))) = Some c' /\
    StatusBeforeDelete c' = Status c /\
    (Status c = CampaignQueued \/ Status c = CampaignInProgress ->
     Status c' = CampaignComplete) /\
    (Status c <> CampaignQueued -> Status c <> CampaignInProgress ->
     Status c' = Status c) /\
    DeletedAt c' = Some (clock env (ticks w)) /\
    DeletedBy c' = Some userID /\
    DeleteReason c' = reason /\
    Version c' = Version c + 1 /\
    Id c' = Id c /\ UserId c' = UserId c /\ Name c' = Name c /\
    CampaignType c' = CampaignType c /\
    RestoredAt c' = RestoredAt c /\ RestoredBy c' = RestoredBy c.
Proof.
  intros Hb Hf Hs Hc Hrow Hown Hact r.
  destruct (SoftDeleteCampaign_active w campaignID userID reason c
                                      Hb Hf Hs Hc Hrow Hown Hact)
    as (Hr & _ & _ & audited & Hdb & _).
  fold r in Hr, Hdb. split; [exact Hr |].
  exists (soft_deleted (stopping c) (clock env (ticks w)) userID reason c).
  split.
  - rewrite Hdb. cbn [campaigns set_campaigns set_audit_log].
    apply campaign_by_id_save. cbn [Id soft_deleted].
    eapply campaign_by_id_Id; eauto.
  - cbn [soft_deleted StatusBeforeDelete Status DeletedAt DeletedBy DeleteReason Version
         Id UserId Name CampaignType RestoredAt RestoredBy].
    repeat split.
    + intros [Hq | Hp]; unfold stopping; rewrite Hq || rewrite Hp;
        rewrite String.eqb_refl; [rewrite orb_true_r |]; reflexivity.
    + intros Hq Hp. unfold stopping.
      apply String.eqb_neq in Hq, Hp. now rewrite Hq, Hp.
Qed.

(** ** Retries *)

(** C4 fails on the code for soft delete: a retry is an error.  A soft delete
    of a campaign that is in the trash already returns ErrCampaignNotFound
    (its lookup is sent without [Unscoped()], so the check for a campaign
    already deleted is never reached); of two soft deletes in a row the first
    succeeds and the second returns that error.  The store is as the first
    left it, with its one audit entry.  A system purge of a campaign that is
    gone, or that is active again, does what the claim says: it returns no
    error and leaves the store as it was. *)
Theorem second_soft_delete_is_not_found
        (w : World) (campaignID userID : Z) (reason reason' : string) (c : Campaign) :
  succeeds env KBegin ->
  succeeds env KFirst ->
  (campaign_by_id campaignID (campaigns (db w)) = Some c ->
   UserId c = userID ->
   IsDeleted c = true ->
   let r := SoftDeleteCampaign campaignID userID reason w in
   fst r = Some ErrCampaignNotFound /\ fst r <> None /\ db (snd r) = db w)
  /\
  (campaign_by_id campaignID (campaigns (db w)) = Some c ->
   UserId c = userID ->
   IsDeleted c = false ->
   succeeds env KSave ->
   succeeds env KCreate ->
   succeeds env KCommit ->
   let r1 := SoftDeleteCampaign campaignID userID reason w in
   let r2 := SoftDeleteCampaign campaignID userID reason' (snd r1) in
   fst r1 = None /\ fst r2 = Some ErrCampaignNotFound /\
   db (snd r2) = db (snd r1) /\
   exists a : AuditLog,
     audit_log (db (snd r2)) = audit_log (db w) ++ [a] /\
     Action a = AuditCampaignSoftDeleted /\ EntityID a = campaignID)
  /\
  (campaign_by_id campaignID (campaigns (db w)) = None ->
   let r := PurgeSystemCampaign campaignID w in
   fst r = None /\ db (snd r) = db w)
  /\
  (campaign_by_id campaignID (campaigns (db w)) = Some c ->
   IsDeleted c = false ->
   let r := PurgeSystemCampaign campaignID w in
   fst r = None /\ db (snd r) = db w).
Proof.
  intros Hb Hf. split; [| split; [| split]].
  - intros Hrow Hown Hdel r. subst r.
    rewrite (SoftDeleteCampaign_trashed w campaignID userID reason c Hb Hf Hrow Hdel).
    cbn [fst snd db]. split; [reflexivity |]. split; [discriminate | reflexivity].
  - intros Hrow Hown Hact Hs Hcr Hc r1 r2.
    destruct (SoftDeleteCampaign_active w campaignID userID reason c
                                        Hb Hf Hs Hc Hrow Hown Hact)
      as (Hr1 & _ & _ & audited & Hdb & Hyes & _).
    fold r1 in Hr1, Hdb. rewrite (Hyes Hcr) in Hdb.
    set (c' := soft_deleted (stopping c) (clock env (ticks w)) userID reason c) in *.
    assert (Hrow' : campaign_by_id campaignID (campaigns (db (snd r1))) = Some c').
    { rewrite Hdb. cbn [campaigns set_campaigns set_audit_log].
      apply campaign_by_id_save. subst c'. cbn [Id soft_deleted].
      eapply campaign_by_id_Id; eauto. }
    assert (Hr2 : r2 = SoftDeleteCampaign campaignID userID reason' (snd r1)) by reflexivity.
    rewrite (SoftDeleteCampaign_trashed (snd r1) campaignID userID reason' c'
                                        Hb Hf Hrow' eq_refl) in Hr2.
    rewrite Hr2. cbn [fst snd db].
    split; [exact Hr1 |]. split; [reflexivity |]. split; [reflexivity |].
    exists (with_ID (soft_delete_audit campaignID userID reason c')
                    (next_audit_id (audit_log (db w)))).
    rewrite Hdb. cbn [audit_log set_audit_log]. unfold soft_delete_audit.
    rewrite create_audit_new.
    split; [reflexivity |].
    cbn [with_ID Action EntityID].
    match goal with
    | |- context [SetMetadata ?a ?d] =>
        destruct (SetMetadata_fields a d) as (_ & _ & _ & Ha & _ & He)
    end.
    cbn zeta in Ha, He. rewrite Ha, He. split; reflexivity.
  - intros Hrow r. subst r.
    rewrite (PurgeSystemCampaign_not_found w campaignID Hb Hf (or_introl Hrow)).
    split; reflexivity.
  - intros Hrow Hact r. subst r.
    rewrite (PurgeSystemCampaign_restored w campaignID c Hb Hf Hrow Hact).
    split; reflexivity.
Qed.

(** ** Restore *)

(** The campaign's own rows do not count as conflicts of its name. *)
Lemma count_name_conflicts_save (uid id : Z) (name : string) (c' : Campaign)
      (rows : list Campaign) :
  Id c' = id ->
  count_name_conflicts uid name id (save_campaign c' rows) =
  count_name_conflicts uid name id rows.
Proof.
  intros Hid. unfold count_name_conflicts, save_campaign. f_equal. f_equal.
  assert (Hc' : name_conflict_row uid name id c' = false).
  { unfold name_conflict_row. rewrite Hid, Z.eqb_refl. cbn. now rewrite andb_false_r. }
  destruct (existsb (fun r => Id r =? Id c') rows).
  - induction rows as [| r rows IH]; [reflexivity |].
    cbn [map filter]. rewrite Hid.
    destruct (Id r =? id) eqn:Hr.
    + rewrite Hc'.
      assert (Hrr : name_conflict_row uid name id r = false).
      { unfold name_conflict_row. rewrite Hr. cbn. now rewrite andb_false_r. }
      rewrite Hrr. rewrite Hid in IH. exact IH.
    + rewrite Hid in IH. rewrite IH. reflexivity.
  - rewrite filter_app. cbn [filter]. rewrite Hc'. now rewrite app_nil_r.
Qed.

Lemma cur_sent (s : Stmt) (w : World) : cur (sent s w) = cur w.
Proof.
  reflexivity.
Qed.

Lemma cur_ticked (w : World) : cur (ticked w) = cur w.
Proof.
  reflexivity.
Qed.

Lemma cur_wrote (l : LogLine) (w : World) : cur (wrote l w) = cur w.
Proof.
  reflexivity.
Qed.

(** The renaming loop, entered for its [m]-th round with the candidate
    numbered [m - 1]: it leaves with the first candidate that is free, or with
    the ninth numbered one. *)
Lemma rename_retries_run (campaignID userID : Z) (original : string) (t0 : nat)
      (rows : list Campaign) :
  succeeds env KCount ->
  forall (fuel m : nat) (w : World),
    campaigns (cur w) = rows ->
    (m + fuel = 10)%nat ->
    (1 <= m)%nat ->
    ticks w = (t0 + m)%nat ->
    exists (k : nat) (w' : World) (sent_here : list Stmt),
      rename_retries fuel (Z.of_nat m) campaignID userID original
                     (candidate_name original t0 (m - 1)) w
      = (inr (candidate_name original t0 k), w') /\
      (m - 1 <= k <= 9)%nat /\
      (forall j, (m - 1 <= j < k)%nat ->
                 conflicts userID campaignID rows (candidate_name original t0 j) = true) /\
      ((k < 9)%nat ->
       conflicts userID campaignID rows (candidate_name original t0 k) = false) /\
      db w' = db w /\ tx w' = tx w /\ logged w' = logged w /\
      ticks w' = (t0 + k + 1)%nat /\
      issued w' = issued w ++ sent_here /\
      Forall (fun s => kind_of s = KCount) sent_here /\
      (List.length sent_here <= fuel)%nat.
Proof.
  intros Hcount fuel.
  induction fuel as [| fuel IH]; intros m w Hrows Hm H1 Hticks.
  - exists (m - 1)%nat, w, []. cbn [rename_retries]. unfold ret.
    rewrite app_nil_r. repeat split; try lia; auto.
  - cbn [rename_retries].
    destruct (Z.ltb_spec (Z.of_nat m) 10) as [_ | Hge]; [| lia].
    unfold checkNameConflict. run. rewrite cur_sent, Hrows.
    fold (conflicts userID campaignID rows (candidate_name original t0 (m - 1))).
    destruct (conflicts userID campaignID rows (candidate_name original t0 (m - 1)))
             eqn:Hconf; run.
    + (* the candidate is taken: rename and go round again *)
      set (w1 := ticked (sent _ w)).
      assert (Hname : (original ++ " (Restored "
                                ++ time_Format (clock env (ticks w)) "2006-01-02"
                                ++ "-" ++ itoa (Z.of_nat m) ++ ")")%string
                      = candidate_name original t0 (S m - 1)).
      { replace (S m - 1)%nat with m by lia.
        destruct m as [| m']; [lia |]. cbn [candidate_name]. now rewrite Hticks. }
      rewrite Hname.
      replace (Z.of_nat m + 1) with (Z.of_nat (S m)) by lia.
      destruct (IH (S m) w1) as (k & w' & l & Hrun & Hk & Hall & Hfree & Hdb & Htx & Hlog
                                   & Htk & Hiss & Hkinds & Hlen).
      * subst w1. now rewrite cur_ticked, cur_sent.
      * lia.
      * lia.
      * subst w1. cbn [ticked ticks sent]. lia.
      * exists k, w'.
        exists (SqlCountNameConflicts userID (candidate_name original t0 (m - 1)) campaignID
                                      :: l).
        rewrite Hrun. repeat split; try lia; auto.
        -- intros j Hj. destruct (Nat.eq_dec j (m - 1)) as [-> | Hne]; [exact Hconf |].
           apply Hall. lia.
        -- rewrite Hiss. subst w1. cbn [ticked issued sent].
           now rewrite <- app_assoc.
        -- cbn [List.length]. lia.
    + (* the candidate is free *)
      exists (m - 1)%nat.
      eexists. exists [SqlCountNameConflicts userID (candidate_name original t0 (m - 1))
                                             campaignID].
      split; [reflexivity |].
      cbn [sent db tx logged ticks issued List.length].
      repeat split; try lia; auto.
Qed.

(** Restore of a trashed campaign by its owner whose name is free. *)
Lemma RestoreCampaign_name_free (w : World) (campaignID userID : Z) (c : Campaign) :
  succeeds env KBegin ->
  succeeds env KFirst ->
  succeeds env KCount ->
  succeeds env KSave ->
  succeeds env KCommit ->
  campaign_by_id campaignID (campaigns (db w)) = Some c ->
  UserId c = userID ->
  IsDeleted c = true ->
  conflicts userID campaignID (campaigns (db w)) (Name c) = false ->
  let c' := restored (Name c) (clock env (ticks w)) userID c in
  let r := RestoreCampaign campaignID userID w in
  fst r = (Some (mkRestoreResult true (Some c') false EmptyString EmptyString []), None) /\
  exists audit_log' : list AuditLog,
    db (snd r) =
    set_audit_log audit_log' (set_campaigns (save_campaign c' (campaigns (db w))) (db w)).
Proof.
  intros Hb Hf Hcnt Hs Hc Hrow Hown Hdel Hfree c' r. subst r c'.
  unfold RestoreCampaign, checkNameConflict. run.
  look_up Hrow. run. rewrite Hown, Z.eqb_refl. reduce_world. rewrite Hdel. run.
  unfold conflicts in Hfree. rewrite Hfree. run.
  split_on_fault; run; same_world; (split; [reflexivity |]); eexists; reflexivity.
Qed.

(** Restore of a trashed campaign by its owner whose name is taken. *)
Lemma RestoreCampaign_name_taken (w : World) (campaignID userID : Z) (c : Campaign) :
  succeeds env KBegin ->
  succeeds env KFirst ->
  succeeds env KCount ->
  succeeds env KSave ->
  succeeds env KCommit ->
  campaign_by_id campaignID (campaigns (db w)) = Some c ->
  UserId c = userID ->
  IsDeleted c = true ->
  conflicts userID campaignID (campaigns (db w)) (Name c) = true ->
  let rows := campaigns (db w) in
  let candidate := candidate_name (Name c) (ticks w) in
  let r := RestoreCampaign campaignID userID w in
  exists k : nat,
    (k <= 9)%nat /\
    (forall j, (j < k)%nat -> conflicts userID campaignID rows (candidate j) = true) /\
    ((k < 9)%nat -> conflicts userID campaignID rows (candidate k) = false) /\
    let c' := restored (candidate k) (clock env (ticks w + k + 1)) userID c in
    fst r = (Some (mkRestoreResult true (Some c') true (Name c) (candidate k)
                                   [rename_warning (Name c) (candidate k)]),
             None) /\
    (List.length (filter is_count (issued (snd r)))
     <= List.length (filter is_count (issued w)) + 10)%nat /\
    exists audit_log' : list AuditLog,
      db (snd r) =
      set_audit_log audit_log' (set_campaigns (save_campaign c' (campaigns (db w))) (db w)).
Proof.
  intros Hb Hf Hcnt Hs Hc Hrow Hown Hdel Htaken rows candidate r. subst r.
  unfold RestoreCampaign, checkNameConflict. run.
  look_up Hrow. run. rewrite Hown, Z.eqb_refl. reduce_world. rewrite Hdel. run.
  unfold conflicts in Htaken. rewrite Htaken. run.
  match goal with
  | |- context [rename_retries 9 1 campaignID userID (Name c) ?n ?w1] =>
      destruct (rename_retries_run campaignID userID (Name c) (ticks w) rows Hcnt 9 1 w1)
        as (k & w' & l & Hrun & Hk & Hall & Hfree & Hdb & Htx & Hlog & Htk & Hiss & Hkinds & Hlen);
      [ reflexivity | lia | lia | cbn [ticks ticked sent set_tx]; lia | ];
      change n with (candidate_name (Name c) (ticks w) (1 - 1)) 
  end.
  change (Z.of_nat 1) with 1 in Hrun. rewrite Hrun.
  destruct w' as [d t iss lg tk].
  cbn [db tx logged ticks issued ticked sent set_tx] in Hdb, Htx, Hlog, Htk, Hiss.
  subst d t lg tk iss.
  run.
  exists k. split; [lia |]. split; [intros j Hj; apply Hall; lia |].
  split; [exact Hfree |].
  assert (Hcounts : forall pre post : list Stmt,
             filter is_count post = [] ->
             (List.length (filter is_count ((((issued w ++ pre) ++ l) ++ post)))
              <= List.length (filter is_count (issued w))
                 + List.length (filter is_count pre) + 9)%nat).
  { intros pre post Hpost. rewrite !filter_app, !length_app, Hpost. cbn [List.length].
    pose proof (filter_length_le is_count l). lia. }
  split_on_fault; run; same_world.
  all: split; [reflexivity |].
  all: split; [| eexists; reflexivity].
  all: match goal with
       | |- (List.length (filter is_count (_ ++ ?a :: ?b :: ?c :: _ ++ ?post))
             <= _)%nat =>
           specialize (Hcounts [a; b; c] post eq_refl);
           rewrite <- !app_assoc in Hcounts; cbn [app] in Hcounts;
           cbn [filter is_count kind_of List.length] in Hcounts;
           cbn [filter is_count kind_of List.length]; lia
       end.
Qed.

(** A name conflicts when an active campaign of the same user, other than the
    restored one, has the same name up to the case of its letters. *)
Lemma conflicts_iff (uid id : Z) (rows : list Campaign) (name : string) :
  conflicts uid id rows name = true <->
  exists r : Campaign,
    In r rows /\ UserId r = uid /\ LOWER (Name r) = LOWER name /\
    DeletedAt r = None /\ Id r <> id.
Proof.
  unfold conflicts, count_name_conflicts. rewrite Z.ltb_lt.
  split.
  - intros Hpos.
    destruct (filter (name_conflict_row uid name id) rows) as [| r l] eqn:Hf;
      [cbn in Hpos; lia |].
    assert (Hin : In r (filter (name_conflict_row uid name id) rows))
      by (rewrite Hf; now left).
    apply filter_In in Hin as [Hin Hr].
    unfold name_conflict_row in Hr.
    apply andb_true_iff in Hr as [Hr Hne]. apply andb_true_iff in Hr as [Hr Hact].
    apply andb_true_iff in Hr as [Hu Hn].
    exists r. repeat split; auto.
    + now apply Z.eqb_eq.
    + now apply String.eqb_eq.
    + unfold IsDeleted in Hact. now destruct (DeletedAt r).
    + apply negb_true_iff, Z.eqb_neq in Hne. exact Hne.
  - intros (r & Hin & Hu & Hn & Hact & Hne).
    assert (Hr : In r (filter (name_conflict_row uid name id) rows)).
    { apply filter_In. split; [exact Hin |]. unfold name_conflict_row, IsDeleted.
      rewrite Hact. apply Z.eqb_eq in Hu. apply String.eqb_eq in Hn.
      apply Z.eqb_neq in Hne. now rewrite Hu, Hn, Hne. }
    destruct (filter (name_conflict_row uid name id) rows); [contradiction |].
    cbn [List.length]. lia.
Qed.

(** C7: on restore, when the name of the trashed campaign collides (letter
    case apart) with an active campaign of the same owner, the campaign is
    renamed: first to the name with the restoration time stamp appended, then,
    as long as the new name collides as well, to the name with the day and a
    number from 1 to 9 appended; the name it gets is the first of these ten
    that is free, or the one numbered 9; the outcome reports the rename
    (NameChanged, OldName, NewName and one warning).  When nothing collides the
    name stays and the outcome has no warning. *)
Theorem restore_resolves_name_conflicts
        (w : World) (campaignID userID : Z) (c : Campaign) :
  succeeds env KBegin ->
  succeeds env KFirst ->
  succeeds env KCount ->
  succeeds env KSave ->
  succeeds env KCommit ->
  campaign_by_id campaignID (campaigns (db w)) = Some c ->
  UserId c = userID ->
  IsDeleted c = true ->
  let rows := campaigns (db w) in
  let taken := conflicts userID campaignID rows in
  let candidate := candidate_name (Name c) (ticks w) in
  let r := RestoreCampaign campaignID userID w in
  (forall name,
      taken name = true <->
      exists other : Campaign,
        In other rows /\ UserId other = userID /\ LOWER (Name other) = LOWER name /\
        DeletedAt other = None /\ Id other <> campaignID)
  /\
  (taken (Name c) = true ->
   exists (k : nat) (res : RestoreResult) (c' : Campaign),
     (k <= 9)%nat /\
     (forall j, (j < k)%nat -> taken (candidate j) = true) /\
     ((k < 9)%nat -> taken (candidate k) = false) /\
     fst r = (Some res, None) /\
     RestoredCampaign res = Some c' /\
     campaign_by_id campaignID (campaigns (db (snd r))) = Some c' /\
     Name c' = candidate k /\
     NameChanged res = true /\ OldName res = Name c /\ NewName res = candidate k /\
     Warnings res = [rename_warning (Name c) (candidate k)] /\
     (List.length (filter is_count (issued (snd r)))
      <= List.length (filter is_count (issued w)) + 10)%nat)
  /\
  (taken (Name c) = false ->
   exists (res : RestoreResult) (c' : Campaign),
     fst r = (Some res, None) /\
     RestoredCampaign res = Some c' /\
     campaign_by_id campaignID (campaigns (db (snd r))) = Some c' /\
     Name c' = Name c /\
     NameChanged res = false /\ Warnings res = []).
Proof.
  intros Hb Hf Hcnt Hs Hc Hrow Hown Hdel rows taken candidate r.
  pose proof (campaign_by_id_Id _ _ _ Hrow) as Hid.
  split; [| split].
  - intros name. apply conflicts_iff.
  - intros Htaken.
    destruct (RestoreCampaign_name_taken w campaignID userID c
                                         Hb Hf Hcnt Hs Hc Hrow Hown Hdel Htaken)
      as (k & Hk & Hall & Hfree & Hr & Hcount & audit_log' & Hdb).
    fold r in Hr, Hcount, Hdb.
    exists k. eexists. eexists.
    split; [exact Hk |]. split; [exact Hall |]. split; [exact Hfree |].
    split; [exact Hr |]. cbn [RestoredCampaign NameChanged OldName NewName Warnings].
    repeat split; auto.
    rewrite Hdb. cbn [campaigns set_campaigns set_audit_log].
    apply campaign_by_id_save. exact Hid.
  - intros Hfree.
    destruct (RestoreCampaign_name_free w campaignID userID c
                                        Hb Hf Hcnt Hs Hc Hrow Hown Hdel Hfree)
      as (Hr & audit_log' & Hdb).
    fold r in Hr, Hdb.
    eexists. eexists.
    split; [exact Hr |]. cbn [RestoredCampaign NameChanged Warnings].
    repeat split; auto.
    rewrite Hdb. cbn [campaigns set_campaigns set_audit_log].
    apply campaign_by_id_save. exact Hid.
Qed.

(** C5: a soft delete of an active campaign followed by its restore, with no
    name conflict, gives the campaign back up to the bookkeeping: status
    Created, deleted_at and deleted_by cleared, restored_at and restored_by
    set, version two more than before the soft delete, and the same id, owner,
    name and type. *)
Theorem soft_delete_then_restore_round_trip
        (w : World) (campaignID userID : Z) (reason : string) (c : Campaign) :
  succeeds env KBegin ->
  succeeds env KFirst ->
  succeeds env KCount ->
  succeeds env KSave ->
  succeeds env KCommit ->
  campaign_by_id campaignID (campaigns (db w)) = Some c ->
  UserId c = userID ->
  IsDeleted c = false ->
  conflicts userID campaignID (campaigns (db w)) (Name c) = false ->
  let r1 := SoftDeleteCampaign campaignID userID reason w in
  let r2 := RestoreCampaign campaignID userID (snd r1) in
  fst r1 = None /\
  exists (res : RestoreResult) (c2 : Campaign),
    fst r2 = (Some res, None) /\
    Success res = true /\
    RestoredCampaign res = Some c2 /\
    campaign_by_id campaignID (campaigns (db (snd r2))) = Some c2 /\
    Status c2 = CampaignCreated /\
    DeletedAt c2 = None /\ DeletedBy c2 = None /\
    RestoredAt c2 = Some (clock env (S (ticks w))) /\ RestoredBy c2 = Some userID /\
    Version c2 = Version c + 2 /\
    Id c2 = Id c /\ UserId c2 = UserId c /\ Name c2 = Name c /\
    CampaignType c2 = CampaignType c.
Proof.
  intros Hb Hf Hcnt Hs Hc Hrow Hown Hact Hfree r1 r2.
  pose proof (campaign_by_id_Id _ _ _ Hrow) as Hid.
  destruct (SoftDeleteCampaign_active w campaignID userID reason c
                                      Hb Hf Hs Hc Hrow Hown Hact)
    as (Hr1 & _ & Hticks & audited & Hdb & _).
  fold r1 in Hr1, Hticks, Hdb.
  set (c1 := soft_deleted (stopping c) (clock env (ticks w)) userID reason c) in *.
  assert (Hrows1 : campaigns (db (snd r1)) = save_campaign c1 (campaigns (db w)))
    by (rewrite Hdb; reflexivity).
  assert (Hrow1 : campaign_by_id campaignID (campaigns (db (snd r1))) = Some c1)
    by (rewrite Hrows1; apply campaign_by_id_save; exact Hid).
  assert (Hfree1 : conflicts userID campaignID (campaigns (db (snd r1))) (Name c1) = false).
  { rewrite Hrows1. unfold conflicts.
    rewrite (count_name_conflicts_save userID campaignID (Name c1) c1 _ Hid).
    exact Hfree. }
  destruct (RestoreCampaign_name_free (snd r1) campaignID userID c1
                                      Hb Hf Hcnt Hs Hc Hrow1 Hown eq_refl Hfree1)
    as (Hr2 & audit_log' & Hdb2).
  fold r2 in Hr2, Hdb2. rewrite Hticks in Hr2, Hdb2.
  split; [exact Hr1 |].
  eexists. eexists. split; [exact Hr2 |].
  cbn [Success RestoredCampaign].
  split; [reflexivity |]. split; [reflexivity |].
  split.
  { rewrite Hdb2. cbn [campaigns set_campaigns set_audit_log].
    apply campaign_by_id_save. exact Hid. }
  cbn [restored soft_deleted c1 Status DeletedAt DeletedBy RestoredAt RestoredBy Version
       Id UserId Name CampaignType].
  repeat split. lia.
Qed.

(** ** The candidates of a cycle *)

Lemma deleted_at_leb_total (a b : Campaign) :
  deleted_at_leb a b = false -> deleted_at_leb b a = true.
Proof.
  unfold deleted_at_leb.
  destruct (DeletedAt a), (DeletedAt b); try reflexivity; try discriminate.
  rewrite Z.leb_gt, Z.leb_le. lia.
Qed.

Lemma deleted_at_leb_trans (a b c : Campaign) :
  deleted_at_leb a b = true -> deleted_at_leb b c = true -> deleted_at_leb a c = true.
Proof.
  unfold deleted_at_leb.
  destruct (DeletedAt a), (DeletedAt b), (DeletedAt c); try reflexivity; try discriminate.
  rewrite !Z.leb_le. lia.
Qed.

Lemma insert_by_deleted_at_perm (r : Campaign) (l : list Campaign) :
  Permutation (insert_by_deleted_at r l) (r :: l).
Proof.
  induction l as [| x l IH]; cbn [insert_by_deleted_at].
  - apply Permutation_refl.
  - destruct (deleted_at_leb r x).
    + apply Permutation_refl.
    + eapply perm_trans; [apply perm_skip, IH | apply perm_swap].
Qed.

Lemma order_by_deleted_at_perm (l : list Campaign) :
  Permutation (order_by_deleted_at l) l.
Proof.
  induction l as [| x l IH]; cbn [order_by_deleted_at fold_right].
  - apply perm_nil.
  - eapply perm_trans; [apply insert_by_deleted_at_perm |].
    now apply perm_skip.
Qed.




(** ** The cutoff *)

Lemma wrap64_small (z : Z) : - 2 ^ 63 <= z < 2 ^ 63 -> wrap64 z = z.
Proof.
  intros Hz. unfold wrap64.
  rewrite Z.mod_small by lia. lia.
Qed.

Lemma cutoff_of_days (j : TrashTTLJob) (now : Time) :
  0 <= retentionDays j <= max_retention_days ->
  cutoff_of j now = now - retentionDays j * (24 * time_Hour).
Proof.
  unfold max_retention_days, cutoff_of, mul64, neg64, time_Hour. intros Hd.
  rewrite (wrap64_small (- retentionDays j)) by lia.
  rewrite (wrap64_small (- retentionDays j * 24)) by lia.
  rewrite wrap64_small by lia. lia.
Qed.

(** ** The cycle *)


Lemma successes_cons (o : Z * option error) (l : list (Z * option error)) :
  successes (o :: l) = (if failed o then 0 else 1) + successes l.
Proof.
  unfold successes. cbn [filter]. destruct (failed o); cbn [negb List.length]; lia.
Qed.

Lemma failures_cons (o : Z * option error) (l : list (Z * option error)) :
  failures (o :: l) = (if failed o then 1 else 0) + failures l.
Proof.
  unfold failures. cbn [filter]. destruct (failed o); cbn [List.length]; lia.
Qed.

(** The loop of [RunOnce], when the context is never done: it calls system
    purge on every id, in order, whatever the calls return, and counts. *)
Lemma purge_each_runs (ctx : Context) (total : Z) :
  (forall i, Done ctx i = false) ->
  forall (ids : list Z) (i : nat) (successCount errorCount : Z) (w : World),
    let sp := system_purge_each total i ids w in
    purge_each ctx total i ids successCount errorCount w =
    (inr (successCount + successes (fst sp), errorCount + failures (fst sp)), snd sp).
Proof.
  intros Hlive ids.
  induction ids as [| id ids IH]; intros i s e w sp; subst sp;
    cbn [purge_each system_purge_each].
  - unfold ret, successes, failures. cbn. now rewrite !Z.add_0_r.
  - rewrite Hlive. run.
    destruct (PurgeSystemCampaign id _) as [[err |] w2]; run; rewrite IH.
    all: match goal with
         | |- context [system_purge_each ?t ?k ?l ?w3] =>
             destruct (system_purge_each t k l w3) as [outs w4]
         end.
    all: cbn [fst snd]; rewrite successes_cons, failures_cons; cbn [failed snd].
    all: f_equal; f_equal; f_equal; lia.
Qed.




Lemma NewTrashTTLJob_positive (cfg : TrashTTLConfig) :
  0 < retentionDays (NewTrashTTLJob cfg) /\ 0 < batchSize (NewTrashTTLJob cfg) /\
  0 < interval (NewTrashTTLJob cfg) /\
  (RetentionDays cfg <= max_retention_days ->
   retentionDays (NewTrashTTLJob cfg) <= max_retention_days).
Proof.
  unfold NewTrashTTLJob, max_retention_days, time_Hour.
  cbn [retentionDays batchSize interval].
  destruct (Z.leb_spec (RetentionDays cfg) 0), (Z.leb_spec (BatchSize cfg) 0),
    (Z.leb_spec (Interval cfg) 0); repeat split; lia.
Qed.

Lemma cur_closed (w : World) : tx w = None -> cur w = db w.
Proof.
  unfold cur. now intros ->.
Qed.


(** A cycle up to its loop. *)
Lemma RunOnce_loop (w : World) (j : TrashTTLJob) (ctx : Context) :
  db_is_nil env = false ->
  succeeds env KPluck ->
  tx w = None ->
  let cutoff := cutoff_of j (clock env (S (ticks w))) in
  let ids := map Id (purge_candidate_rows cutoff (batchSize j) (campaigns (db w))) in
  let total := Z.of_nat (List.length ids) in
  let w1 := wrote (mkLogLine Info "Trash TTL: Found %d campaign(s) to purge" [AInt total])
                  (listed cutoff (batchSize j) w) in
  (ids = [] ->
   RunOnce j ctx w =
   (None,
    wrote (mkLogLine Debug "Trash TTL: No campaigns to purge" [])
          (listed cutoff (batchSize j) w))) /\
  (ids <> [] ->
   RunOnce j ctx w =
   match purge_each ctx total 0 ids 0 0 w1 with
   | (inl r, w') => (r, w')
   | (inr counts, w') =>
       (if (0 <? snd counts) && (fst counts =? 0)
        then Some (fmt_Errorf_d "all %d purge operations failed" (snd counts))
        else None,
        wrote (mkLogLine Info
                 "Trash TTL: Batch complete - %d succeeded, %d errors, %d skipped in %v"
                 [AInt (fst counts); AInt (snd counts); AInt 0;
                  ADuration (clock env (ticks w') - clock env (ticks w))])
              (ticked w'))
   end).
Proof.
  intros Hdb Hpluck Htx cutoff ids total w1.
  unfold RunOnce. run. fold cutoff.
  unfold ListPurgeCandidates. rewrite Hdb. run.
  rewrite cur_sent, cur_wrote, !cur_ticked, (cur_closed w Htx).
  fold ids. fold total. fold (listed cutoff (batchSize j) w).
  split; intros Hids.
  - subst total. rewrite Hids. reflexivity.
  - destruct (Z.eqb_spec total 0) as [H0 | _].
    { subst total. destruct ids; [contradiction | cbn [List.length] in H0; lia]. }
    run. fold w1.
    destruct (purge_each ctx total 0 ids 0 0 w1) as [[r | counts] w']; run.
    + reflexivity.
    + destruct ((0 <? snd counts) && (fst counts =? 0)); reflexivity.
Qed.


(** ** Stopping the job *)

(** [Stop] on a job whose loop is running: the channel is closed, and the loop
    leaves at its next [select]. *)
Lemma stop_once_while_running (retention every batch : Z) (runCtx : Context) (w : World) :
  exists s : Scheduler,
    play [CallStart; InitialRun runCtx; CallStop; StopSignalSeen]
         (mkScheduler (NewTrashTTLJob (mkTrashTTLConfig retention every batch true))
                      NotLaunched false w)
    = Goes s /\
    goroutine s = Exited /\ stopChan (job s) = ChanClosed.
Proof.
  cbn [play move NewTrashTTLJob Enabled enabled job goroutine negb with_world with_goroutine
       world ctx_cancelled].
  unfold run_logged. cbn [job world].
  destruct (RunOnce _ runCtx _) as [[e |] w'];
    cbn; eexists; repeat split.
Qed.

(** C9 fails on the code: a job is started, its start context is cancelled,
    the loop sees the cancellation, closes the stop channel itself and
    returns; the call of [Stop] that follows closes the channel a second
    time, which panics. *)
Theorem stop_after_cancelled_context_panics
        (retention every batch : Z) (runCtx : Context) (w : World) :
  play [CallStart; InitialRun runCtx; CancelContext; ContextDoneSeen; CallStop]
       (mkScheduler (NewTrashTTLJob (mkTrashTTLConfig retention every batch true))
                    NotLaunched false w)
  = Panics "close of closed channel".
Proof.
  cbn [play move NewTrashTTLJob Enabled enabled job goroutine negb with_world with_goroutine
       world ctx_cancelled].
  unfold run_logged. cbn [job world].
  destruct (RunOnce _ runCtx _) as [[e |] w']; reflexivity.
Qed.

(** ** A cycle with nothing to do *)

(** X5: a cycle that cannot list its candidates purges nothing and returns the
    listing's error wrapped, whatever its context: without a database handle
    it sends no statement at all and the error is "database not initialized";
    when the storage fails the listing, the listing is the only statement
    sent and the failure is logged. *)
Theorem RunOnce_cannot_list (j : TrashTTLJob) (ctx : Context) (w : World) :
  (db_is_nil env = true ->
   fst (RunOnce j ctx w)
   = Some (fmt_Errorf_w "failed to list purge candidates: %w"
                        (errors_New "database not initialized")) /\
   issued (snd (RunOnce j ctx w)) = issued w /\
   db (snd (RunOnce j ctx w)) = db w) /\
  (forall e,
      db_is_nil env = false ->
      fails_with env KPluck e ->
      fst (RunOnce j ctx w) = Some (fmt_Errorf_w "failed to list purge candidates: %w" e) /\
      issued (snd (RunOnce j ctx w))
      = issued w ++ [SqlPluckPurgeCandidates (cutoff_of j (clock env (S (ticks w))))
                                             (batchSize j)] /\
      db (snd (RunOnce j ctx w)) = db w /\
      In (mkLogLine Error "Error listing purge candidates: %v" [AErr e])
         (logged (snd (RunOnce j ctx w)))).
Proof.
  split.
  - intros Hnil. unfold RunOnce, ListPurgeCandidates. run. rewrite Hnil. run.
    repeat split.
  - intros e Hnil Hfail. unfold RunOnce, ListPurgeCandidates. run. rewrite Hnil. run.
    same_world. repeat split.
    apply in_or_app. right. cbn [In]. auto.
Qed.

Lemma purge_candidate_rows_none (cutoff : Time) (limit : Z) (rows : list Campaign) :
  (forall r, In r rows -> purge_candidate cutoff r = false) ->
  purge_candidate_rows cutoff limit rows = [].
Proof.
  intros H. unfold purge_candidate_rows.
  replace (filter (purge_candidate cutoff) rows) with (@nil Campaign).
  - unfold Limit. cbn. destruct (0 <=? limit); [now rewrite firstn_nil | reflexivity].
  - symmetry. induction rows as [| r rows IH]; [reflexivity |].
    cbn. rewrite (H r (or_introl eq_refl)). apply IH. intros r' Hr'. apply H. now right.
Qed.

(** X6: a cycle that finds no campaign older than its cutoff returns no error
    and leaves the store as it was, having sent the listing and nothing
    else.  The context is not looked at: the cycle returns no error even when
    its context is already cancelled. *)
Theorem RunOnce_nothing_due (j : TrashTTLJob) (ctx : Context) (w : World) :
  db_is_nil env = false ->
  succeeds env KPluck ->
  tx w = None ->
  (forall r, In r (campaigns (db w)) ->
             purge_candidate (cutoff_of j (clock env (S (ticks w)))) r = false) ->
  fst (RunOnce j ctx w) = None /\
  db (snd (RunOnce j ctx w)) = db w /\
  issued (snd (RunOnce j ctx w))
  = issued w ++ [SqlPluckPurgeCandidates (cutoff_of j (clock env (S (ticks w)))) (batchSize j)] /\
  In (mkLogLine Debug "Trash TTL: No campaigns to purge" []) (logged (snd (RunOnce j ctx w))).
Proof.
  intros Hnil Hpluck Htx Hnone.
  destruct (RunOnce_loop w j ctx Hnil Hpluck Htx) as [Hempty _].
  cbv zeta in Hempty. rewrite Hempty.
  - unfold listed. same_world. repeat split.
    apply in_or_app. right. cbn [In]. auto.
  - now rewrite (purge_candidate_rows_none _ _ _ Hnone).
Qed.

(** ** The retention a job is built with *)

Lemma In_firstn {A : Type} (n : nat) (l : list A) (x : A) :
  In x (firstn n l) -> In x l.
Proof.
  intros H. rewrite <- (firstn_skipn n l). apply in_or_app. now left.
Qed.

Lemma In_skipn {A : Type} (n : nat) (l : list A) (x : A) :
  In x (skipn n l) -> In x l.
Proof.
  intros H. rewrite <- (firstn_skipn n l). apply in_or_app. now right.
Qed.

Lemma purge_candidate_rows_In (cutoff : Time) (limit : Z) (rows : list Campaign)
      (c : Campaign) :
  In c (purge_candidate_rows cutoff limit rows) ->
  In c rows /\ purge_candidate cutoff c = true.
Proof.
  unfold purge_candidate_rows, Limit. intros H.
  assert (H' : In c (order_by_deleted_at (filter (purge_candidate cutoff) rows))).
  { destruct (0 <=? limit); [now apply In_firstn in H | exact H]. }
  apply (Permutation_in _ (order_by_deleted_at_perm _)) in H'.
  now apply filter_In in H'.
Qed.

(** X7: whatever the configuration, a job built by [NewTrashTTLJob] keeps a
    trashed campaign for a day at least: a retention of zero or less stands
    for 90 days, so the cutoff of a cycle is the clock reading minus the
    retention, never later than 24 hours before it, and no campaign trashed
    within these 24 hours is a candidate. *)
Theorem retention_is_a_day_at_least (cfg : TrashTTLConfig) (now : Time) :
  RetentionDays cfg <= max_retention_days ->
  let j := NewTrashTTLJob cfg in
  cutoff_of j now
  = now - (if RetentionDays cfg <=? 0 then 90 else RetentionDays cfg) * (24 * time_Hour) /\
  cutoff_of j now <= now - 24 * time_Hour /\
  forall (rows : list Campaign) (c : Campaign),
    In c (purge_candidate_rows (cutoff_of j now) (batchSize j) rows) ->
    exists t, DeletedAt c = Some t /\ t < now - 24 * time_Hour.
Proof.
  intros Hdays j.
  destruct (NewTrashTTLJob_positive cfg) as (Hpos & _ & _ & Hmax).
  specialize (Hmax Hdays). fold j in Hpos, Hmax.
  assert (Hcut : cutoff_of j now = now - retentionDays j * (24 * time_Hour))
    by (apply cutoff_of_days; lia).
  assert (Hret : retentionDays j = if RetentionDays cfg <=? 0 then 90 else RetentionDays cfg)
    by reflexivity.
  assert (Hday : cutoff_of j now <= now - 24 * time_Hour).
  { rewrite Hcut. unfold time_Hour. nia. }
  split; [now rewrite Hcut, Hret | split; [exact Hday |]].
  intros rows c Hc. apply purge_candidate_rows_In in Hc as [_ Hc].
  unfold purge_candidate in Hc. destruct (DeletedAt c) as [t |]; [| discriminate].
  exists t. split; [reflexivity |]. apply Z.ltb_lt in Hc. lia.
Qed.

(** ** The stop channel *)

Lemma closed_before_run_logged (failed : string) (runCtx : Context) (s : Scheduler) :
  closed_before (run_logged failed runCtx s) = closed_before s /\
  enabled (job (run_logged failed runCtx s)) = enabled (job s).
Proof.
  unfold run_logged. destruct (RunOnce (job s) runCtx (world s)) as [[e |] w']; split; reflexivity.
Qed.

(** One move: it is not enabled, or it goes on with the closings counted, or
    it is a second closing and panics. *)
Lemma move_closes (m : Move) (s : Scheduler) :
  match move m s with
  | Goes s' =>
      (closed_before s' = closed_before s + (if closes m then 1 else 0))%nat
  | Panics msg =>
      closed_before s = 1%nat /\ closes m = true /\ msg = "close of closed channel"%string
  | NotEnabled => True
  end.
Proof.
  destruct m; cbn [move closes].
  - destruct (goroutine s); try exact I.
    destruct (negb (enabled (job s)));
      unfold closed_before; cbn [job with_world with_goroutine]; lia.
  - unfold close_stopChan, closed_before. cbn [job with_world].
    destruct (stopChan (job s)); cbn; auto.
  - unfold closed_before; cbn [job]; lia.
  - destruct (goroutine s); try exact I.
    unfold with_goroutine. cbn [closed_before job].
    change (closed_before (run_logged "Initial trash TTL run failed: %v" runCtx s)
            = (closed_before s + 0)%nat).
    rewrite (proj1 (closed_before_run_logged _ _ _)). lia.
  - destruct (goroutine s); try exact I.
    rewrite (proj1 (closed_before_run_logged _ _ _)). lia.
  - destruct (goroutine s); try exact I.
    destruct (ctx_cancelled s); try exact I.
    unfold close_stopChan, closed_before. cbn [job with_world with_goroutine].
    destruct (stopChan (job s)); cbn; auto.
  - destruct (goroutine s); try exact I.
    destruct (stopChan (job s)) eqn:Hch; try exact I.
    unfold closed_before. cbn [job with_world with_goroutine]. rewrite Hch. reflexivity.
Qed.

Lemma play_closes (ms : list Move) :
  forall s : Scheduler,
    match play ms s with
    | Goes s' => (closed_before s' = closed_before s + closings ms)%nat
    | Panics msg =>
        (2 <= closed_before s + closings ms)%nat /\ msg = "close of closed channel"%string
    | NotEnabled => True
    end.
Proof.
  induction ms as [| m ms IH]; intros s.
  - cbn. unfold closings. cbn. lia.
  - cbn [play]. pose proof (move_closes m s) as Hm.
    assert (Hc : closings (m :: ms) = ((if closes m then 1 else 0) + closings ms)%nat).
    { unfold closings. cbn [filter]. destruct (closes m); reflexivity. }
    destruct (move m s) as [s1 | msg |].
    + specialize (IH s1). destruct (play ms s1) as [s' | msg |].
      * lia.
      * split; [lia | apply IH].
      * exact I.
    + destruct Hm as (H1 & H2 & ->). rewrite H2 in Hc. split; [lia | reflexivity].
    + exact I.
Qed.

(** X8: in every order of [Start], [Stop], cancellation of the context and
    turns of the loop, the stop channel is closed at most once without a
    panic.  A schedule that goes through has at most one closing ([Stop], or
    the loop's own on a cancelled context), and the channel is closed at its
    end exactly when it has one; a schedule that panics has reached a second
    closing, and the panic is that of closing a closed channel. *)
Theorem stop_channel_is_closed_once (cfg : TrashTTLConfig) (w : World) (ms : list Move) :
  match play ms (fresh_scheduler cfg w) with
  | Goes s =>
      (closings ms <= 1)%nat /\
      (stopChan (job s) = ChanClosed <-> closings ms = 1%nat)
  | Panics msg =>
      (2 <= closings ms)%nat /\ msg = "close of closed channel"%string
  | NotEnabled => True
  end.
Proof.
  pose proof (play_closes ms (fresh_scheduler cfg w)) as H.
  destruct (play ms (fresh_scheduler cfg w)) as [s | msg |]; [| exact H | exact I].
  change (closed_before (fresh_scheduler cfg w)) with 0%nat in H.
  unfold closed_before in H.
  destruct (stopChan (job s)); split; try lia; split; intros E; try lia; try reflexivity;
    discriminate.
Qed.

(** A job that is not enabled stays as it is, move after move. *)
Lemma disabled_move (m : Move) (s s' : Scheduler) :
  enabled (job s) = false ->
  goroutine s = NotLaunched ->
  move m s = Goes s' ->
  enabled (job s') = false /\ goroutine s' = NotLaunched /\
  db (world s') = db (world s) /\ issued (world s') = issued (world s) /\
  ticks (world s') = ticks (world s).
Proof.
  intros Hen Hg.
  destruct m; cbn [move]; rewrite ?Hg, ?Hen; cbn [negb]; try discriminate.
  - intros [= <-]. cbn. auto.
  - unfold close_stopChan. cbn [job with_world].
    destruct (close_chan (stopChan (job s))); [| discriminate].
    intros [= <-]. cbn. auto.
  - intros [= <-]. cbn. auto.
Qed.



(** ** The read side *)

Lemma insert_by_perm {A : Type} (leb : A -> A -> bool) (r : A) (l : list A) :
  Permutation (insert_by leb r l) (r :: l).
Proof.
  induction l as [| x l IH]; cbn [insert_by]; [reflexivity |].
  destruct (leb r x); [reflexivity |].
  rewrite IH. apply perm_swap.
Qed.

Lemma order_by_perm {A : Type} (leb : A -> A -> bool) (l : list A) :
  Permutation (order_by leb l) l.
Proof.
  induction l as [| x l IH]; cbn [order_by fold_right]; [reflexivity |].
  rewrite insert_by_perm. now constructor.
Qed.

Lemma order_by_sorted {A : Type} (leb : A -> A -> bool) (l : list A) :
  (forall a b, leb a b = false -> leb b a = true) ->
  (forall a b c, leb a b = true -> leb b c = true -> leb a c = true) ->
  StronglySorted (fun a b => leb a b = true) (order_by leb l).
Proof.
  intros Htotal Htrans.
  induction l as [| r l IH]; cbn [order_by fold_right]; [constructor |].
  fold (order_by leb l). revert IH. generalize (order_by leb l) as sorted.
  induction 1 as [| x sorted Hs IH Hx]; cbn [insert_by].
  - constructor; constructor.
  - destruct (leb r x) eqn:Hrx.
    + constructor; [now constructor |].
      constructor; [exact Hrx |].
      eapply Forall_impl; [| exact Hx]. intros y Hy. eapply Htrans; eauto.
    + constructor; [exact IH |].
      eapply Permutation_Forall; [apply Permutation_sym, insert_by_perm |].
      constructor; [now apply Htotal | exact Hx].
Qed.

Lemma order_by_In {A : Type} (leb : A -> A -> bool) (l : list A) (x : A) :
  In x (order_by leb l) <-> In x l.
Proof.
  split; apply Permutation_in; [| apply Permutation_sym]; apply order_by_perm.
Qed.

Lemma deleted_at_geb_sorted (l : list Campaign) :
  StronglySorted (fun a b => deleted_at_geb a b = true) (order_by deleted_at_geb l).
Proof.
  apply order_by_sorted; unfold deleted_at_geb.
  - intros a b. apply deleted_at_leb_total.
  - intros a b c Hab Hbc. eapply deleted_at_leb_trans; eauto.
Qed.

(** X10: when the storage answers, [GetTrashedCampaigns] returns the trash of
    the user and nothing else: the rows returned are, each once, the rows of
    the campaigns table that are deleted and belong to the user, the one
    deleted last first; and the call changes nothing in the store.  When the
    storage fails the query, the error comes back with no row, and is
    logged. *)
Theorem GetTrashedCampaigns_is_the_users_trash (userID : Z) (w : World) :
  (query_fault (List.length (issued w)) (SqlFindTrashedCampaigns userID) = None ->
   let r := GetTrashedCampaigns userID w in
   snd (fst r) = None /\ snd r = w /\
   Permutation (fst (fst r)) (filter (trashed_row userID) (campaigns (db w))) /\
   StronglySorted (fun a b => deleted_at_geb a b = true) (fst (fst r)) /\
   (forall c, In c (fst (fst r)) <->
              In c (campaigns (db w)) /\ IsDeleted c = true /\ UserId c = userID)) /\
  (forall e,
      query_fault (List.length (issued w)) (SqlFindTrashedCampaigns userID) = Some e ->
      let r := GetTrashedCampaigns userID w in
      fst r = ([], Some e) /\ db (snd r) = db w /\
      logged (snd r)
      = logged w ++ [mkLogLine Error "Error retrieving trashed campaigns: %v" [AErr e]]).
Proof.
  split.
  - intros Hq r. subst r. unfold GetTrashedCampaigns, ask. unfold_body. rewrite Hq.
    cbn [fst snd].
    split; [reflexivity | split; [reflexivity |]].
    split; [apply order_by_perm | split; [apply deleted_at_geb_sorted |]].
    intros c. rewrite order_by_In, filter_In. unfold trashed_row.
    rewrite andb_true_iff, Z.eqb_eq. reflexivity.
  - intros e Hq r. subst r. unfold GetTrashedCampaigns, ask. unfold_body. rewrite Hq.
    cbn [fst snd]. repeat split.
Qed.

Lemma firstn_plus {A : Type} (a b : nat) (l : list A) :
  firstn (a + b) l = firstn a l ++ firstn b (skipn a l).
Proof.
  revert l. induction a as [| a IH]; intros l; [reflexivity |].
  destruct l as [| x l]; cbn [Nat.add firstn skipn app].
  - now rewrite firstn_nil.
  - now rewrite IH.
Qed.

Lemma trashed_page (userID offset limit : Z) (w : World) :
  answers ->
  GetTrashedCampaignsPaginated userID offset limit w
  = ((Limit limit (Offset offset (fst (fst (GetTrashedCampaigns userID w)))),
      Z.of_nat (List.length (fst (fst (GetTrashedCampaigns userID w)))), None), w).
Proof.
  intros Hq. unfold GetTrashedCampaignsPaginated, GetTrashedCampaigns, ask. unfold_body.
  rewrite !Hq. cbn [fst snd].
  now rewrite (Permutation_length (order_by_perm deleted_at_geb _)).
Qed.

Lemma trashed_window (userID offset limit : Z) (w : World) :
  answers ->
  0 <= offset ->
  0 <= limit ->
  GetTrashedCampaignsPaginated userID offset limit w
  = ((firstn (Z.to_nat limit)
             (skipn (Z.to_nat offset) (fst (fst (GetTrashedCampaigns userID w)))),
      Z.of_nat (List.length (fst (fst (GetTrashedCampaigns userID w)))), None), w).
Proof.
  intros Hq Hoff Hlim.
  rewrite (trashed_page userID offset limit w Hq).
  unfold Limit, Offset.
  destruct (Z.leb_spec 0 limit); [| lia]. destruct (Z.leb_spec 0 offset); [| lia].
  reflexivity.
Qed.

(** X11: when the storage answers, a page of [GetTrashedCampaignsPaginated] is
    a window of what [GetTrashedCampaigns] lists: the rows from [offset] on,
    [limit] of them at most, and the total is the length of the whole list
    whatever the window.  A page that starts at or after the end is empty,
    and a page followed by the page that starts where it ends is the page of
    both lengths together. *)
Theorem GetTrashedCampaignsPaginated_is_a_window (userID offset limit : Z) (w : World) :
  answers ->
  0 <= offset ->
  0 <= limit ->
  let full := fst (fst (GetTrashedCampaigns userID w)) in
  let page := fun offset limit =>
                fst (fst (fst (GetTrashedCampaignsPaginated userID offset limit w))) in
  GetTrashedCampaignsPaginated userID offset limit w
  = ((firstn (Z.to_nat limit) (skipn (Z.to_nat offset) full),
      Z.of_nat (List.length full), None), w) /\
  Z.of_nat (List.length (page offset limit)) <= limit /\
  (Z.of_nat (List.length full) <= offset -> page offset limit = []) /\
  (forall limit', 0 <= limit' ->
                  page offset limit ++ page (offset + limit) limit'
                  = page offset (limit + limit')).
Proof.
  intros Hq Hoff Hlim full page.
  assert (Hpage : forall o l, 0 <= o -> 0 <= l ->
                              page o l = firstn (Z.to_nat l) (skipn (Z.to_nat o) full)).
  { intros o l Ho Hl. unfold page. rewrite (trashed_page userID o l w Hq). cbn [fst].
    unfold Limit, Offset.
    destruct (Z.leb_spec 0 l); [| lia]. destruct (Z.leb_spec 0 o); [| lia]. reflexivity. }
  split; [| split; [| split]].
  - rewrite (trashed_page userID offset limit w Hq). fold full.
    unfold Limit, Offset.
    destruct (Z.leb_spec 0 limit); [| lia]. destruct (Z.leb_spec 0 offset); [| lia].
    reflexivity.
  - rewrite Hpage by assumption. rewrite length_firstn. lia.
  - intros Hend. rewrite Hpage by assumption.
    rewrite skipn_all2 by lia. apply firstn_nil.
  - intros limit' Hlim'. rewrite !Hpage by lia.
    rewrite !Z2Nat.inj_add by lia.
    rewrite firstn_plus, skipn_skipn.
    now rewrite (Nat.add_comm (Z.to_nat limit) (Z.to_nat offset)).
Qed.

Lemma In_save_campaign (c' : Campaign) (rows : list Campaign) (r : Campaign) :
  In r (save_campaign c' rows) <-> r = c' /\ (exists x, In x rows /\ Id x = Id c') \/
                                   r = c' /\ (forall x, In x rows -> Id x <> Id c') \/
                                   In r rows /\ Id r <> Id c'.
Proof.
  unfold save_campaign.
  destruct (existsb (fun x => Id x =? Id c') rows) eqn:Hex.
  - apply existsb_exists in Hex as (x0 & Hx0 & Hid0). apply Z.eqb_eq in Hid0.
    rewrite in_map_iff. split.
    + intros (x & <- & Hx). destruct (Z.eqb_spec (Id x) (Id c')) as [Heq | Hne].
      * left. split; [reflexivity | eauto].
      * right. right. auto.
    + intros [[-> _] | [[-> Hnone] | [Hr Hne]]].
      * exists x0. split; [| exact Hx0]. now rewrite (proj2 (Z.eqb_eq _ _) Hid0).
      * exfalso. exact (Hnone x0 Hx0 Hid0).
      * exists r. split; [| exact Hr]. now rewrite (proj2 (Z.eqb_neq _ _) Hne).
  - assert (Hnone : forall x, In x rows -> Id x <> Id c').
    { intros x Hx Heq.
      assert (E : existsb (fun x => Id x =? Id c') rows = true)
        by (apply existsb_exists; exists x; split; [exact Hx | now apply Z.eqb_eq]).
      congruence. }
    rewrite in_app_iff. cbn [In]. split.
    + intros [Hr | [<- | []]]; [right; right; auto | right; left; auto].
    + intros [[-> _] | [[-> _] | [Hr _]]]; auto.
Qed.

Lemma saved_row_is_there (c' : Campaign) (rows : list Campaign) : In c' (save_campaign c' rows).
Proof.
  apply In_save_campaign.
  destruct (existsb (fun x => Id x =? Id c') rows) eqn:Hex.
  - left. split; [reflexivity |].
    apply existsb_exists in Hex as (x & Hx & Hid). apply Z.eqb_eq in Hid. eauto.
  - right. left. split; [reflexivity |]. intros x Hx Heq.
    assert (E : existsb (fun x => Id x =? Id c') rows = true)
      by (apply existsb_exists; exists x; split; [exact Hx | now apply Z.eqb_eq]).
    congruence.
Qed.

Lemma saved_row_is_the_only_one (c' : Campaign) (rows : list Campaign) (r : Campaign) :
  In r (save_campaign c' rows) -> Id r = Id c' -> r = c'.
Proof.
  intros Hr Hid. apply In_save_campaign in Hr as [[-> _] | [[-> _] | [_ Hne]]];
    [reflexivity | reflexivity | contradiction].
Qed.

Lemma trash_listing (u : Z) (w : World) (r : Campaign) :
  answers ->
  In r (fst (fst (GetTrashedCampaigns u w))) <->
  In r (campaigns (db w)) /\ IsDeleted r = true /\ UserId r = u.
Proof.
  intros Hq. unfold GetTrashedCampaigns, ask. unfold_body. rewrite Hq. cbn [fst snd].
  rewrite order_by_In, filter_In. unfold trashed_row.
  rewrite andb_true_iff, Z.eqb_eq. reflexivity.
Qed.

(** X12: a campaign its owner has soft-deleted is in the owner's trash list
    and in nobody else's: after a soft delete that succeeds on an active
    campaign, [GetTrashedCampaigns] of the owner returns the row as the soft
    delete stored it, and [GetTrashedCampaigns] of any other user returns no
    row with this id. *)
Theorem soft_deleted_campaign_enters_the_trash
        (w : World) (campaignID userID : Z) (reason : string) (c : Campaign) :
  answers ->
  succeeds env KBegin ->
  succeeds env KFirst ->
  succeeds env KSave ->
  succeeds env KCommit ->
  campaign_by_id campaignID (campaigns (db w)) = Some c ->
  UserId c = userID ->
  IsDeleted c = false ->
  let w' := snd (SoftDeleteCampaign campaignID userID reason w) in
  let c' := soft_deleted (stopping c) (clock env (ticks w)) userID reason c in
  In c' (fst (fst (GetTrashedCampaigns userID w'))) /\
  (forall r, In r (fst (fst (GetTrashedCampaigns userID w'))) -> Id r = campaignID -> r = c') /\
  (forall u r, u <> userID -> In r (fst (fst (GetTrashedCampaigns u w'))) -> Id r <> campaignID).
Proof.
  intros Hq Hb Hf Hs Hc Hrow Hown Hact w' c'.
  destruct (SoftDeleteCampaign_active w campaignID userID reason c Hb Hf Hs Hc Hrow Hown Hact)
    as (_ & _ & _ & audited & Hdb & _).
  fold c' in Hdb. fold w' in Hdb.
  assert (Hrows : campaigns (db w') = save_campaign c' (campaigns (db w)))
    by (rewrite Hdb; reflexivity).
  assert (Hid : Id c' = campaignID) by (cbn; eapply campaign_by_id_Id; eauto).
  split; [| split].
  - apply trash_listing; [exact Hq |]. rewrite Hrows.
    split; [apply saved_row_is_there | split; [reflexivity | exact Hown]].
  - intros r Hr Hrid. apply trash_listing in Hr as (Hr & _); [| exact Hq].
    rewrite Hrows in Hr. apply (saved_row_is_the_only_one c' _ r Hr). congruence.
  - intros u r Hu Hr Hrid. apply trash_listing in Hr as (Hr & _ & Huser); [| exact Hq].
    rewrite Hrows in Hr.
    assert (r = c') by (apply (saved_row_is_the_only_one c' _ r Hr); congruence).
    subst r. cbn in Huser. congruence.
Qed.

(** X13: a campaign its owner has restored is in nobody's trash list any more:
    after a restore that succeeds, whether the campaign kept its name or was
    renamed, [GetTrashedCampaigns] of no user returns a row with this id, and
    the other rows of the owner's trash list are the ones it had. *)
Theorem restored_campaign_leaves_the_trash
        (w : World) (campaignID userID : Z) (c : Campaign) :
  answers ->
  succeeds env KBegin ->
  succeeds env KFirst ->
  succeeds env KCount ->
  succeeds env KSave ->
  succeeds env KCommit ->
  campaign_by_id campaignID (campaigns (db w)) = Some c ->
  UserId c = userID ->
  IsDeleted c = true ->
  let w' := snd (RestoreCampaign campaignID userID w) in
  snd (fst (RestoreCampaign campaignID userID w)) = None /\
  (forall u r, In r (fst (fst (GetTrashedCampaigns u w'))) -> Id r <> campaignID) /\
  (forall u r, Id r <> campaignID ->
               (In r (fst (fst (GetTrashedCampaigns u w')))
                <-> In r (fst (fst (GetTrashedCampaigns u w))))).
Proof.
  intros Hq Hb Hf Hn Hs Hc Hrow Hown Hdel w'.
  assert (H : snd (fst (RestoreCampaign campaignID userID w)) = None /\
              exists c', Id c' = campaignID /\ IsDeleted c' = false /\
                         campaigns (db w') = save_campaign c' (campaigns (db w))).
  { pose proof (campaign_by_id_Id _ _ _ Hrow) as Hid.
    destruct (conflicts userID campaignID (campaigns (db w)) (Name c)) eqn:Hconf.
    - destruct (RestoreCampaign_name_taken w campaignID userID c Hb Hf Hn Hs Hc Hrow Hown Hdel
                                           Hconf) as (k & _ & _ & _ & Hres & _ & al & Hdb).
      split; [now rewrite Hres |].
      eexists. split; [| split; [| unfold w'; rewrite Hdb; reflexivity]]; [exact Hid | reflexivity].
    - destruct (RestoreCampaign_name_free w campaignID userID c Hb Hf Hn Hs Hc Hrow Hown Hdel
                                          Hconf) as (Hres & al & Hdb).
      split; [now rewrite Hres |].
      eexists. split; [| split; [| unfold w'; rewrite Hdb; reflexivity]];
        [exact Hid | reflexivity]. }
  destruct H as (Hok & c' & Hid & Hlive & Hrows).
  split; [exact Hok | split].
  - intros u r Hr Hrid. apply trash_listing in Hr as (Hr & Hdead & _); [| exact Hq].
    rewrite Hrows in Hr.
    assert (r = c') by (apply (saved_row_is_the_only_one c' _ r Hr); congruence).
    subst r. congruence.
  - intros u r Hrid. rewrite !trash_listing by exact Hq. rewrite Hrows, In_save_campaign.
    split.
    + intros ([[-> _] | [[-> _] | [Hr _]]] & Hd & Hu); try congruence. auto.
    + intros (Hr & Hd & Hu). split; [| auto]. right. right. split; [exact Hr | congruence].
Qed.

Lemma next_audit_id_fresh (rows : list AuditLog) (x : AuditLog) :
  In x rows -> ID x < next_audit_id rows.
Proof.
  unfold next_audit_id.
  induction rows as [| y l IH]; [contradiction |].
  cbn [fold_right]. intros [-> | Hx]; [lia |]. specialize (IH Hx). lia.
Qed.

Lemma audit_listing (entityType : string) (entityID : Z) (w : World) (a : AuditLog) :
  answers ->
  In a (fst (fst (GetAuditLogs entityType entityID w))) <->
  In a (audit_log (db w)) /\ EntityType a = entityType /\ EntityID a = entityID.
Proof.
  intros Hq. unfold GetAuditLogs, ask. unfold_body. rewrite Hq. cbn [fst snd].
  rewrite order_by_In, filter_In. unfold audit_of_entity.
  rewrite andb_true_iff, Z.eqb_eq, String.eqb_eq. reflexivity.
Qed.

Lemma actor_listing (actorID limit : Z) (w : World) :
  answers ->
  fst (GetAuditLogsByActor actorID limit w)
  = (let rows := order_by newest_first (filter (audit_of_actor actorID) (audit_log (db w))) in
     if 0 <? limit then firstn (Z.to_nat limit) rows else rows, None).
Proof.
  intros Hq. unfold GetAuditLogsByActor, ask. unfold_body. cbv zeta. rewrite Hq. cbn [fst snd].
  destruct (Z.ltb_spec 0 limit) as [Hpos | Hneg]; [| reflexivity].
  unfold Limit. destruct (Z.leb_spec 0 limit); [reflexivity | lia].
Qed.

(** ** What a purge leaves to read *)

(** X14: after the purge an administrator asks for, the campaign is where it
    was.  The purge of a campaign that is in the trash answers
    ErrCampaignNotFound, the campaign is still in its owner's trash list, and
    every trash list, every audit history of an entity or of an actor and
    the calendar events of the campaign and of every result read as they did
    before the call. *)
Theorem purged_campaign_stays_in_the_trash
        (w : World) (campaignID userID : Z) (c : Campaign) :
  answers ->
  succeeds env KBegin ->
  succeeds env KFirst ->
  campaign_by_id campaignID (campaigns (db w)) = Some c ->
  IsDeleted c = true ->
  let w' := snd (PurgeCampaign campaignID userID true w) in
  fst (PurgeCampaign campaignID userID true w) = Some ErrCampaignNotFound /\
  In c (fst (fst (GetTrashedCampaigns (UserId c) w'))) /\
  (forall u, fst (GetTrashedCampaigns u w') = fst (GetTrashedCampaigns u w)) /\
  (forall entityType entityID,
      fst (GetAuditLogs entityType entityID w') = fst (GetAuditLogs entityType entityID w)) /\
  (forall actorID limit,
      fst (GetAuditLogsByActor actorID limit w') = fst (GetAuditLogsByActor actorID limit w)) /\
  fst (GetCalendarEventsByCampaign campaignID w')
  = fst (GetCalendarEventsByCampaign campaignID w) /\
  (forall resultId,
      fst (GetCalendarEventsByResult resultId w') = fst (GetCalendarEventsByResult resultId w)).
Proof.
  intros Hq Hb Hf Hrow Hdel w'.
  assert (Hdb : db w' = db w).
  { subst w'. now rewrite (PurgeCampaign_trashed w campaignID userID c Hb Hf Hrow Hdel). }
  split; [now rewrite (PurgeCampaign_trashed w campaignID userID c Hb Hf Hrow Hdel) |].
  split; [| split; [| split; [| split; [| split]]]].
  - apply trash_listing; [exact Hq |]. rewrite Hdb.
    split; [eapply campaign_by_id_In; eassumption |]. split; [exact Hdel | reflexivity].
  - intros u. unfold GetTrashedCampaigns, ask. unfold_body.
    rewrite !Hq. cbn [fst snd]. now rewrite Hdb.
  - intros entityType entityID. unfold GetAuditLogs, ask. unfold_body.
    rewrite !Hq. cbn [fst snd]. now rewrite Hdb.
  - intros actorID limit. rewrite !actor_listing by exact Hq. now rewrite Hdb.
  - unfold GetCalendarEventsByCampaign, ask. unfold_body.
    rewrite !Hq. cbn [fst snd]. now rewrite Hdb.
  - intros resultId. unfold GetCalendarEventsByResult, ask. unfold_body.
    rewrite !Hq. cbn [fst snd]. now rewrite Hdb.
Qed.

(** ** A cycle and the store *)

(** When the storage accepts the transaction and the lookup, a system purge
    returns no error, whatever it is called on. *)
Lemma PurgeSystemCampaign_returns_nil (w : World) (campaignID : Z) :
  succeeds env KBegin ->
  succeeds env KFirst ->
  fst (PurgeSystemCampaign campaignID w) = None.
Proof.
  intros Hb Hf.
  destruct (campaign_by_id campaignID (campaigns (db w))) as [c |] eqn:Hrow.
  - destruct (IsDeleted c) eqn:Hdel.
    + rewrite (PurgeSystemCampaign_not_found w campaignID Hb Hf); [reflexivity |].
      right. exists c. split; assumption.
    + now rewrite (PurgeSystemCampaign_restored w campaignID c Hb Hf Hrow Hdel).
  - now rewrite (PurgeSystemCampaign_not_found w campaignID Hb Hf (or_introl Hrow)).
Qed.

Lemma leaves_the_store_refl (w : World) : leaves_the_store w w.
Proof.
  split; [reflexivity |]. split; [reflexivity |]. split; [reflexivity |].
  exists []. now rewrite app_nil_r.
Qed.

Lemma leaves_the_store_trans (w1 w2 w3 : World) :
  leaves_the_store w1 w2 -> leaves_the_store w2 w3 -> leaves_the_store w1 w3.
Proof.
  intros (Hdb & Hdel & Hcr & l & Hl) (Hdb' & Hdel' & Hcr' & l' & Hl').
  split; [congruence |]. split; [congruence |]. split; [congruence |].
  exists (l ++ l'). now rewrite Hl', Hl, app_assoc.
Qed.

Lemma leaves_the_store_wrote (l : LogLine) (w : World) : leaves_the_store w (wrote l w).
Proof.
  unfold leaves_the_store. cbn [db issued wrote].
  split; [reflexivity |]. split; [reflexivity |]. split; [reflexivity |].
  exists []. now rewrite app_nil_r.
Qed.

Lemma leaves_the_store_ticked (w : World) : leaves_the_store w (ticked w).
Proof.
  unfold leaves_the_store. cbn [db issued ticked].
  split; [reflexivity |]. split; [reflexivity |]. split; [reflexivity |].
  exists []. now rewrite app_nil_r.
Qed.

Lemma PurgeSystemCampaign_leaves_the_store (w : World) (campaignID : Z) :
  leaves_the_store w (snd (PurgeSystemCampaign campaignID w)).
Proof.
  destruct (PurgeSystemCampaign_changes_nothing w campaignID) as (H1 & H2 & H3 & _ & H4).
  split; [exact H1 |]. split; [exact H2 |]. split; [exact H3 | exact H4].
Qed.

(** The loop of a cycle, whatever the context and the storage do. *)
Lemma purge_each_leaves_the_store (ctx : Context) (total : Z) :
  forall (ids : list Z) (i : nat) (successCount errorCount : Z) (w : World),
    leaves_the_store w (snd (purge_each ctx total i ids successCount errorCount w)).
Proof.
  induction ids as [| campaignID rest IH]; intros i successCount errorCount w.
  - apply leaves_the_store_refl.
  - cbn [purge_each]. destruct (Done ctx i).
    + unfold_body. cbn [fst snd]. apply leaves_the_store_wrote.
    + unfold_body.
      match goal with
      | |- context [PurgeSystemCampaign campaignID ?w1] =>
          pose proof (PurgeSystemCampaign_leaves_the_store w1 campaignID) as Hp;
          destruct (PurgeSystemCampaign campaignID w1) as [[e |] w2]
      end; cbn [fst snd] in *.
      * eapply leaves_the_store_trans; [| apply IH].
        eapply leaves_the_store_trans; [exact Hp | apply leaves_the_store_wrote].
      * eapply leaves_the_store_trans; [exact Hp | apply IH].
Qed.

(** The listing of the candidates sends one statement and changes nothing. *)
Lemma ListPurgeCandidates_leaves_the_store (cutoff : Time) (limit : Z) (w : World) :
  leaves_the_store w (snd (ListPurgeCandidates cutoff limit w)) /\
  (db_is_nil env = false ->
   issued (snd (ListPurgeCandidates cutoff limit w))
   = issued w ++ [SqlPluckPurgeCandidates cutoff limit]).
Proof.
  unfold ListPurgeCandidates. unfold_body.
  destruct (db_is_nil env); [split; [apply leaves_the_store_refl | discriminate] |].
  destruct (fault env _ _); cbn [fst snd]; (split; [| intros _; reflexivity]).
  all: split; [reflexivity |]; cbn [issued wrote sent];
    rewrite ?filter_app; cbn [filter is_deletion is_create kind_of]; rewrite ?app_nil_r;
    split; [reflexivity |]; split; [reflexivity |]; eexists; reflexivity.
Qed.

(** A cycle, whatever the job, the context and the storage. *)
Lemma RunOnce_leaves_the_store (j : TrashTTLJob) (ctx : Context) (w : World) :
  leaves_the_store w (snd (RunOnce j ctx w)) /\
  (db_is_nil env = false ->
   exists rest : list Stmt,
     issued (snd (RunOnce j ctx w))
     = issued w ++ SqlPluckPurgeCandidates (cutoff_of j (clock env (S (ticks w)))) (batchSize j)
                :: rest).
Proof.
  unfold RunOnce. unfold_body. cbn [fst snd ticks ticked wrote].
  match goal with
  | |- context [ListPurgeCandidates ?c ?l ?w1] =>
      destruct (ListPurgeCandidates_leaves_the_store c l w1) as [Hl Hsent];
      assert (H0 : leaves_the_store w w1)
        by (unfold leaves_the_store; cbn [db issued];
            split; [reflexivity |]; split; [reflexivity |]; split; [reflexivity |];
            exists []; now rewrite app_nil_r);
      destruct (ListPurgeCandidates c l w1) as [[ids [e |]] w2]
  end; cbn [fst snd issued] in *.
  - split.
    + eapply leaves_the_store_trans; [exact H0 | exact Hl].
    + intros Hnil. exists []. now apply Hsent.
  - destruct (Z.of_nat (List.length ids) =? 0).
    + cbn [fst snd issued wrote]. split.
      * eapply leaves_the_store_trans; [| apply leaves_the_store_wrote].
        eapply leaves_the_store_trans; [exact H0 | exact Hl].
      * intros Hnil. exists []. now apply Hsent.
    + match goal with
      | |- context [purge_each ctx ?t ?i ids ?a ?b ?w3] =>
          pose proof (purge_each_leaves_the_store ctx t ids i a b w3) as Hp;
          destruct (purge_each ctx t i ids a b w3) as [[r | counts] w4]
      end; cbn [fst snd] in *.
      all: assert (Hall : leaves_the_store w w4)
        by (eapply leaves_the_store_trans; [| exact Hp];
            eapply leaves_the_store_trans; [| apply leaves_the_store_wrote];
            eapply leaves_the_store_trans; [exact H0 | exact Hl]).
      all: destruct Hp as (_ & _ & _ & l & Hp); cbn [issued wrote] in Hp.
      * split; [exact Hall |].
        intros Hnil. exists l. rewrite Hp, (Hsent Hnil), <- app_assoc. reflexivity.
      * destruct ((0 <? snd counts) && (fst counts =? 0)); cbn [fst snd issued wrote ticked].
        all: split; [eapply leaves_the_store_trans;
                     [exact Hall |
                      eapply leaves_the_store_trans;
                      [apply leaves_the_store_ticked | apply leaves_the_store_wrote]] |].
        all: intros Hnil; exists l; rewrite Hp, (Hsent Hnil), <- app_assoc; reflexivity.
Qed.

(** X9: [Start] of a job that is not enabled launches nothing.  It logs that
    the job is disabled, so through [Start], [Stop], the cancellation of the
    context and the turns of the loop, in whatever order, no cycle runs: the
    store, the statements sent and the clock readings stay as they were.
    [RunOnce] itself does not look at the flag: called on the disabled job it
    does what it does on the same job enabled, and with a database handle it
    sends the listing of the candidates. *)
Theorem disabled_job_is_not_started (cfg : TrashTTLConfig) (w : World) :
  Enabled cfg = false ->
  (forall (ms : list Move) (s : Scheduler),
      play ms (fresh_scheduler cfg w) = Goes s ->
      goroutine s = NotLaunched /\
      db (world s) = db w /\ issued (world s) = issued w /\ ticks (world s) = ticks w) /\
  (forall ctx : Context,
      let j := NewTrashTTLJob cfg in
      RunOnce j ctx w
      = RunOnce (NewTrashTTLJob (mkTrashTTLConfig (RetentionDays cfg) (Interval cfg)
                                                  (BatchSize cfg) true)) ctx w /\
      (db_is_nil env = false ->
       exists rest : list Stmt,
         issued (snd (RunOnce j ctx w))
         = issued w ++ SqlPluckPurgeCandidates (cutoff_of j (clock env (S (ticks w))))
                                               (batchSize j) :: rest)).
Proof.
  intros Hen. split.
  - assert (H : forall ms s s0,
               enabled (job s0) = false -> goroutine s0 = NotLaunched ->
               play ms s0 = Goes s ->
               goroutine s = NotLaunched /\ db (world s) = db (world s0) /\
               issued (world s) = issued (world s0) /\ ticks (world s) = ticks (world s0)).
    { induction ms as [| m ms IH]; intros s s0 He Hg Hplay.
      - cbn in Hplay. injection Hplay as <-. auto.
      - cbn [play] in Hplay. destruct (move m s0) as [s1 | |] eqn:Hm; try discriminate.
        destruct (disabled_move m s0 s1 He Hg Hm) as (He1 & Hg1 & Hdb & Hiss & Htk).
        destruct (IH s s1 He1 Hg1 Hplay) as (Hg' & Hdb' & Hiss' & Htk').
        repeat split; congruence. }
    intros ms s Hplay.
    apply (H ms s (fresh_scheduler cfg w)); [exact Hen | reflexivity | exact Hplay].
  - intros ctx j. split; [reflexivity |].
    intros Hnil. exact (proj2 (RunOnce_leaves_the_store j ctx w) Hnil).
Qed.

(** Every call of a batch returns no error when the storage accepts the
    transaction and the lookup. *)
Lemma system_purge_each_succeeds (total : Z) :
  succeeds env KBegin ->
  succeeds env KFirst ->
  forall (ids : list Z) (i : nat) (w : World),
    successes (fst (system_purge_each total i ids w)) = Z.of_nat (List.length ids) /\
    failures (fst (system_purge_each total i ids w)) = 0.
Proof.
  intros Hb Hf. induction ids as [| campaignID rest IH]; intros i w; [split; reflexivity |].
  cbn [system_purge_each].
  match goal with
  | |- context [PurgeSystemCampaign campaignID ?w1] =>
      pose proof (PurgeSystemCampaign_returns_nil w1 campaignID Hb Hf) as Hnil;
      destruct (PurgeSystemCampaign campaignID w1) as [err w2]
  end.
  cbn [fst] in Hnil. subst err.
  specialize (IH (S i) w2). destruct (system_purge_each total (S i) rest w2) as [outcomes w4].
  cbn [fst] in *. rewrite successes_cons, failures_cons. cbn [failed snd List.length].
  destruct IH as [-> ->]. split; lia.
Qed.

(** X15: a retention cycle deletes nothing and says that it has purged.
    Whatever the job, the context and the storage, the store after a cycle is
    the store before it, and the cycle has sent no deletion and no audit
    entry.  When the storage accepts every statement and the context is never
    done, a cycle that has candidates returns no error and logs that all of
    them succeeded, with no error and none skipped; the campaigns are
    candidates at the next cycle as they were at this one. *)
Theorem retention_cycle_deletes_nothing (j : TrashTTLJob) (ctx : Context) (w : World) :
  let r := RunOnce j ctx w in
  let cutoff := cutoff_of j (clock env (S (ticks w))) in
  let ids := map Id (purge_candidate_rows cutoff (batchSize j) (campaigns (db w))) in
  (db (snd r) = db w /\
   filter is_deletion (issued (snd r)) = filter is_deletion (issued w) /\
   filter is_create (issued (snd r)) = filter is_create (issued w)) /\
  (db_is_nil env = false ->
   succeeds env KPluck ->
   succeeds env KBegin ->
   succeeds env KFirst ->
   tx w = None ->
   (forall i, Done ctx i = false) ->
   ids <> [] ->
   fst r = None /\
   (exists d : Z,
       In (mkLogLine Info
                     "Trash TTL: Batch complete - %d succeeded, %d errors, %d skipped in %v"
                     [AInt (Z.of_nat (List.length ids)); AInt 0; AInt 0; ADuration d])
          (logged (snd r))) /\
   map Id (purge_candidate_rows cutoff (batchSize j) (campaigns (db (snd r)))) = ids).
Proof.
  intros r cutoff ids.
  destruct (RunOnce_leaves_the_store j ctx w) as [(Hdb & Hdel & Hcr & _) _].
  fold r in Hdb, Hdel, Hcr.
  split; [split; [exact Hdb | split; [exact Hdel | exact Hcr]] |].
  intros Hnil Hp Hb Hf Htx Hlive Hids.
  destruct (RunOnce_loop w j ctx Hnil Hp Htx) as [_ Hloop].
  fold cutoff ids in Hloop. specialize (Hloop Hids). fold r in Hloop.
  rewrite (purge_each_runs ctx _ Hlive) in Hloop.
  match type of Hloop with
  | context [system_purge_each ?t ?i ids ?w1] =>
      destruct (system_purge_each_succeeds t Hb Hf ids i w1) as [Hs Hfl]
  end.
  rewrite Hs, Hfl in Hloop. cbn [fst snd] in Hloop.
  rewrite Z.add_0_l in Hloop. cbn [Z.add Z.ltb Z.compare andb] in Hloop.
  split; [| split; [| now rewrite Hdb]].
  - now rewrite Hloop.
  - rewrite Hloop. cbn [fst snd logged wrote].
    eexists. apply in_or_app. right. left. reflexivity.
Qed.

Lemma SaveAuditLog_accepted (entry : AuditLog) (w : World) :
  succeeds env KCreate ->
  fst (SaveAuditLog entry w) = (keyed (stamped entry w) (audit_log (db w)), None) /\
  audit_log (db (snd (SaveAuditLog entry w)))
  = create_audit (stamped entry w) (audit_log (db w)).
Proof.
  intros Hc. unfold SaveAuditLog, db_Create, stamped, set_Timestamp, UTC.
  destruct entry as [id [t |] ai an ac et ei md ip ua]; cbn [Timestamp]; run; split; reflexivity.
Qed.

Lemma SaveAuditLog_refused (entry : AuditLog) (w : World) (e : error) :
  fails_with env KCreate e ->
  fst (SaveAuditLog entry w) = (stamped entry w, Some e) /\
  db (snd (SaveAuditLog entry w)) = db w /\
  In (mkLogLine Error "Failed to save audit log: %v" [AErr e])
     (logged (snd (SaveAuditLog entry w))).
Proof.
  intros Hc. unfold SaveAuditLog, db_Create, stamped, set_Timestamp, UTC.
  destruct entry as [id [t |] ai an ac et ei md ip ua]; cbn [Timestamp]; run; same_world;
    (split; [reflexivity | split; [reflexivity |]]);
    apply in_or_app; right; cbn [In]; auto.
Qed.

(** What [Create] makes of a record: its fields but the key. *)
Lemma keyed_fields (a : AuditLog) (rows : list AuditLog) :
  EntityType (keyed a rows) = EntityType a /\ EntityID (keyed a rows) = EntityID a /\
  Timestamp (keyed a rows) = Timestamp a.
Proof.
  unfold keyed. destruct (ID a =? 0); cbn; auto.
Qed.

(** X17: [SaveAuditLog] stores the entry it is given and the entry is found
    again.  The entry keeps its timestamp or, when that is the zero time, gets
    the clock reading.  When the storage accepts it, an entry without a key
    gets a key above every key of the table and an entry with a key keeps the
    key it has; [GetAuditLogs] of its entity returns the stored entry next to
    every entry it returned before.  When the storage refuses it, the error
    comes back, is logged, and the table is as it was. *)
Theorem SaveAuditLog_then_GetAuditLogs (entry : AuditLog) (w : World) :
  answers ->
  let r := SaveAuditLog entry w in
  let sent_entry :=
    set_Timestamp (Some (match Timestamp entry with
                         | Some t => t
                         | None => clock env (ticks w)
                         end)) entry in
  (succeeds env KCreate ->
   snd (fst r) = None /\
   (ID entry = 0 ->
    fst (fst r) = with_ID sent_entry (next_audit_id (audit_log (db w))) /\
    forall x, In x (audit_log (db w)) -> ID x < ID (fst (fst r))) /\
   (ID entry <> 0 -> fst (fst r) = sent_entry) /\
   In (fst (fst r)) (fst (fst (GetAuditLogs (EntityType entry) (EntityID entry) (snd r)))) /\
   (forall entityType entityID x,
       In x (fst (fst (GetAuditLogs entityType entityID w))) ->
       In x (fst (fst (GetAuditLogs entityType entityID (snd r)))))) /\
  (forall e,
      fails_with env KCreate e ->
      fst r = (sent_entry, Some e) /\
      db (snd r) = db w /\
      In (mkLogLine Error "Failed to save audit log: %v" [AErr e]) (logged (snd r))).
Proof.
  intros Hq r sent_entry. fold (stamped entry w) in sent_entry. subst r sent_entry.
  assert (Hkey : ID (stamped entry w) = ID entry) by reflexivity.
  split.
  - intros Hc. destruct (SaveAuditLog_accepted entry w Hc) as [Hr Hlog].
    rewrite Hr. cbn [fst snd].
    split; [reflexivity | split; [| split; [| split]]].
    + intros Hzero. unfold keyed. rewrite Hkey, Hzero. cbn [Z.eqb].
      split; [reflexivity |].
      intros x Hx. cbn [with_ID ID]. now apply next_audit_id_fresh.
    + intros Hset. unfold keyed. rewrite Hkey.
      now rewrite (proj2 (Z.eqb_neq _ _) Hset).
    + apply audit_listing; [exact Hq |]. rewrite Hlog. unfold create_audit.
      split; [apply in_or_app; right; now left |].
      destruct (keyed_fields (stamped entry w) (audit_log (db w))) as (Ht & He & _).
      rewrite Ht, He. split; reflexivity.
    + intros entityType entityID x Hx.
      apply audit_listing in Hx as (Hx & Hrest); [| exact Hq].
      apply audit_listing; [exact Hq |]. split; [| exact Hrest].
      rewrite Hlog. unfold create_audit. apply in_or_app. now left.
  - intros e Hfail. now apply SaveAuditLog_refused.
Qed.

(** ** The HTTP handlers *)

(** X18: [CampaignsTrash] answers a GET with the page of the trash the two
    query parameters ask for.  A page number below 1 counts as 1 and a page
    size outside 1..100 as 50; when the storage answers and the offset
    (page - 1) * size fits an [int], the reply is 200 with the rows from that
    offset on, [size] of them at most, of what [GetTrashedCampaigns] lists for
    the user, with the total of the whole list.  Any other method gets 405,
    whatever the storage would answer, and the handler logs nothing. *)
Theorem CampaignsTrash_pages (method : string) (userID page perPage : Z) (w : World) :
  let p := if page <? 1 then 1 else page in
  let n := if (perPage <? 1) || (100 <? perPage) then 50 else perPage in
  let full := fst (fst (GetTrashedCampaigns userID w)) in
  1 <= n <= 100 /\
  (method = "GET"%string ->
   answers ->
   (p - 1) * n < 2 ^ 63 ->
   fst (CampaignsTrash method userID page perPage w)
   = JSONResponse
       (BTrash (firstn (Z.to_nat n) (skipn (Z.to_nat ((p - 1) * n)) full))
               (Z.of_nat (List.length full)) p n)
       http_StatusOK) /\
  (method <> "GET"%string ->
   CampaignsTrash method userID page perPage w
   = (JSONResponse (BResponse (mkResponse false (Text "Method not allowed")))
                   http_StatusMethodNotAllowed, w)).
Proof.
  intros p n full.
  assert (Hn : 1 <= n <= 100).
  { unfold n. destruct (Z.ltb_spec perPage 1); cbn [orb]; [lia |].
    destruct (Z.ltb_spec 100 perPage); lia. }
  assert (Hp : 1 <= p) by (unfold p; destruct (Z.ltb_spec page 1); lia).
  split; [exact Hn | split].
  - intros -> Hq Hfit. unfold CampaignsTrash. unfold_body.
    cbn [String.eqb Ascii.eqb Bool.eqb negb].
    fold p. fold n.
    assert (Hoff : mul64 (wrap64 (p - 1)) n = (p - 1) * n).
    { assert (Hp63 : p - 1 < 2 ^ 63) by nia.
      unfold mul64. rewrite (wrap64_small (p - 1)) by lia.
      apply wrap64_small. nia. }
    rewrite Hoff.
    rewrite (trashed_window userID ((p - 1) * n) n w Hq) by nia.
    cbn [fst snd]. reflexivity.
  - intros Hm. unfold CampaignsTrash. unfold_body.
    destruct (String.eqb_spec method "GET") as [-> | _]; [contradiction | reflexivity].
Qed.

Lemma rename_retries_returns (fuel : nat) :
  forall (i campaignID userID : Z) (originalName name : string) (w : World),
    match fst (rename_retries fuel i campaignID userID originalName name w) with
    | inl r => result_or_error r
    | inr _ => True
    end.
Proof.
  induction fuel as [| fuel IH]; intros i campaignID userID originalName name w.
  - exact I.
  - cbn [rename_retries]. destruct (i <? 10); [| exact I].
    unfold checkNameConflict. unfold_body. reduce_world.
    destruct (fault env _ _); reduce_world; [exact I |].
    destruct (negb _); reduce_world; [exact I |].
    apply IH.
Qed.

Lemma RestoreCampaign_returns (campaignID userID : Z) (w : World) :
  result_or_error (fst (RestoreCampaign campaignID userID w)).
Proof.
  unfold RestoreCampaign, checkNameConflict. unfold_body. reduce_world.
  destruct (fault env _ SqlBegin); reduce_world; [exact I |].
  destruct (fault env _ (SqlFirstCampaign _ _)); reduce_world.
  { destruct (errors_Is _ _); exact I. }
  destruct (campaign_by_id _ _) as [c |]; reduce_world; [| exact I].
  rewrite in_scope_Unscoped. reduce_world.
  destruct (negb (UserId c =? userID)); reduce_world; [exact I |].
  destruct (negb (IsDeleted c)); reduce_world; [exact I |].
  destruct (fault env _ (SqlCountNameConflicts _ _ _)); reduce_world; [exact I |].
  match goal with
  | |- context [if ?b then _ else _] => destruct b
  end; reduce_world.
  - match goal with
    | |- context [rename_retries ?f ?i ?c ?u ?o ?n ?w0] =>
        pose proof (rename_retries_returns f i c u o n w0) as Hloop;
        destruct (rename_retries f i c u o n w0) as [[r | name] w1]
    end; cbn [fst] in Hloop; reduce_world; [exact Hloop |].
    destruct (fault env _ (SqlSaveCampaign _ _)); reduce_world; [exact I |].
    destruct (fault env _ (SqlCreateAudit _)); reduce_world;
      destruct (fault env _ SqlCommit); reduce_world; exact I.
  - destruct (fault env _ (SqlSaveCampaign _ _)); reduce_world; [exact I |].
    destruct (fault env _ (SqlCreateAudit _)); reduce_world;
      destruct (fault env _ SqlCommit); reduce_world; exact I.
Qed.

(** X19: [CampaignRestore] always answers, and answers 200 exactly for a POST
    whose restore returned no error.  [RestoreCampaign] returns a result
    whenever it returns no error, so the handler never reads the campaign
    through a nil result; the body of a 200 carries the campaign, the warnings
    and the rename flag of that result; every other answer is 400, 403, 404,
    405 or 500. *)
Theorem CampaignRestore_always_replies (method : string) (id userID : Z) (w : World) :
  exists (body : Body) (status : Z),
    fst (CampaignRestore method id userID w) = JSONResponse body status /\
    In status [http_StatusOK; http_StatusBadRequest; http_StatusForbidden;
               http_StatusNotFound; http_StatusMethodNotAllowed;
               http_StatusInternalServerError] /\
    (status = http_StatusOK <->
     method = "POST"%string /\ snd (fst (RestoreCampaign id userID w)) = None) /\
    (status = http_StatusOK ->
     exists result,
       fst (fst (RestoreCampaign id userID w)) = Some result /\
       body = BRestored (RestoredCampaign result) (Warnings result) (NameChanged result)).
Proof.
  unfold CampaignRestore. unfold_body.
  destruct (String.eqb_spec method "POST") as [-> | Hm]; cbn [negb].
  - pose proof (RestoreCampaign_returns id userID w) as Hr.
    destruct (RestoreCampaign id userID w) as [[[result |] [err |]] w1];
      cbn [fst snd result_or_error] in Hr |- *; try contradiction.
    + do 2 eexists. split; [reflexivity |]. split; [cbn; auto |].
      split; [split; auto |]. intros _. eexists. split; reflexivity.
    + destruct (error_eqb err ErrCampaignNotFound);
        [| destruct (error_eqb err ErrNotDeleted);
           [| destruct (error_eqb err ErrPermissionDenied)]];
        cbn [fst]; do 2 eexists; (split; [reflexivity |]);
        (split; [cbn; auto 7 |]);
        (split; [split; [discriminate | intros [_ H]; discriminate] | discriminate]).
  - do 2 eexists. split; [reflexivity |]. split; [cbn; auto 7 |].
    split; [split; [discriminate | intros [H _]; contradiction] | discriminate].
Qed.

Lemma RestoreCampaign_not_in_trash (w : World) (campaignID userID : Z) (c : Campaign) :
  succeeds env KBegin ->
  succeeds env KFirst ->
  campaign_by_id campaignID (campaigns (db w)) = Some c ->
  UserId c = userID ->
  IsDeleted c = false ->
  fst (RestoreCampaign campaignID userID w) = (None, Some ErrNotDeleted) /\
  db (snd (RestoreCampaign campaignID userID w)) = db w.
Proof.
  intros Hb Hf Hrow Hown Hact.
  unfold RestoreCampaign. run. look_up Hrow. run.
  rewrite (proj2 (Z.eqb_eq _ _) Hown), Hact. cbn [negb]. run. split; reflexivity.
Qed.

Lemma RestoreCampaign_no_row (w : World) (campaignID userID : Z) :
  succeeds env KBegin ->
  succeeds env KFirst ->
  campaign_by_id campaignID (campaigns (db w)) = None ->
  fst (RestoreCampaign campaignID userID w) = (None, Some ErrCampaignNotFound) /\
  db (snd (RestoreCampaign campaignID userID w)) = db w.
Proof.
  intros Hb Hf Hrow.
  unfold RestoreCampaign. run. rewrite Hrow. cbn [errors_Is error_eqb]. run.
  split; reflexivity.
Qed.

(** X20: the refusals of [CampaignRestore], when the storage accepts the
    lookup: a POST for a campaign that does not exist gets 404; for a campaign
    of another user, 403; for a campaign of the caller that is not in the
    trash, 400 "Campaign is not in trash"; and in all three the store stays as
    it was. *)
Theorem CampaignRestore_refuses (id userID : Z) (w : World) :
  succeeds env KBegin ->
  succeeds env KFirst ->
  let reply := CampaignRestore "POST" id userID w in
  (campaign_by_id id (campaigns (db w)) = None ->
   fst reply = JSONResponse (BResponse (mkResponse false (Text "Campaign not found")))
                            http_StatusNotFound /\
   db (snd reply) = db w) /\
  (forall c,
      campaign_by_id id (campaigns (db w)) = Some c ->
      UserId c <> userID ->
      fst reply = JSONResponse (BResponse (mkResponse false (Text "Permission denied")))
                               http_StatusForbidden /\
      db (snd reply) = db w) /\
  (forall c,
      campaign_by_id id (campaigns (db w)) = Some c ->
      UserId c = userID ->
      IsDeleted c = false ->
      fst reply = JSONResponse (BResponse (mkResponse false (Text "Campaign is not in trash")))
                               http_StatusBadRequest /\
      db (snd reply) = db w).
Proof.
  intros Hb Hf reply. subst reply.
  unfold CampaignRestore. unfold_body. cbn [String.eqb Ascii.eqb Bool.eqb negb].
  split; [| split].
  - intros Hrow. destruct (RestoreCampaign_no_row w id userID Hb Hf Hrow) as [Hr Hdb].
    destruct (RestoreCampaign id userID w) as [r w1]. cbn [fst snd] in *. subst r.
    cbn. auto.
  - intros c Hrow Hown.
    rewrite (RestoreCampaign_not_owner w id userID c Hb Hf Hrow Hown). cbn. auto.
  - intros c Hrow Hown Hact.
    destruct (RestoreCampaign_not_in_trash w id userID c Hb Hf Hrow Hown Hact) as [Hr Hdb].
    destruct (RestoreCampaign id userID w) as [r w1]. cbn [fst snd] in *. subst r.
    cbn. auto.
Qed.

(** X21: [CampaignPurge] answers 200 exactly when the request is a DELETE of
    an administrator whose body decodes to a confirmation that is the name of
    the campaign or the word DELETE, and the purge then returns no error.  A
    user who is not an administrator gets 403 before the campaign is looked
    up; a body with no confirmation in it is refused with 400 for every
    campaign whose name is not empty, before anything is purged; and an error
    of the purge comes back as a 500 with the text of the error. *)
Theorem CampaignPurge_needs_admin_and_confirmation
        (method : string) (id userID : Z) (decoded : error + string) (w : World) :
  let reply := CampaignPurge method id userID decoded w in
  ((exists body, fst reply = JSONResponse body http_StatusOK) <->
   method = "DELETE"%string /\
   exists user w1 conf c w2,
     GetUser userID w = (inr user, w1) /\
     Slug (UserRole user) = "admin"%string /\
     decoded = inr conf /\
     GetCampaign id userID w1 = (inr c, w2) /\
     (conf = Name c \/ conf = "DELETE"%string) /\
     fst (PurgeCampaign id userID true w2) = None) /\
  (forall user w1,
      method = "DELETE"%string ->
      GetUser userID w = (inr user, w1) ->
      Slug (UserRole user) <> "admin"%string ->
      reply = (JSONResponse (BResponse (mkResponse false (Text "Admin privileges required")))
                            http_StatusForbidden, w1)) /\
  (forall user w1 c w2,
      method = "DELETE"%string ->
      GetUser userID w = (inr user, w1) ->
      Slug (UserRole user) = "admin"%string ->
      GetCampaign id userID w1 = (inr c, w2) ->
      (decoded = inr EmptyString ->
       Name c <> EmptyString ->
       reply = (JSONResponse (BResponse (mkResponse false (Text "Confirmation does not match")))
                             http_StatusBadRequest, w2)) /\
      (forall err,
          decoded = inr "DELETE"%string ->
          fst (PurgeCampaign id userID true w2) = Some err ->
          fst reply = JSONResponse (BResponse (mkResponse false (ErrorText err)))
                                   http_StatusInternalServerError)).
Proof.
  intros reply. subst reply.
  unfold CampaignPurge. unfold_body.
  split; [| split].
  - destruct (String.eqb_spec method "DELETE") as [-> | Hm]; cbn [negb fst].
    2: { split; [intros [body H]; discriminate | intros [H _]; contradiction]. }
    destruct (GetUser userID w) as [[err | user] w1]; cbn [fst].
    { split; [intros [body H]; discriminate |].
      intros (_ & u & w' & conf & c & w2 & H & _). discriminate. }
    destruct (String.eqb_spec (Slug (UserRole user)) "admin") as [Hadmin | Hadmin];
      cbn [negb fst].
    2: { split; [intros [body H]; discriminate |].
         intros (_ & u & w' & conf & c & w2 & H & Hs & _).
         injection H as <- <-. contradiction. }
    destruct decoded as [derr | conf]; cbn [fst].
    { split; [intros [body H]; discriminate |].
      intros (_ & u & w' & conf & c & w2 & _ & _ & H & _). discriminate. }
    destruct (GetCampaign id userID w1) as [[cerr | c] w2] eqn:Hget; cbn [fst].
    { split; [intros [body H]; discriminate |].
      intros (_ & u & w' & conf' & c & w2' & H & _ & Hd & Hc & _).
      injection H as <- <-. rewrite Hget in Hc. discriminate. }
    destruct (negb (String.eqb conf (Name c)) && negb (String.eqb conf "DELETE")) eqn:Hguard;
      cbn [fst].
    { apply andb_true_iff in Hguard as [Hname Hword].
      apply negb_true_iff in Hname, Hword. apply String.eqb_neq in Hname, Hword.
      split; [intros [body H]; discriminate |].
      intros (_ & u & w' & conf' & c' & w2' & H & _ & Hd & Hc & Hor & _).
      injection H as <- <-. injection Hd as <-. rewrite Hget in Hc.
      injection Hc as <- <-. destruct Hor; contradiction. }
    assert (Hor : conf = Name c \/ conf = "DELETE"%string).
    { apply andb_false_iff in Hguard as [H | H]; apply negb_false_iff, String.eqb_eq in H; auto. }
    destruct (PurgeCampaign id userID true w2) as [[err |] w3] eqn:Hpurge; cbn [fst].
    + split; [intros [body H]; discriminate |].
      intros (_ & u & w' & conf' & c' & w2' & H & _ & Hd & Hc & _ & Hp).
      injection H as <- <-. injection Hd as <-. rewrite Hget in Hc.
      injection Hc as <- <-. rewrite Hpurge in Hp. discriminate.
    + split; [| intros _; eexists; reflexivity].
      intros _. split; [reflexivity |].
      exists user, w1, conf, c, w2. rewrite Hpurge. cbn [fst]. auto 10.
  - intros user w1 -> Hu Hna. cbn [String.eqb Ascii.eqb Bool.eqb negb]. rewrite Hu.
    destruct (String.eqb_spec (Slug (UserRole user)) "admin"); [contradiction | reflexivity].
  - intros user w1 c w2 -> Hu Ha Hc. cbn [String.eqb Ascii.eqb Bool.eqb negb]. rewrite Hu.
    rewrite (proj2 (String.eqb_eq _ _) Ha). cbn [negb].
    split.
    + intros -> Hname. rewrite Hc.
      destruct (String.eqb_spec EmptyString (Name c)) as [E | _]; [congruence |].
      reflexivity.
    + intros err -> Hp. rewrite Hc.
      cbn [String.eqb Ascii.eqb Bool.eqb negb andb]. rewrite andb_false_r.
      destruct (PurgeCampaign id userID true w2) as [r w3]. cbn [fst] in Hp. subst r.
      reflexivity.
Qed.

(** X22: [Campaign] of the API server on DELETE, for a campaign [GetCampaign]
    returns, when the storage accepts the statements of the soft delete: the
    owner of a campaign that is not in the trash gets 200 and the row is
    stored as soft deleted; anyone else gets 403 for it, with the store as it
    was; and for a campaign that is in the trash already the answer is 404
    "Campaign not found", whoever asks, with the store as it was.  A method
    other than GET and DELETE gets no response from the handler. *)
Theorem Server_Campaign_deletes_softly
        (id userID : Z) (reason : string) (w w1 : World) (found c : Campaign) :
  succeeds env KBegin ->
  succeeds env KFirst ->
  succeeds env KSave ->
  succeeds env KCommit ->
  GetCampaign id userID w = (inr found, w1) ->
  campaign_by_id id (campaigns (db w1)) = Some c ->
  let reply := Server_Campaign "DELETE" id userID reason w in
  (UserId c = userID -> IsDeleted c = false ->
   fst reply = JSONResponse (BResponse (mkResponse true (Text "Campaign moved to trash")))
                            http_StatusOK /\
   campaign_by_id id (campaigns (db (snd reply)))
   = Some (soft_deleted (stopping c) (clock env (ticks w1)) userID reason c)) /\
  (UserId c <> userID -> IsDeleted c = false ->
   fst reply = JSONResponse (BResponse (mkResponse false (Text "Permission denied")))
                            http_StatusForbidden /\
   db (snd reply) = db w1) /\
  (IsDeleted c = true ->
   fst reply = JSONResponse (BResponse (mkResponse false (Text "Campaign not found")))
                            http_StatusNotFound /\
   db (snd reply) = db w1) /\
  (forall method,
      method <> "GET"%string -> method <> "DELETE"%string ->
      Server_Campaign method id userID reason w = (NoResponse, w1)).
Proof.
  intros Hb Hf Hs Hc Hget Hrow reply. subst reply.
  unfold Server_Campaign. unfold_body. rewrite Hget.
  cbn [String.eqb Ascii.eqb Bool.eqb].
  split; [| split; [| split]].
  - intros Hown Hact.
    destruct (SoftDeleteCampaign_active w1 id userID reason c Hb Hf Hs Hc Hrow Hown Hact)
      as (Hok & _ & _ & audited & Hdb & _).
    destruct (SoftDeleteCampaign id userID reason w1) as [r w2]. cbn [fst snd] in *. subst r.
    cbn [fst snd]. split; [reflexivity |].
    rewrite Hdb. cbn [campaigns set_audit_log set_campaigns].
    apply campaign_by_id_save. cbn. eapply campaign_by_id_Id; eauto.
  - intros Hown Hact.
    rewrite (SoftDeleteCampaign_not_owner w1 id userID reason c Hb Hf Hrow Hact Hown).
    cbn. auto.
  - intros Hdel.
    rewrite (SoftDeleteCampaign_trashed w1 id userID reason c Hb Hf Hrow Hdel).
    cbn. auto.
  - intros method Hg Hd.
    destruct (String.eqb_spec method "GET"); [contradiction |].
    destruct (String.eqb_spec method "DELETE"); [contradiction |].
    reflexivity.
Qed.

(** ** What the lifecycle leaves alone *)

Lemma campaign_by_id_save_other (id : Z) (c' : Campaign) (rows : list Campaign) :
  Id c' <> id ->
  campaign_by_id id (save_campaign c' rows) = campaign_by_id id rows.
Proof.
  intros Hne. unfold save_campaign, campaign_by_id.
  destruct (existsb (fun r => Id r =? Id c')%Z rows).
  - induction rows as [| r rows IH]; [reflexivity |].
    cbn [map find]. destruct (Z.eqb_spec (Id r) (Id c')) as [Heq | Hneq].
    + rewrite (proj2 (Z.eqb_neq _ _) Hne).
      destruct (Z.eqb_spec (Id r) id) as [E | _]; [congruence | exact IH].
    + destruct (Id r =? id)%Z; [reflexivity | exact IH].
  - induction rows as [| r rows IH]; cbn [List.app find].
    + now rewrite (proj2 (Z.eqb_neq _ _) Hne).
    + destruct (Id r =? id)%Z; [reflexivity | exact IH].
Qed.

Lemma length_save_campaign (c c' : Campaign) (rows : list Campaign) :
  campaign_by_id (Id c') rows = Some c ->
  List.length (save_campaign c' rows) = List.length rows.
Proof.
  intros Hrow. unfold save_campaign.
  assert (Hex : existsb (fun r => Id r =? Id c')%Z rows = true).
  { apply existsb_exists. exists c. split.
    - eapply campaign_by_id_In; eauto.
    - apply Z.eqb_eq. eapply campaign_by_id_Id; eauto. }
  rewrite Hex. apply length_map.
Qed.

Lemma saved_only_the_row (campaignID : Z) (c c' : Campaign) (s : Store)
      (entries : list AuditLog) :
  campaign_by_id campaignID (campaigns s) = Some c ->
  Id c' = campaignID ->
  only_the_row_changed campaignID s
    (set_audit_log entries (set_campaigns (save_campaign c' (campaigns s)) s)).
Proof.
  intros Hrow Hid. unfold only_the_row_changed.
  destruct s as [cs es rs ces gs al].
  cbn [set_audit_log set_campaigns events results calendar_events campaign_groups campaigns]
    in *.
  split; [reflexivity |]. split; [reflexivity |]. split; [reflexivity |].
  split; [reflexivity |]. split.
  - apply (length_save_campaign c). now rewrite Hid.
  - intros id Hne. apply campaign_by_id_save_other. congruence.
Qed.

(** X25: a soft delete and a restore that succeed write the one row of the
    campaign and touch no other table but the audit log: events, results,
    calendar events and group associations are as they were, no campaign row
    is added or removed, and every other campaign is found as before. *)
Theorem soft_delete_and_restore_keep_the_rest
        (w : World) (campaignID userID : Z) (reason : string) (c : Campaign) :
  (forall k, succeeds env k) ->
  campaign_by_id campaignID (campaigns (db w)) = Some c ->
  UserId c = userID ->
  (IsDeleted c = false ->
   only_the_row_changed campaignID (db w)
                        (db (snd (SoftDeleteCampaign campaignID userID reason w)))) /\
  (IsDeleted c = true ->
   only_the_row_changed campaignID (db w) (db (snd (RestoreCampaign campaignID userID w)))).
Proof.
  intros Hall Hrow Hown.
  pose proof (campaign_by_id_Id _ _ _ Hrow) as Hid.
  split.
  - intros Hact.
    destruct (SoftDeleteCampaign_active w campaignID userID reason c
                                        (Hall _) (Hall _) (Hall _) (Hall _) Hrow Hown Hact)
      as (_ & _ & _ & audited & Hdb & _).
    rewrite Hdb. apply (saved_only_the_row campaignID c); [exact Hrow | exact Hid].
  - intros Hdel.
    destruct (conflicts userID campaignID (campaigns (db w)) (Name c)) eqn:Hconf.
    + destruct (RestoreCampaign_name_taken w campaignID userID c
                                           (Hall _) (Hall _) (Hall _) (Hall _) (Hall _)
                                           Hrow Hown Hdel Hconf)
        as (k & _ & _ & _ & _ & _ & entries & Hdb).
      rewrite Hdb. apply (saved_only_the_row campaignID c); [exact Hrow | exact Hid].
    + destruct (RestoreCampaign_name_free w campaignID userID c
                                          (Hall _) (Hall _) (Hall _) (Hall _) (Hall _)
                                          Hrow Hown Hdel Hconf)
        as (_ & entries & Hdb).
      rewrite Hdb. apply (saved_only_the_row campaignID c); [exact Hrow | exact Hid].
Qed.

(** The end of a path of the interactive purge that leaves after the
    lookup. *)
Ltac interactive_left :=
  same_world; rewrite ?filter_app; cbn [filter is_deletion is_create kind_of];
  rewrite ?app_nil_r; repeat split; first [reflexivity | discriminate].

(** X26: no call of a purge changes the store.  Whatever the campaign, the
    caller and the answers of the storage, [PurgeCampaign] and
    [PurgeSystemCampaign] leave every table as it was, send no deletion and
    create no audit entry, and [PurgeCampaign] never returns without an
    error: their lookup finds a campaign only when it is not in the trash,
    and a campaign that is not in the trash is not purged. *)
Theorem purges_change_nothing (w : World) (campaignID userID : Z) (isAdmin : bool) :
  (let r := PurgeCampaign campaignID userID isAdmin w in
   db (snd r) = db w /\
   filter is_deletion (issued (snd r)) = filter is_deletion (issued w) /\
   filter is_create (issued (snd r)) = filter is_create (issued w) /\
   fst r <> None) /\
  (let r := PurgeSystemCampaign campaignID w in
   db (snd r) = db w /\
   filter is_deletion (issued (snd r)) = filter is_deletion (issued w) /\
   filter is_create (issued (snd r)) = filter is_create (issued w)).
Proof.
  split.
  - cbn zeta. unfold PurgeCampaign.
    destruct isAdmin; [| cbn; repeat split; first [reflexivity | discriminate]].
    run. split_on_fault; run; [interactive_left |].
    split_on_fault; run.
    + destruct (errors_Is _ _); run; interactive_left.
    + destruct (campaign_by_id campaignID (campaigns (db w))) as [c |] eqn:Hrow.
      * rewrite in_scope_locked.
        destruct (IsDeleted c) eqn:Hdel; run; rewrite ?Hdel; run;
          try change (errors_Is gorm_ErrRecordNotFound gorm_ErrRecordNotFound) with true;
          run; interactive_left.
      * run. change (errors_Is gorm_ErrRecordNotFound gorm_ErrRecordNotFound) with true.
        run. interactive_left.
  - destruct (PurgeSystemCampaign_changes_nothing w campaignID) as (H1 & H2 & H3 & _).
    cbn zeta. split; [exact H1 | split; [exact H2 | exact H3]].
Qed.

End Program.

(** * The calendar invitation, verified *)

Module ics_facts.

Import ics.
Local Open Scope string_scope.
Local Open Scope nat_scope.

(** ** Texts *)

Lemma append_assoc (a b c : string) : (a ++ b) ++ c = a ++ (b ++ c).
Proof.
  induction a as [| x a IH]; cbn; [reflexivity | now rewrite IH].
Qed.

Lemma append_empty_r (a : string) : a ++ EmptyString = a.
Proof.
  induction a as [| x a IH]; cbn; [reflexivity | now rewrite IH].
Qed.

Lemma length_append (a b : string) :
  String.length (a ++ b) = String.length a + String.length b.
Proof.
  induction a as [| x a IH]; cbn; [reflexivity | now rewrite IH].
Qed.

Lemma substring_all (s : string) : substring 0 (String.length s) s = s.
Proof.
  induction s as [| c s IH]; cbn; [reflexivity | now rewrite IH].
Qed.

Lemma substring_split (n : nat) (s : string) :
  n <= String.length s ->
  substring 0 n s ++ slice_from n s = s.
Proof.
  unfold slice_from. revert n.
  induction s as [| c s IH]; intros n H.
  - destruct n; [reflexivity | cbn in H; lia].
  - destruct n as [| n].
    + rewrite Nat.sub_0_r, substring_all. reflexivity.
    + cbn in H. cbn [substring String.length Nat.sub append].
      f_equal. apply IH. lia.
Qed.

Lemma length_substring_0 (n : nat) (s : string) :
  n <= String.length s -> String.length (substring 0 n s) = n.
Proof.
  revert n. induction s as [| c s IH]; intros [| n] H; cbn in *; try reflexivity; try lia.
  now rewrite IH by lia.
Qed.

Lemma length_slice_from (n : nat) (s : string) :
  n <= String.length s -> String.length (slice_from n s) = String.length s - n.
Proof.
  intros H.
  pose proof (substring_split n s H) as E.
  apply (f_equal String.length) in E.
  rewrite length_append, length_substring_0 in E by exact H. lia.
Qed.

(** ** Folding *)

Lemma fold_continuation_chunks (fuel : nat) (remaining : string) :
  String.length remaining <= fuel ->
  exists rest : list string,
    String.concat EmptyString rest = remaining /\
    fold_continuation fuel remaining = String.concat EmptyString (map continuation rest) /\
    Forall (fun r => 1 <= String.length r <= maxLineLength - 1) rest /\
    (forall r, In r (removelast rest) -> String.length r = maxLineLength - 1) /\
    (remaining <> EmptyString -> rest <> []).
Proof.
  revert remaining. induction fuel as [| fuel IH]; intros remaining Hlen.
  - destruct remaining; [| cbn in Hlen; lia].
    exists []. cbn. split; [reflexivity | split; [reflexivity | split; [constructor | split]]].
    + intros r [].
    + intros H. now elim H.
  - cbn [fold_continuation].
    destruct (Nat.ltb_spec 0 (String.length remaining)) as [Hpos | Hzero].
    + destruct (Nat.leb_spec (String.length remaining) (maxLineLength - 1)) as [Hfit | Hlong].
      * exists [remaining]. cbn [String.concat map removelast].
        split; [reflexivity | split; [| split; [| split]]].
        -- reflexivity.
        -- constructor; [lia | constructor].
        -- intros r [].
        -- discriminate.
      * destruct (IH (slice_from (maxLineLength - 1) remaining))
          as (rest & Hcat & Hfold & Hall & Hlast & Hne).
        { unfold maxLineLength in *. cbn [Nat.sub] in *. rewrite length_slice_from by lia. lia. }
        assert (Hrest : rest <> []).
        { apply Hne. intros E. apply (f_equal String.length) in E.
          rewrite length_slice_from in E by lia. unfold maxLineLength in *. cbn in E. lia. }
        exists (substring 0 (maxLineLength - 1) remaining :: rest).
        split; [| split; [| split; [| split]]].
        -- destruct rest as [| r0 rest']; [contradiction |].
           change (String.concat EmptyString (?x :: r0 :: rest'))
             with (x ++ EmptyString ++ String.concat EmptyString (r0 :: rest')).
           cbn [append]. rewrite Hcat. apply substring_split. lia.
        -- rewrite Hfold. destruct rest as [| r0 rest']; [contradiction |].
           cbn [map].
           change (String.concat EmptyString (?x :: ?y :: ?l))
             with (x ++ EmptyString ++ String.concat EmptyString (y :: l)).
           unfold continuation. cbn [append].
           rewrite ?append_assoc. reflexivity.
        -- constructor; [| exact Hall].
           rewrite length_substring_0 by lia. unfold maxLineLength. lia.
        -- intros r Hr. destruct rest as [| r0 rest']; [contradiction |].
           cbn [removelast] in Hr. destruct Hr as [<- | Hr].
           ++ apply length_substring_0. lia.
           ++ apply Hlast. exact Hr.
        -- discriminate.
    + destruct remaining; [| cbn in Hzero; lia].
      exists []. cbn. split; [reflexivity | split; [reflexivity | split; [constructor | split]]].
      * intros r [].
      * intros H. now elim H.
Qed.

(** X1: [foldLine] cuts the line into a first chunk of at most 75 bytes and
    further chunks of at most 74, writes the first as it is and each further
    one after a space, and closes each with CRLF.  So no physical line is
    longer than 75 bytes, the chunks put together are the line, every chunk
    but the last is full, and a line of at most 75 bytes is not cut. *)
Theorem foldLine_chunks (line : string) :
  exists (first : string) (rest : list string),
    first ++ String.concat EmptyString rest = line /\
    foldLine line = folded first rest /\
    String.length first <= maxLineLength /\
    Forall (fun r => 1 <= String.length r <= maxLineLength - 1) rest /\
    (forall r, In r (removelast rest) -> String.length r = maxLineLength - 1) /\
    (rest = [] <-> String.length line <= maxLineLength) /\
    (rest <> [] -> String.length first = maxLineLength).
Proof.
  unfold foldLine, folded.
  destruct (Nat.leb_spec (String.length line) maxLineLength) as [Hfit | Hlong].
  - exists line, []. cbn [String.concat map].
    rewrite !append_empty_r.
    split; [reflexivity | split; [reflexivity | split; [exact Hfit | split; [constructor |]]]].
    split; [intros r [] | split; [split; auto | intros H; now elim H]].
  - destruct (fold_continuation_chunks
                (String.length (slice_from maxLineLength line))
                (slice_from maxLineLength line) (le_n _))
      as (rest & Hcat & Hfold & Hall & Hlast & Hne).
    assert (Hrest : rest <> []).
    { apply Hne. intros E. apply (f_equal String.length) in E.
      rewrite length_slice_from in E by lia. cbn in E. lia. }
    exists (substring 0 maxLineLength line), rest.
    rewrite Hcat, Hfold, length_substring_0 by lia.
    split; [apply substring_split; lia | split; [reflexivity | split; [lia |]]].
    split; [exact Hall | split; [exact Hlast | split; [| reflexivity]]].
    split; [intros E; contradiction | intros H; lia].
Qed.

(** ** Escaping *)

Lemma strings_ReplaceAll_app (a b : string) (old : ascii) (new : string) :
  strings_ReplaceAll (a ++ b) old new
  = strings_ReplaceAll a old new ++ strings_ReplaceAll b old new.
Proof.
  induction a as [| c a IH]; cbn; [reflexivity |].
  rewrite IH. destruct (Ascii.eqb c old); [now rewrite append_assoc | reflexivity].
Qed.

Lemma escapeICSText_app (a b : string) :
  escapeICSText (a ++ b) = escapeICSText a ++ escapeICSText b.
Proof.
  unfold escapeICSText. now rewrite !strings_ReplaceAll_app.
Qed.

Lemma escapeICSText_byte (c : ascii) :
  escapeICSText (String c EmptyString) = escape_byte c.
Proof.
  destruct c as [[] [] [] [] [] [] [] []]; reflexivity.
Qed.

Lemma escapeICSText_cons (c : ascii) (text : string) :
  escapeICSText (String c text) = escape_byte c ++ escapeICSText text.
Proof.
  change (String c text) with (String c EmptyString ++ text).
  now rewrite escapeICSText_app, escapeICSText_byte.
Qed.

Lemma one_line_app (a b : string) : one_line (a ++ b) = one_line a && one_line b.
Proof.
  induction a as [| c a IH]; cbn; [reflexivity |].
  rewrite IH. now rewrite !andb_assoc.
Qed.

Lemma one_line_escape_byte (c : ascii) : one_line (escape_byte c) = true.
Proof.
  destruct c as [[] [] [] [] [] [] [] []]; reflexivity.
Qed.

Lemma one_line_escapeICSText (text : string) : one_line (escapeICSText text) = true.
Proof.
  induction text as [| c text IH]; [reflexivity |].
  now rewrite escapeICSText_cons, one_line_app, one_line_escape_byte, IH.
Qed.

Lemma unescape_escaped (text : string) :
  unescape (escapeICSText text) = strings_ReplaceAll text CR EmptyString.
Proof.
  induction text as [| c text IH]; [reflexivity |].
  rewrite escapeICSText_cons. cbn [strings_ReplaceAll].
  destruct c as [[] [] [] [] [] [] [] []];
    cbn; rewrite IH; reflexivity.
Qed.

(** X3: an escaped text has no carriage return and no line feed in it, so it
    stays on the content line it is written to; and it tells the text apart
    from every other, carriage returns aside: two texts with the same escaped
    form differ at most in their carriage returns. *)
Theorem escapeICSText_one_line_and_injective (a b : string) :
  one_line (escapeICSText a) = true /\
  (escapeICSText a = escapeICSText b <->
   strings_ReplaceAll a CR EmptyString = strings_ReplaceAll b CR EmptyString).
Proof.
  split; [apply one_line_escapeICSText |].
  split; intros H.
  - rewrite <- !unescape_escaped. now rewrite H.
  - assert (E : forall t, escapeICSText (strings_ReplaceAll t CR EmptyString) = escapeICSText t).
    { induction t as [| c t IH]; [reflexivity |].
      cbn [strings_ReplaceAll]. rewrite escapeICSText_cons.
      destruct (Ascii.eqb_spec c CR) as [-> | Hc].
      - exact IH.
      - now rewrite escapeICSText_cons, IH. }
    rewrite <- (E a), <- (E b). now rewrite H.
Qed.

(** ** Line ends *)

Lemma crlf_only_app (a b : string) :
  crlf_only a = true -> crlf_only b = true -> crlf_only (a ++ b) = true.
Proof.
  intros Ha Hb.
  assert (H : forall n a, String.length a <= n -> crlf_only a = true ->
                          crlf_only (a ++ b) = true).
  { clear a Ha. induction n as [| n IH]; intros a Hn Ha.
    - destruct a; [exact Hb | cbn in Hn; lia].
    - destruct a as [| c a]; [exact Hb |].
      cbn [append]. cbn [crlf_only] in Ha |- *.
      destruct (Ascii.eqb c CR).
      + destruct a as [| d a]; [discriminate |].
        cbn [append]. apply andb_true_iff in Ha as [Hd Ha].
        rewrite Hd. cbn [andb]. apply IH; [cbn in Hn; lia | exact Ha].
      + apply andb_true_iff in Ha as [Hc Ha].
        rewrite Hc. cbn [andb]. apply IH; [cbn in Hn; lia | exact Ha]. }
  now apply (H (String.length a)).
Qed.

Lemma one_line_crlf_only (s : string) : one_line s = true -> crlf_only s = true.
Proof.
  induction s as [| c s IH]; [reflexivity |].
  cbn [one_line crlf_only]. intros H.
  apply andb_true_iff in H as [H Hs]. apply andb_true_iff in H as [Hcr Hlf].
  apply negb_true_iff in Hcr. rewrite Hcr, Hlf. cbn [andb]. now apply IH.
Qed.

Lemma one_line_concat (l : list string) :
  one_line (String.concat EmptyString l) = true ->
  Forall (fun r => one_line r = true) l.
Proof.
  induction l as [| x l IH]; [constructor |].
  destruct l as [| y l].
  - cbn. intros H. constructor; [exact H | constructor].
  - change (String.concat EmptyString (x :: y :: l))
      with (x ++ EmptyString ++ String.concat EmptyString (y :: l)).
    cbn [append]. rewrite one_line_app. intros H.
    apply andb_true_iff in H as [Hx Hl]. constructor; [exact Hx | now apply IH].
Qed.

Lemma crlf_only_continuations (rest : list string) :
  Forall (fun r => one_line r = true) rest ->
  crlf_only (String.concat EmptyString (map continuation rest)) = true.
Proof.
  induction 1 as [| x l Hx Hl IH]; [reflexivity |].
  assert (Hc : crlf_only (continuation x) = true).
  { unfold continuation. apply crlf_only_app; [reflexivity |].
    apply crlf_only_app; [now apply one_line_crlf_only | reflexivity]. }
  destruct l as [| y l]; [exact Hc |].
  cbn [map].
  change (String.concat EmptyString (?a :: ?b :: ?c))
    with (a ++ EmptyString ++ String.concat EmptyString (b :: c)).
  cbn [append]. apply crlf_only_app; [exact Hc | exact IH].
Qed.

Lemma one_line_substring_split (n : nat) (s : string) :
  n <= String.length s ->
  one_line s = true ->
  one_line (substring 0 n s) = true /\ one_line (slice_from n s) = true.
Proof.
  intros Hn H. rewrite <- (substring_split n s Hn), one_line_app in H.
  now apply andb_true_iff in H.
Qed.

Lemma crlf_only_foldLine (line : string) :
  one_line line = true -> crlf_only (foldLine line) = true.
Proof.
  intros H. unfold foldLine.
  destruct (Nat.leb_spec (String.length line) maxLineLength) as [Hfit | Hlong].
  - apply crlf_only_app; [now apply one_line_crlf_only | reflexivity].
  - destruct (one_line_substring_split maxLineLength line) as [Hfirst Hrest]; [lia | exact H |].
    destruct (fold_continuation_chunks
                (String.length (slice_from maxLineLength line))
                (slice_from maxLineLength line) (le_n _))
      as (rest & Hcat & -> & _).
    rewrite <- Hcat in Hrest.
    apply crlf_only_app; [now apply one_line_crlf_only |].
    apply crlf_only_app; [reflexivity |].
    apply crlf_only_continuations. now apply one_line_concat.
Qed.

Lemma one_line_string_of_uint (d : Decimal.uint) :
  one_line (NilEmpty.string_of_uint d) = true.
Proof.
  induction d; cbn; auto.
Qed.

Lemma one_line_itoa (z : Z) : one_line (itoa z) = true.
Proof.
  unfold itoa, NilZero.string_of_int, NilZero.string_of_uint.
  destruct (Z.to_int z) as [d | d]; destruct d; cbn;
    try reflexivity; apply one_line_string_of_uint.
Qed.

Lemma crlf_only_if (b : bool) (s : string) :
  crlf_only s = true -> crlf_only (if b then s else EmptyString) = true.
Proof.
  destruct b; [trivial | reflexivity].
Qed.

(** ** The invitation *)

Section Invitation.

Variable time_Format : Time -> string -> string.

(** X4: when the UID, the two mail addresses and the formatted times have no
    carriage return and no line feed in them, every carriage return of the
    invitation is followed by a line feed and every line feed follows a
    carriage return: the title, the description, the location, the meeting
    URL and the two names, whatever they hold, add no line of their own. *)
Theorem Generate_keeps_line_ends (now : Time) (e : CalendarEvent) :
  (forall t layout, one_line (time_Format t layout) = true) ->
  one_line (UID e) = true ->
  one_line (OrganizerEmail e) = true ->
  one_line (AttendeeEmail e) = true ->
  crlf_only (Generate time_Format now e) = true.
Proof.
  intros Hfmt Huid Horg Hatt.
  unfold Generate. cbv zeta.
  repeat first
    [ apply crlf_only_app
    | apply crlf_only_if
    | apply crlf_only_foldLine;
      rewrite ?one_line_app, ?one_line_escapeICSText, ?Huid, ?Horg, ?Hatt; reflexivity
    | apply one_line_crlf_only;
      rewrite ?one_line_app, ?one_line_itoa, ?Hfmt; reflexivity
    | reflexivity ].
Qed.

End Invitation.

(** X2: the five passes of [escapeICSText] act as one pass over the bytes of
    the text: a backslash is doubled, a line feed becomes backslash-n, a
    carriage return is dropped, a comma and a semicolon get a backslash, and
    every other byte stays.  The backslashes the later passes write are not
    escaped a second time, and escaping goes through concatenation. *)
Theorem escapeICSText_each_byte (a b : string) :
  escapeICSText a = each_byte escape_byte a /\
  escapeICSText (a ++ b) = escapeICSText a ++ escapeICSText b.
Proof.
  split; [| apply escapeICSText_app].
  induction a as [| c a IH]; [reflexivity |].
  rewrite escapeICSText_cons, IH. reflexivity.
Qed.

End ics_facts.

(** * The trash page, verified *)

Module trash_js_facts.

Import trash_js.
Local Open Scope N_scope.

Lemma escapeHtml_cons (u : N) (s : js_string) :
  escapeHtml (js_str (u :: s))
  = (if special u then entity u else [u]) ++ escapeHtml (js_str s).
Proof.
  reflexivity.
Qed.

(** The cases of a code unit: one of the five characters, or none of them. *)
Lemma special_cases (u : N) :
  (u = char_amp \/ u = char_lt \/ u = char_gt \/ u = char_quot \/ u = char_apos) /\
  special u = true
  \/
  (u <> char_amp /\ u <> char_lt /\ u <> char_gt /\ u <> char_quot /\ u <> char_apos) /\
  special u = false.
Proof.
  unfold special.
  destruct (N.eqb_spec u char_amp); [left; auto |].
  destruct (N.eqb_spec u char_lt); [left; auto |].
  destruct (N.eqb_spec u char_gt); [left; auto |].
  destruct (N.eqb_spec u char_quot); [left; auto 6 |].
  destruct (N.eqb_spec u char_apos); [left; auto 6 |].
  right. auto 6.
Qed.

(** X23: what [escapeHtml] returns holds no [<], no [>], no double quote and no
    single quote, and every [&] in it starts one of the five entities it
    writes; for [null] and [undefined] it returns the empty string.  So the
    text can stand between tags and inside a quoted attribute. *)
Theorem escapeHtml_is_inert (text : js_value) :
  Forall (fun u => u <> char_lt /\ u <> char_gt /\ u <> char_quot /\ u <> char_apos)
         (escapeHtml text) /\
  (forall before after,
      escapeHtml text = before ++ char_amp :: after ->
      exists e rest, In e entities /\ char_amp :: after = e ++ rest) /\
  escapeHtml js_null = [] /\ escapeHtml js_undefined = [].
Proof.
  split; [| split; [| split; reflexivity]].
  - destruct text as [| | s]; try constructor.
    induction s as [| u s IH]; [constructor |].
    rewrite escapeHtml_cons. apply Forall_app. split; [| exact IH].
    destruct (special_cases u) as [[H ->] | [H ->]].
    + destruct H as [-> | [-> | [-> | [-> | ->]]]]; cbn;
        repeat constructor; discriminate.
    + repeat constructor; apply H.
  - destruct text as [| | s]; try (intros [| ? ?] ? H; discriminate).
    induction s as [| u s IH]; intros before after H.
    + destruct before; discriminate.
    + rewrite escapeHtml_cons in H.
      destruct (special_cases u) as [[Hu Hs] | [Hu Hs]]; rewrite Hs in H.
      * assert (Hcases :
                  before = [] /\ In (entity u) entities /\
                  char_amp :: after = entity u ++ escapeHtml (js_str s)
                  \/ exists before', escapeHtml (js_str s) = before' ++ char_amp :: after).
        { destruct Hu as [-> | [-> | [-> | [-> | ->]]]];
            cbn [entity N.eqb Pos.eqb char_amp char_lt char_gt char_quot char_apos code_units
                 list_ascii_of_string map N_of_ascii N_of_digits app N.add N.mul Pos.add Pos.mul Pos.succ] in H;
            (destruct before as [| b0 before];
             [ injection H as <-; left; cbn; auto 10
             | injection H as <- H; right;
               repeat (destruct before as [| ? before];
                       [ discriminate | injection H as <- H ]);
               exists before; exact H ]). }
        destruct Hcases as [(_ & Hin & Heq) | [before' H']]; [eauto | eauto].
      * destruct before as [| b before]; cbn in H.
        -- injection H as -> _. destruct Hu as [Hu _]. now elim Hu.
        -- injection H as _ H. eauto.
Qed.

(** X24: [escapeHtml] tells every string apart from every other: two strings
    with the same escaped form are the same string. *)
Theorem escapeHtml_is_injective (a b : js_string) :
  escapeHtml (js_str a) = escapeHtml (js_str b) <-> a = b.
Proof.
  split; [| now intros ->].
  revert b. induction a as [| x a IH]; intros [| y b] H.
  - reflexivity.
  - rewrite escapeHtml_cons in H.
    destruct (special_cases y) as [[Hy Hs] | [Hy Hs]]; rewrite Hs in H;
      [destruct Hy as [-> | [-> | [-> | [-> | ->]]]] |]; discriminate.
  - rewrite escapeHtml_cons in H.
    destruct (special_cases x) as [[Hx Hs] | [Hx Hs]]; rewrite Hs in H;
      [destruct Hx as [-> | [-> | [-> | [-> | ->]]]] |]; discriminate.
  - rewrite !escapeHtml_cons in H.
    destruct (special_cases x) as [[Hx Hsx] | [Hx Hsx]]; rewrite Hsx in H;
      destruct (special_cases y) as [[Hy Hsy] | [Hy Hsy]]; rewrite Hsy in H.
    + destruct Hx as [-> | [-> | [-> | [-> | ->]]]];
        destruct Hy as [-> | [-> | [-> | [-> | ->]]]];
        cbn in H; try discriminate;
        f_equal; apply IH; now injection H.
    + destruct Hx as [-> | [-> | [-> | [-> | ->]]]]; cbn in H;
        injection H as <- _; destruct Hy as [Hy _]; now elim Hy.
    + destruct Hy as [-> | [-> | [-> | [-> | ->]]]]; cbn in H;
        injection H as -> _; destruct Hx as [Hx _]; now elim Hx.
    + cbn in H. injection H as -> H. f_equal. now apply IH.
Qed.

End trash_js_facts.

(** * Examples *)

Local Open Scope Z_scope.
Local Open Scope string_scope.
Local Open Scope list_scope.

Lemma quiet_succeeds (k : Kind) : succeeds env_quiet k.
Proof.
  intros n s _. reflexivity.
Defined.

Lemma failing_fails (k : Kind) (e : error) : fails_with (env_failing k e) k e.
Proof.
  intros n s Hk. cbn [fault env_failing]. unfold failing.
  destruct (Kind_eq_dec (kind_of s) k) as [_ | Hne]; [reflexivity | contradiction].
Defined.

Lemma failing_succeeds (k k' : Kind) (e : error) :
  k' <> k -> succeeds (env_failing k e) k'.
Proof.
  intros Hne n s Hk. cbn [fault env_failing]. unfold failing.
  destruct (Kind_eq_dec (kind_of s) k) as [Heq | _]; [congruence | reflexivity].
Defined.

(** C10 on the example: user 99 asks for the soft delete of trashed campaign 2
    of user 7 and is told that there is no such campaign; asks for the restore
    of active campaign 1 of user 7 and is denied. *)
Lemma trashed_campaign_is_not_found_before_ownership_witness :
  fst (SoftDeleteCampaign env_quiet "Queued" "In progress" "Completed" example_Marshal
                          2 99 "cleanup" example_world) = Some ErrCampaignNotFound /\
  fst (RestoreCampaign env_quiet "Created" example_Format example_Marshal
                       1 99 example_world) = (None, Some ErrPermissionDenied).
Proof.
  split.
  - destruct (trashed_campaign_is_not_found_before_ownership
                env_quiet "Created" "Queued" "In progress" "Completed"
                example_Format example_Marshal example_world 2 99 "cleanup" campaign_2
                (quiet_succeeds KBegin) (quiet_succeeds KFirst) eq_refl
                ltac:(cbn; lia)) as (H & _ & _).
    exact (proj1 (H eq_refl)).
  - destruct (trashed_campaign_is_not_found_before_ownership
                env_quiet "Created" "Queued" "In progress" "Completed"
                example_Format example_Marshal example_world 1 99 "cleanup" campaign_1
                (quiet_succeeds KBegin) (quiet_succeeds KFirst) eq_refl
                ltac:(cbn; lia)) as (_ & _ & H).
    exact (proj1 H).
Defined.

(** C3 on the example: user 99 is denied the restore of campaign 2 and the
    soft delete of campaign 1, both of user 7, and the store stays as it
    was. *)
Lemma non_owner_is_denied_witness :
  (fst (RestoreCampaign env_quiet "Created" example_Format example_Marshal
                        2 99 example_world) = (None, Some ErrPermissionDenied) /\
   db (snd (RestoreCampaign env_quiet "Created" example_Format example_Marshal
                            2 99 example_world)) = example_store) /\
  (fst (SoftDeleteCampaign env_quiet "Queued" "In progress" "Completed" example_Marshal
                           1 99 "cleanup" example_world) = Some ErrPermissionDenied /\
   db (snd (SoftDeleteCampaign env_quiet "Queued" "In progress" "Completed" example_Marshal
                               1 99 "cleanup" example_world)) = example_store).
Proof.
  split.
  - exact (proj1 (non_owner_is_denied
                    env_quiet "Created" "Queued" "In progress" "Completed"
                    example_Format example_Marshal example_world 2 99 "cleanup" campaign_2
                    (quiet_succeeds KBegin) (quiet_succeeds KFirst) eq_refl
                    ltac:(cbn; lia))).
  - exact (proj1 (proj2 (non_owner_is_denied
                           env_quiet "Created" "Queued" "In progress" "Completed"
                           example_Format example_Marshal example_world 1 99 "cleanup"
                           campaign_1
                           (quiet_succeeds KBegin) (quiet_succeeds KFirst) eq_refl
                           ltac:(cbn; lia)))
                 eq_refl).
Defined.

(** C3 as the claim states it fails: user 99 owns neither campaign 1, which is
    active, nor campaign 2, which is in the trash, and no purge of either
    answers ErrPermissionDenied.  As an administrator, user 99 is told that
    campaign 1 is not in the trash and that campaign 2 is not found; without
    the admin flag, that a purge requires admin privileges.  The soft delete of
    campaign 2 by user 99 is not answered with ErrPermissionDenied either, but
    with ErrCampaignNotFound. *)
Lemma purge_by_non_owner_counterexample :
  campaign_by_id 1 (campaigns example_store) = Some campaign_1 /\
  campaign_by_id 2 (campaigns example_store) = Some campaign_2 /\
  UserId campaign_1 <> 99 /\
  UserId campaign_2 <> 99 /\
  let active := PurgeCampaign env_quiet example_Marshal 1 99 true example_world in
  let trashed := PurgeCampaign env_quiet example_Marshal 2 99 true example_world in
  let plain := PurgeCampaign env_quiet example_Marshal 1 99 false example_world in
  let soft := SoftDeleteCampaign env_quiet "Queued" "In progress" "Completed" example_Marshal
                                 2 99 "cleanup" example_world in
  fst active = Some (errors_New "can only purge campaigns in trash") /\
  fst active <> Some ErrPermissionDenied /\
  fst trashed = Some ErrCampaignNotFound /\
  fst trashed <> Some ErrPermissionDenied /\
  fst plain = Some (errors_New "purge requires admin privileges") /\
  fst plain <> Some ErrPermissionDenied /\
  fst soft = Some ErrCampaignNotFound /\
  fst soft <> Some ErrPermissionDenied.
Proof.
  vm_compute. repeat split; try discriminate; reflexivity.
Qed.

(** C1 on the example: the administrator and the retention job purge trashed
    campaign 3; the first is told that the campaign is not found, the second
    returns no error, and the store is as it was. *)
Lemma purge_of_a_trashed_campaign_deletes_nothing_witness :
  (fst (PurgeCampaign env_quiet example_Marshal 3 8 true example_world)
   = Some ErrCampaignNotFound /\
   db (snd (PurgeCampaign env_quiet example_Marshal 3 8 true example_world))
   = example_store) /\
  (fst (PurgeSystemCampaign env_quiet example_Marshal 3 example_world) = None /\
   db (snd (PurgeSystemCampaign env_quiet example_Marshal 3 example_world))
   = example_store).
Proof.
  destruct (purge_of_a_trashed_campaign_deletes_nothing
              env_quiet example_Marshal example_world 3 8 campaign_3
              (quiet_succeeds KBegin) (quiet_succeeds KFirst) eq_refl eq_refl)
    as [(H1 & H2 & _) (H3 & H4 & _)].
  split; split; assumption.
Defined.

(** C2 on the example: the storage refuses audit entries; the system purge of
    trashed campaign 3 returns no error, the interactive purge says that the
    campaign is not found, and the soft delete of active campaign 1
    succeeds with no audit entry. *)
Lemma purge_does_not_reach_its_audit_entry_witness :
  let e := driver_error "audit_log: table is read only" in
  let env := env_failing KCreate e in
  (fst (PurgeSystemCampaign env example_Marshal 3 example_world) = None /\
   fst (PurgeCampaign env example_Marshal 3 8 true example_world)
   = Some ErrCampaignNotFound) /\
  (fst (SoftDeleteCampaign env "Queued" "In progress" "Completed" example_Marshal
                           1 7 "tidy" example_world) = None /\
   audit_log (db (snd (SoftDeleteCampaign env "Queued" "In progress" "Completed"
                                          example_Marshal 1 7 "tidy" example_world)))
   = []).
Proof.
  intros e env. split.
  - destruct (purge_does_not_reach_its_audit_entry
                env "Queued" "In progress" "Completed" example_Marshal example_world
                3 8 "tidy" campaign_3 e
                (failing_succeeds KCreate KBegin e ltac:(discriminate))
                (failing_succeeds KCreate KFirst e ltac:(discriminate))
                (failing_fails KCreate e) eq_refl) as [Hpurge _].
    destruct (Hpurge eq_refl) as [(H1 & _) (H2 & _)]. split; assumption.
  - destruct (purge_does_not_reach_its_audit_entry
                env "Queued" "In progress" "Completed" example_Marshal example_world
                1 7 "tidy" campaign_1 e
                (failing_succeeds KCreate KBegin e ltac:(discriminate))
                (failing_succeeds KCreate KFirst e ltac:(discriminate))
                (failing_fails KCreate e) eq_refl) as [_ Hsoft].
    destruct (Hsoft eq_refl eq_refl
                    (failing_succeeds KCreate KSave e ltac:(discriminate))
                    (failing_succeeds KCreate KCommit e ltac:(discriminate)))
      as (H1 & _ & _ & _ & H5).
    split; assumption.
Defined.

(** C4 on the example: a soft delete of campaign 2, which is in the trash, by
    its owner; two soft deletes of campaign 1 by its owner; and the system
    purge of campaign 42 (not there) and of campaign 1 (active). *)
Lemma second_soft_delete_is_not_found_witness :
  (fst (SoftDeleteCampaign env_quiet "Queued" "In progress" "Completed" example_Marshal
                           2 7 "again" example_world) = Some ErrCampaignNotFound /\
   db (snd (SoftDeleteCampaign env_quiet "Queued" "In progress" "Completed" example_Marshal
                               2 7 "again" example_world)) = example_store) /\
  (let r1 := SoftDeleteCampaign env_quiet "Queued" "In progress" "Completed" example_Marshal
                                1 7 "tidy" example_world in
   let r2 := SoftDeleteCampaign env_quiet "Queued" "In progress" "Completed" example_Marshal
                                1 7 "again" (snd r1) in
   fst r1 = None /\ fst r2 = Some ErrCampaignNotFound /\ db (snd r2) = db (snd r1) /\
   exists a, audit_log (db (snd r2)) = [a]) /\
  (fst (PurgeSystemCampaign env_quiet example_Marshal 42 example_world) = None /\
   db (snd (PurgeSystemCampaign env_quiet example_Marshal 42 example_world)) = example_store)
  /\
  (fst (PurgeSystemCampaign env_quiet example_Marshal 1 example_world) = None /\
   db (snd (PurgeSystemCampaign env_quiet example_Marshal 1 example_world)) = example_store).
Proof.
  split; [| split; [| split]].
  - destruct (second_soft_delete_is_not_found
                env_quiet "Queued" "In progress" "Completed" example_Marshal example_world
                2 7 "again" "again" campaign_2
                (quiet_succeeds KBegin) (quiet_succeeds KFirst)) as (H & _).
    destruct (H eq_refl eq_refl eq_refl) as (H1 & _ & H2). split; assumption.
  - destruct (second_soft_delete_is_not_found
                env_quiet "Queued" "In progress" "Completed" example_Marshal example_world
                1 7 "tidy" "again" campaign_1
                (quiet_succeeds KBegin) (quiet_succeeds KFirst)) as (_ & H & _).
    destruct (H eq_refl eq_refl eq_refl (quiet_succeeds KSave) (quiet_succeeds KCreate)
                (quiet_succeeds KCommit)) as (H1 & H2 & H3 & a & H4 & _).
    intros r1 r2. split; [exact H1 |]. split; [exact H2 |]. split; [exact H3 |].
    exists a. exact H4.
  - destruct (second_soft_delete_is_not_found
                env_quiet "Queued" "In progress" "Completed" example_Marshal example_world
                42 7 "tidy" "again" campaign_1
                (quiet_succeeds KBegin) (quiet_succeeds KFirst)) as (_ & _ & H & _).
    exact (H eq_refl).
  - destruct (second_soft_delete_is_not_found
                env_quiet "Queued" "In progress" "Completed" example_Marshal example_world
                1 7 "tidy" "again" campaign_1
                (quiet_succeeds KBegin) (quiet_succeeds KFirst)) as (_ & _ & _ & H).
    exact (H eq_refl eq_refl).
Defined.

(** C6 on the example: the owner soft-deletes campaign 1, which is in
    progress. *)
Lemma soft_delete_sets_the_lifecycle_fields_witness :
  let r := SoftDeleteCampaign env_quiet "Queued" "In progress" "Completed" example_Marshal
                              1 7 "tidy" example_world in
  fst r = None /\
  exists c',
    campaign_by_id 1 (campaigns (db (snd r))) = Some c' /\
    StatusBeforeDelete c' = "In progress" /\ Status c' = "Completed" /\
    DeletedAt c' = Some (200 * day) /\ DeletedBy c' = Some 7 /\
    DeleteReason c' = "tidy" /\ Version c' = 4.
Proof.
  destruct (soft_delete_sets_the_lifecycle_fields
              env_quiet "Queued" "In progress" "Completed" example_Marshal example_world
              1 7 "tidy" campaign_1
              (quiet_succeeds KBegin) (quiet_succeeds KFirst) (quiet_succeeds KSave)
              (quiet_succeeds KCommit) eq_refl eq_refl eq_refl)
    as (Hr & c' & Hrow & Hbefore & Hstop & _ & Hat & Hby & Hreason & Hversion & _).
  split; [exact Hr |].
  exists c'. split; [exact Hrow |]. split; [exact Hbefore |].
  split; [exact (Hstop (or_intror eq_refl)) |].
  split; [exact Hat |]. split; [exact Hby |]. split; [exact Hreason |]. exact Hversion.
Defined.

(** C5 on the example: the owner soft-deletes campaign 1 and restores it. *)
Lemma soft_delete_then_restore_round_trip_witness :
  let r1 := SoftDeleteCampaign env_quiet "Queued" "In progress" "Completed" example_Marshal
                               1 7 "tidy" example_world in
  let r2 := RestoreCampaign env_quiet "Created" example_Format example_Marshal 1 7 (snd r1) in
  exists res c2,
    fst r2 = (Some res, None) /\
    RestoredCampaign res = Some c2 /\
    Status c2 = "Created" /\ DeletedAt c2 = None /\ DeletedBy c2 = None /\
    Version c2 = 5 /\ Name c2 = "Q4 Drive".
Proof.
  destruct (soft_delete_then_restore_round_trip
              env_quiet "Created" "Queued" "In progress" "Completed"
              example_Format example_Marshal example_world 1 7 "tidy" campaign_1
              (quiet_succeeds KBegin) (quiet_succeeds KFirst) (quiet_succeeds KCount)
              (quiet_succeeds KSave) (quiet_succeeds KCommit)
              eq_refl eq_refl eq_refl eq_refl)
    as (_ & res & c2 & Hr & _ & Hres & _ & Hstatus & Hat & Hby & _ & _ & Hversion
        & _ & _ & Hname & _).
  exists res, c2.
  split; [exact Hr |]. split; [exact Hres |]. split; [exact Hstatus |].
  split; [exact Hat |]. split; [exact Hby |]. split; [exact Hversion |]. exact Hname.
Defined.

(** C7 on the example: user 7 restores campaign 2, whose name is that of the
    active campaign 1 in lower case; user 8 restores campaign 3, whose name
    nobody has. *)
Lemma restore_resolves_name_conflicts_witness :
  (exists res c',
      fst (RestoreCampaign env_quiet "Created" example_Format example_Marshal
                           2 7 example_world) = (Some res, None) /\
      RestoredCampaign res = Some c' /\
      NameChanged res = true /\ OldName res = "q4 drive" /\ NewName res = Name c' /\
      List.length (Warnings res) = 1%nat) /\
  (exists res c',
      fst (RestoreCampaign env_quiet "Created" example_Format example_Marshal
                           3 8 example_world) = (Some res, None) /\
      RestoredCampaign res = Some c' /\
      Name c' = "Old" /\ NameChanged res = false /\ Warnings res = []).
Proof.
  split.
  - destruct (restore_resolves_name_conflicts
                env_quiet "Created" example_Format example_Marshal example_world
                2 7 campaign_2
                (quiet_succeeds KBegin) (quiet_succeeds KFirst) (quiet_succeeds KCount)
                (quiet_succeeds KSave) (quiet_succeeds KCommit)
                eq_refl eq_refl eq_refl) as (_ & Htaken & _).
    destruct (Htaken eq_refl)
      as (k & res & c' & _ & _ & _ & Hr & Hres & _ & Hname & Hchanged & Hold & Hnew
          & Hwarn & _).
    exists res, c'.
    split; [exact Hr |]. split; [exact Hres |]. split; [exact Hchanged |].
    split; [exact Hold |]. split; [now rewrite Hnew, Hname |]. now rewrite Hwarn.
  - destruct (restore_resolves_name_conflicts
                env_quiet "Created" example_Format example_Marshal example_world
                3 8 campaign_3
                (quiet_succeeds KBegin) (quiet_succeeds KFirst) (quiet_succeeds KCount)
                (quiet_succeeds KSave) (quiet_succeeds KCommit)
                eq_refl eq_refl eq_refl) as (_ & _ & Hfree).
    destruct (Hfree eq_refl) as (res & c' & Hr & Hres & _ & Hname & Hchanged & Hwarn).
    exists res, c'.
    split; [exact Hr |]. split; [exact Hres |]. split; [exact Hname |].
    split; [exact Hchanged |]. exact Hwarn.
Defined.



(** The invitation of the example keeps its line ends. *)
Lemma Generate_keeps_line_ends_witness :
  ics.crlf_only (ics.Generate (fun _ _ => "20260118T090000Z") 0 ics.example_invitation) = true.
Proof.
  apply ics_facts.Generate_keeps_line_ends; intros; reflexivity.
Defined.

(** ** The retention job on the example *)

(** No database handle: the cycle returns the wrapped error, with a context
    that is already cancelled. *)
Lemma RunOnce_cannot_list_witness :
  fst (RunOnce (mkEnv quiet_storage example_clock "mysql" true) example_Format example_Marshal
               (NewTrashTTLJob config_150_days) ctx_done example_world)
  = Some (fmt_Errorf_w "failed to list purge candidates: %w"
                       (errors_New "database not initialized")).
Proof.
  exact (proj1 (proj1 (RunOnce_cannot_list
                         (mkEnv quiet_storage example_clock "mysql" true)
                         example_Format example_Marshal
                         (NewTrashTTLJob config_150_days) ctx_done example_world)
                      eq_refl)).
Defined.

(** At day 200 no campaign has been in the trash for 150 days: the cycle
    returns no error although its context is cancelled. *)
Lemma RunOnce_nothing_due_witness :
  fst (RunOnce env_quiet example_Format example_Marshal
               (NewTrashTTLJob config_150_days) ctx_done example_world) = None.
Proof.
  refine (proj1 (RunOnce_nothing_due env_quiet example_Format example_Marshal
                                     (NewTrashTTLJob config_150_days) ctx_done
                                     example_world eq_refl (quiet_succeeds KPluck) eq_refl _)).
  intros r Hr. cbn in Hr.
  destruct Hr as [<- | [<- | [<- | [<- | []]]]]; reflexivity.
Defined.

(** A retention of -5 days stands for 90 days. *)
Lemma retention_is_a_day_at_least_witness :
  cutoff_of (NewTrashTTLJob (mkTrashTTLConfig (-5) 0 0 true)) (200 * day) = 110 * day.
Proof.
  exact (proj1 (retention_is_a_day_at_least (mkTrashTTLConfig (-5) 0 0 true) (200 * day)
                                            ltac:(vm_compute; discriminate))).
Defined.

(** [Start] and [Stop] on a job that is not enabled. *)
Lemma disabled_job_is_not_started_witness :
  exists s,
    play env_quiet example_Format example_Marshal [CallStart; CallStop]
         (fresh_scheduler config_disabled example_world) = Goes s /\
    db (world s) = example_store /\ issued (world s) = [].
Proof.
  eexists. split; [vm_compute; reflexivity |].
  refine (let H := proj1 (disabled_job_is_not_started env_quiet example_Format example_Marshal
                                                      config_disabled example_world eq_refl)
                         [CallStart; CallStop] _ eq_refl in _).
  exact (conj (proj1 (proj2 H)) (proj1 (proj2 (proj2 H)))).
Defined.

(** ** The read side on the example *)

(** The trash of user 8: campaign 3, deleted last, before campaign 4. *)
Lemma GetTrashedCampaigns_is_the_users_trash_witness :
  fst (GetTrashedCampaigns quiet_queries 8 example_world) = ([campaign_3; campaign_4], None) /\
  fst (GetTrashedCampaigns (failing_queries (driver_error "gone away")) 8 example_world)
  = ([], Some (driver_error "gone away")).
Proof.
  split.
  - destruct (proj1 (GetTrashedCampaigns_is_the_users_trash
                       quiet_queries 8 example_world)
                    eq_refl) as (_ & _ & _).
    reflexivity.
  - exact (proj1 (proj2 (GetTrashedCampaigns_is_the_users_trash
                           (failing_queries (driver_error "gone away")) 8 example_world)
                        (driver_error "gone away") eq_refl)).
Defined.

(** The second page of one row of the trash of user 8. *)
Lemma GetTrashedCampaignsPaginated_is_a_window_witness :
  GetTrashedCampaignsPaginated quiet_queries 8 1 1 example_world
  = (([campaign_4], 2, None), example_world).
Proof.
  exact (proj1 (GetTrashedCampaignsPaginated_is_a_window
                  quiet_queries 8 1 1 example_world (fun _ _ => eq_refl)
                  ltac:(discriminate) ltac:(discriminate))).
Defined.

(** User 7 soft-deletes campaign 1 and finds it in the trash. *)
Lemma soft_deleted_campaign_enters_the_trash_witness :
  let w' := snd (SoftDeleteCampaign env_quiet "Queued" "In progress" "Completed"
                                    example_Marshal 1 7 "cleanup" example_world) in
  In (soft_deleted "Completed" true (200 * day) 7 "cleanup" campaign_1)
     (fst (fst (GetTrashedCampaigns quiet_queries 7 w'))).
Proof.
  exact (proj1 (soft_deleted_campaign_enters_the_trash
                  env_quiet "Queued" "In progress" "Completed"
                  example_Marshal quiet_queries example_world 1 7 "cleanup"
                  campaign_1 (fun _ _ => eq_refl)
                  (quiet_succeeds KBegin) (quiet_succeeds KFirst) (quiet_succeeds KSave)
                  (quiet_succeeds KCommit) eq_refl eq_refl eq_refl)).
Defined.

(** User 7 restores campaign 2. *)
Lemma restored_campaign_leaves_the_trash_witness :
  snd (fst (RestoreCampaign env_quiet "Created" example_Format example_Marshal
                            2 7 example_world)) = None.
Proof.
  exact (proj1 (restored_campaign_leaves_the_trash
                  env_quiet "Created" example_Format example_Marshal quiet_queries
                  example_world 2 7 campaign_2 (fun _ _ => eq_refl)
                  (quiet_succeeds KBegin) (quiet_succeeds KFirst) (quiet_succeeds KCount)
                  (quiet_succeeds KSave) (quiet_succeeds KCommit) eq_refl eq_refl eq_refl)).
Defined.

(** Administrator 99 asks for the purge of campaign 3, which stays in the trash
    of user 8. *)
Lemma purged_campaign_stays_in_the_trash_witness :
  fst (PurgeCampaign env_quiet example_Marshal 3 99 true example_world)
  = Some ErrCampaignNotFound /\
  In campaign_3
     (fst (fst (GetTrashedCampaigns
                  quiet_queries 8
                  (snd (PurgeCampaign env_quiet example_Marshal 3 99 true example_world))))).
Proof.
  refine (let H := purged_campaign_stays_in_the_trash
                     env_quiet example_Marshal quiet_queries
                     example_world 3 99 campaign_3 (fun _ _ => eq_refl)
                     (quiet_succeeds KBegin) (quiet_succeeds KFirst) eq_refl eq_refl in _).
  exact (conj (proj1 H) (proj1 (proj2 H))).
Defined.

(** A cycle at day 200 with a retention of 90 days: campaigns 4 and 3 are its
    candidates, it returns no error, and the store is as it was. *)
Lemma retention_cycle_deletes_nothing_witness :
  let r := RunOnce env_quiet example_Format example_Marshal
                   (NewTrashTTLJob (mkTrashTTLConfig 90 0 0 true)) ctx_live example_world in
  fst r = None /\ db (snd r) = example_store.
Proof.
  intros r.
  refine (let H := retention_cycle_deletes_nothing
                     env_quiet example_Format example_Marshal
                     (NewTrashTTLJob (mkTrashTTLConfig 90 0 0 true)) ctx_live example_world
          in _).
  split.
  - exact (proj1 (proj2 H eq_refl (quiet_succeeds KPluck) (quiet_succeeds KBegin)
                        (quiet_succeeds KFirst) eq_refl (fun _ => eq_refl)
                        ltac:(vm_compute; discriminate))).
  - exact (proj1 (proj1 H)).
Defined.

(** An entry without a key saved at day 200 gets key 1 and the clock
    reading. *)
Lemma SaveAuditLog_then_GetAuditLogs_witness :
  fst (fst (SaveAuditLog env_quiet example_entry example_world))
  = with_ID (set_Timestamp (Some (200 * day)) example_entry) 1.
Proof.
  exact (proj1 (proj1 (proj2 (proj1 (SaveAuditLog_then_GetAuditLogs
                                       env_quiet quiet_queries example_entry
                                       example_world (fun _ _ => eq_refl))
                                    (quiet_succeeds KCreate)))
                      eq_refl)).
Defined.

(** ** The handlers on the example *)

(** Page 2 of size 1 of the trash of user 8. *)
Lemma CampaignsTrash_pages_witness :
  fst (CampaignsTrash quiet_queries "GET" 8 2 1 example_world)
  = JSONResponse (BTrash [campaign_4] 2 2 1) http_StatusOK.
Proof.
  exact (proj1 (proj2 (CampaignsTrash_pages quiet_queries "GET" 8 2 1 example_world))
               eq_refl (fun _ _ => eq_refl) eq_refl).
Defined.

(** User 99 asks for the restore of campaign 2 of user 7. *)
Lemma CampaignRestore_refuses_witness :
  fst (CampaignRestore env_quiet "Created" example_Format example_Marshal "POST" 2 99
                       example_world)
  = JSONResponse (BResponse (mkResponse false (Text "Permission denied"))) http_StatusForbidden.
Proof.
  exact (proj1 (proj1 (proj2 (CampaignRestore_refuses
                                env_quiet "Created" example_Format example_Marshal
                                2 99 example_world
                                (quiet_succeeds KBegin) (quiet_succeeds KFirst)))
                      campaign_2 eq_refl ltac:(discriminate))).
Defined.

(** Administrator 7 asks for the purge of campaign 1 with a body that holds
    no confirmation. *)
Lemma CampaignPurge_needs_admin_and_confirmation_witness :
  CampaignPurge env_quiet example_Marshal example_GetCampaign example_GetUser
                "DELETE" 1 7 (inr EmptyString) example_world
  = (JSONResponse (BResponse (mkResponse false (Text "Confirmation does not match")))
                  http_StatusBadRequest, example_world).
Proof.
  exact (proj1 (proj2 (proj2 (CampaignPurge_needs_admin_and_confirmation
                                env_quiet example_Marshal example_GetCampaign example_GetUser
                                "DELETE" 1 7 (inr EmptyString) example_world))
                      (mkUser (mkRole "admin")) example_world campaign_1 example_world
                      eq_refl eq_refl eq_refl eq_refl)
               eq_refl ltac:(discriminate)).
Defined.

(** User 7 deletes campaign 1. *)
Lemma Server_Campaign_deletes_softly_witness :
  fst (Server_Campaign env_quiet "Queued" "In progress" "Completed" example_Marshal
                       example_GetCampaign "DELETE" 1 7 "cleanup" example_world)
  = JSONResponse (BResponse (mkResponse true (Text "Campaign moved to trash"))) http_StatusOK.
Proof.
  exact (proj1 (proj1 (Server_Campaign_deletes_softly
                         env_quiet "Queued" "In progress" "Completed" example_Marshal
                         example_GetCampaign 1 7 "cleanup" example_world example_world
                         campaign_1 campaign_1
                         (quiet_succeeds KBegin) (quiet_succeeds KFirst)
                         (quiet_succeeds KSave) (quiet_succeeds KCommit) eq_refl eq_refl)
                      eq_refl eq_refl)).
Defined.

(** User 7 soft-deletes campaign 1: the events are as they were. *)
Lemma soft_delete_and_restore_keep_the_rest_witness :
  events (db (snd (SoftDeleteCampaign env_quiet "Queued" "In progress" "Completed"
                                      example_Marshal 1 7 "cleanup" example_world)))
  = events example_store.
Proof.
  exact (proj1 (proj1 (soft_delete_and_restore_keep_the_rest
                         env_quiet "Created" "Queued" "In progress" "Completed"
                         example_Format example_Marshal
                         example_world 1 7 "cleanup" campaign_1
                         quiet_succeeds eq_refl eq_refl)
                      eq_refl)).
Defined.
